(** * goftp: the LIST parser and the control-reply reader

    A shallow embedding of [parse.go] and of the reply-handling part of
    [ftp.go], together with the properties of the specification that are
    settled against it.

    Conventions of the embedding:
    - a Go [string] is a Rocq [string] (a sequence of bytes); a Go [byte]
      is an [ascii];
    - a Go [int], [int64] or [uint64] is a [Z]; wrap-around is written out
      where a value can leave its range;
    - an indexing or slicing expression can panic: such code lives in the
      [result] monad, [Panic] being the Go run-time panic;
    - a pointer result that can be [nil] is an [option];
    - the package globals [now] and [currentYear] are parameters. *)

From Stdlib Require Import ZArith String Ascii List Bool Lia.
Import ListNotations.

Local Open Scope string_scope.
Local Open Scope Z_scope.

(** ** Run-time panics *)

Inductive panic : Type :=
| IndexOutOfRange
| SliceOutOfRange.

Inductive result (A : Type) : Type :=
| Ret (a : A)
| Panic (p : panic).

Arguments Ret {A} a.
Arguments Panic {A} p.

Definition bind {A B : Type} (m : result A) (k : A -> result B) : result B :=
  match m with
  | Ret a => k a
  | Panic p => Panic p
  end.

Notation "x <- m ;; k" := (bind m (fun x => k))
  (at level 61, m at next level, right associativity).

(** ** Go strings *)

Definition len (s : string) : Z := Z.of_nat (String.length s).

Definition byte_val (c : ascii) : Z := Z.of_N (N_of_ascii c).

Definition byte_eqb (a b : ascii) : bool := Ascii.eqb a b.

(** [s[i]] *)
Definition at_ (s : string) (i : Z) : result ascii :=
  if (0 <=? i) && (i <? len s) then
    match String.get (Z.to_nat i) s with
    | Some c => Ret c
    | None => Panic IndexOutOfRange
    end
  else Panic IndexOutOfRange.

(** [s[lo:hi]] *)
Definition slice (s : string) (lo hi : Z) : result string :=
  if (0 <=? lo) && (lo <=? hi) && (hi <=? len s) then
    Ret (substring (Z.to_nat lo) (Z.to_nat (hi - lo)) s)
  else Panic SliceOutOfRange.

(** [s[lo:]] *)
Definition sliceFrom (s : string) (lo : Z) : result string :=
  slice s lo (len s).

(** [s[:hi]] *)
Definition sliceTo (s : string) (hi : Z) : result string :=
  slice s 0 hi.

Definition tab : ascii := ascii_of_nat 9.
Definition lf : ascii := ascii_of_nat 10.
Definition cr : ascii := ascii_of_nat 13.

Fixpoint str_mem (c : ascii) (set : string) : bool :=
  match set with
  | EmptyString => false
  | String d set' => byte_eqb c d || str_mem c set'
  end.

Definition str_rev (s : string) : string :=
  string_of_list_ascii (rev (list_ascii_of_string s)).

(** [strings.TrimLeft], [strings.TrimRight] and [strings.Trim] for a
    cutset of ASCII bytes, the only use in the package. *)
Fixpoint TrimLeft (s cutset : string) : string :=
  match s with
  | EmptyString => EmptyString
  | String c s' => if str_mem c cutset then TrimLeft s' cutset else s
  end.

Definition TrimRight (s cutset : string) : string :=
  str_rev (TrimLeft (str_rev s) cutset).

Definition Trim (s cutset : string) : string :=
  TrimRight (TrimLeft s cutset) cutset.

(** The cutset ["\t\n\r "] of the parsers. *)
Definition blanks : string :=
  String tab (String lf (String cr (String " " EmptyString))).

(** [strings.Index]: the position of the first occurrence of [sep], or -1. *)
Fixpoint index_from (s sep : string) (k : Z) : Z :=
  if String.prefix sep s then k
  else match s with
       | EmptyString => -1
       | String _ s' => index_from s' sep (k + 1)
       end.

Definition Index (s sep : string) : Z := index_from s sep 0.

Definition HasPrefix (s p : string) : bool := String.prefix p s.

(** [strings.Split] for a one-byte separator. *)
Fixpoint split_byte (s : string) (sep : ascii) (cur : string) : list string :=
  match s with
  | EmptyString => [str_rev cur]
  | String c s' =>
      if byte_eqb c sep then str_rev cur :: split_byte s' sep EmptyString
      else split_byte s' sep (String c cur)
  end.

Definition Split (s : string) (sep : ascii) : list string :=
  split_byte s sep EmptyString.

(** [strings.ToLower] on the ASCII letters. *)
Definition lower_byte (c : ascii) : ascii :=
  let n := byte_val c in
  if (65 <=? n) && (n <=? 90) then ascii_of_N (Z.to_N (n + 32)) else c.

Fixpoint ToLower (s : string) : string :=
  match s with
  | EmptyString => EmptyString
  | String c s' => String (lower_byte c) (ToLower s')
  end.

(** [strings.TrimSpace]: the white space of Unicode, in UTF-8.  The ASCII
    ones are single bytes; the others are the encodings of U+0085, U+00A0,
    U+1680, U+2000..U+200A, U+2028, U+2029, U+202F, U+205F and U+3000. *)
Definition bytes (l : list nat) : string :=
  string_of_list_ascii (map ascii_of_nat l).

Definition unicode_spaces : list string :=
  map bytes
    ([[9]; [10]; [11]; [12]; [13]; [32]; [194; 133]; [194; 160];
      [225; 154; 128]]
     ++ map (fun k => [226; 128; k]) (seq 128 11)
     ++ [[226; 128; 168]; [226; 128; 169]; [226; 128; 175];
         [226; 129; 159]; [227; 128; 128]])%nat%list.

Fixpoint strip_prefix (p s : string) : option string :=
  match p, s with
  | EmptyString, _ => Some s
  | String a p', String b s' => if byte_eqb a b then strip_prefix p' s' else None
  | String _ _, EmptyString => None
  end.

Fixpoint strip_any (ps : list string) (s : string) : option string :=
  match ps with
  | [] => None
  | p :: ps' =>
      match strip_prefix p s with
      | Some s' => Some s'
      | None => strip_any ps' s
      end
  end.

Fixpoint trim_space_left (fuel : nat) (spaces : list string) (s : string) : string :=
  match fuel with
  | O => s
  | S fuel' =>
      match strip_any spaces s with
      | Some s' => trim_space_left fuel' spaces s'
      | None => s
      end
  end.

Definition TrimSpace (s : string) : string :=
  let l := trim_space_left (String.length s) unicode_spaces s in
  let r := str_rev l in
  str_rev (trim_space_left (String.length r) (map str_rev unicode_spaces) r).

(** ** strconv *)

Inductive numError : Type :=
| ErrSyntax
| ErrRange.

Definition is_digit (c : ascii) : bool :=
  (48 <=? byte_val c) && (byte_val c <=? 57).

Definition maxUint64 : Z := 2 ^ 64 - 1.

(** The digit loop of [strconv.ParseUint] in base 10: [n] is the value so
    far, [maxVal] the largest value of the requested bit size. *)
Fixpoint parseUint_digits (s : string) (n maxVal : Z) : Z * option numError :=
  match s with
  | EmptyString => (n, None)
  | String c s' =>
      if is_digit c then
        let d := byte_val c - 48 in
        if n >=? maxUint64 / 10 + 1 then (maxVal, Some ErrRange)
        else
          let n10 := n * 10 in
          let n1 := (n10 + d) mod 2 ^ 64 in
          if (n1 <? n10) || (n1 >? maxVal) then (maxVal, Some ErrRange)
          else parseUint_digits s' n1 maxVal
      else (0, Some ErrSyntax)
  end.

(** [strconv.ParseUint(s, 10, bitSize)] *)
Definition ParseUint (s : string) (bitSize : Z) : Z * option numError :=
  match s with
  | EmptyString => (0, Some ErrSyntax)
  | _ => parseUint_digits s 0 (2 ^ bitSize - 1)
  end.

(** [strconv.ParseInt(s, 10, bitSize)] *)
Definition ParseInt (s : string) (bitSize : Z) : Z * option numError :=
  match s with
  | EmptyString => (0, Some ErrSyntax)
  | String c s' =>
      let neg := byte_eqb c "-" in
      let digits := if byte_eqb c "+" || neg then s' else s in
      match ParseUint digits bitSize with
      | (_, Some ErrSyntax) => (0, Some ErrSyntax)
      | (un, _) =>
          let cutoff := 2 ^ (bitSize - 1) in
          if negb neg && (un >=? cutoff) then (cutoff - 1, Some ErrRange)
          else if neg && (un >? cutoff) then (- cutoff, Some ErrRange)
          else (if neg then - un else un, None)
      end
  end.

(** [strconv.Atoi]: [ParseInt] at the size of [int], 64 bits. *)
Definition Atoi (s : string) : Z * option numError := ParseInt s 64.

(** [parseInt] of parse.go: the error is dropped. *)
Definition parseInt (num : string) : Z := fst (ParseInt num 32).


(** ** time *)

(** [time.Date(year, month, day, hour, min, sec, 0, UTC).Unix()], after the
    standard library: the fields are normalised (a month outside 1..12
    carries into the year, seconds into minutes, minutes into hours, hours
    into days), then the days of the proleptic Gregorian calendar are
    counted from 1970-01-01. *)
Definition norm (hi lo base : Z) : Z * Z := (hi + lo / base, lo mod base).

Definition isLeap (year : Z) : bool :=
  (year mod 4 =? 0) && (negb (year mod 100 =? 0) || (year mod 400 =? 0)).

(** Days of a non-leap year before the month of index [m] (0 = January). *)
Definition daysBefore (m : Z) : Z :=
  nth (Z.to_nat m) [0; 31; 59; 90; 120; 151; 181; 212; 243; 273; 304; 334; 365] 0.

(** Days from 1970-01-01 to the first of January of [year]. *)
Definition daysSinceEpoch (year : Z) : Z :=
  365 * (year - 1970)
  + ((year - 1) / 4 - (year - 1) / 100 + (year - 1) / 400) - 477.

Definition DateUnix (year month day hour min sec : Z) : Z :=
  let '(year, m) := norm year (month - 1) 12 in
  let month := m + 1 in
  let '(min, sec) := norm min sec 60 in
  let '(hour, min) := norm hour min 60 in
  let '(day, hour) := norm day hour 24 in
  let d := daysSinceEpoch year + daysBefore (month - 1)
           + (if isLeap year && (3 <=? month) then 1 else 0)
           + (day - 1) in
  d * 86400 + hour * 3600 + min * 60 + sec.

(** The zero [time.Time], 0001-01-01 00:00:00 UTC, as a Unix time. *)
Definition zeroTime : Z := -62135596800.

(** ** parse.go: the data model *)

Inductive MTIME_TYPE : Type :=
| UNKNOWN_MTIME_TYPE
| LOCAL_MTIME_TYPE
| REMOTE_MINUTE_MTIME_TYPE
| REMOTE_DAY_MTIME_TYPE.

Inductive ID_TYPE : Type :=
| UNKNOWN_ID_TYPE
| FULL_ID_TYPE.

(** [Mtime] is held as its Unix time: every value the parsers store is a
    [time.Unix(t, 0)]. *)
Record FTPListData : Type := mkFTPListData {
  RawLine : string;
  Name : string;
  TryCwd : bool;
  TryRetr : bool;
  Size : Z;
  MtimeType : MTIME_TYPE;
  Mtime : Z;
  IdType : ID_TYPE;
  Id : string;
  LinkDest : string
}.

Definition newFTPListData (rawLine : string) : FTPListData :=
  {| RawLine := rawLine; Name := ""; TryCwd := false; TryRetr := false;
     Size := 0; MtimeType := UNKNOWN_MTIME_TYPE; Mtime := zeroTime;
     IdType := UNKNOWN_ID_TYPE; Id := ""; LinkDest := "" |}.

Definition set_Name (v : string) (f : FTPListData) : FTPListData :=
  mkFTPListData (RawLine f) v (TryCwd f) (TryRetr f) (Size f) (MtimeType f)
    (Mtime f) (IdType f) (Id f) (LinkDest f).
Definition set_TryCwd (v : bool) (f : FTPListData) : FTPListData :=
  mkFTPListData (RawLine f) (Name f) v (TryRetr f) (Size f) (MtimeType f)
    (Mtime f) (IdType f) (Id f) (LinkDest f).
Definition set_TryRetr (v : bool) (f : FTPListData) : FTPListData :=
  mkFTPListData (RawLine f) (Name f) (TryCwd f) v (Size f) (MtimeType f)
    (Mtime f) (IdType f) (Id f) (LinkDest f).
Definition set_Size (v : Z) (f : FTPListData) : FTPListData :=
  mkFTPListData (RawLine f) (Name f) (TryCwd f) (TryRetr f) v (MtimeType f)
    (Mtime f) (IdType f) (Id f) (LinkDest f).
Definition set_MtimeType (v : MTIME_TYPE) (f : FTPListData) : FTPListData :=
  mkFTPListData (RawLine f) (Name f) (TryCwd f) (TryRetr f) (Size f) v
    (Mtime f) (IdType f) (Id f) (LinkDest f).
Definition set_Mtime (v : Z) (f : FTPListData) : FTPListData :=
  mkFTPListData (RawLine f) (Name f) (TryCwd f) (TryRetr f) (Size f)
    (MtimeType f) v (IdType f) (Id f) (LinkDest f).
Definition set_IdType (v : ID_TYPE) (f : FTPListData) : FTPListData :=
  mkFTPListData (RawLine f) (Name f) (TryCwd f) (TryRetr f) (Size f)
    (MtimeType f) (Mtime f) v (Id f) (LinkDest f).
Definition set_Id (v : string) (f : FTPListData) : FTPListData :=
  mkFTPListData (RawLine f) (Name f) (TryCwd f) (TryRetr f) (Size f)
    (MtimeType f) (Mtime f) (IdType f) v (LinkDest f).
Definition set_LinkDest (v : string) (f : FTPListData) : FTPListData :=
  mkFTPListData (RawLine f) (Name f) (TryCwd f) (TryRetr f) (Size f)
    (MtimeType f) (Mtime f) (IdType f) (Id f) v.

(** ** Loops *)

(** What one turn of a loop body asks for: the next turn, [break], or a
    [return] out of the enclosing function. *)
Inductive ctl (S R : Type) : Type :=
| Next (s : S)
| Break (s : S)
| Return (r : R).

Arguments Next {S R} s.
Arguments Break {S R} s.
Arguments Return {S R} r.

(** [for j := j0; j < j0 + n; j++ { body }], the body leaving [j] alone.
    The outcome is the state at the exit of the loop, or the value
    returned from inside it. *)
Fixpoint for_loop {S R : Type} (n : nat) (j : Z)
    (body : Z -> S -> result (ctl S R)) (s : S) : result (S + R) :=
  match n with
  | O => Ret (inl s)
  | Datatypes.S n' =>
      match body j s with
      | Ret (Next s') => for_loop n' (j + 1) body s'
      | Ret (Break s') => Ret (inl s')
      | Ret (Return r) => Ret (inr r)
      | Panic p => Panic p
      end
  end.

(** ** parse.go: EPLF *)

Definition eplf_body (buf : string) (j : Z) (st : Z * FTPListData)
    : result (ctl (Z * FTPListData) (option FTPListData)) :=
  let '(i, fdata) := st in
  bj <- at_ buf j ;;
  if byte_eqb bj tab then
    name <- sliceFrom buf (j + 1) ;;
    Ret (Break (i, set_Name name fdata))
  else if byte_eqb bj "," then
    c <- at_ buf i ;;
    if byte_eqb c "/" then Ret (Next (j + 1, set_TryCwd true fdata))
    else if byte_eqb c "r" then Ret (Next (j + 1, set_TryRetr true fdata))
    else if byte_eqb c "s" then
      num <- slice buf (i + 1) j ;;
      match ParseUint num 64 with
      | (size, None) => Ret (Next (j + 1, set_Size size fdata))
      | (_, Some _) => Ret (Return None)
      end
    else if byte_eqb c "m" then
      let fdata := set_MtimeType LOCAL_MTIME_TYPE fdata in
      num <- slice buf (i + 1) j ;;
      match ParseInt num 64 with
      | (unixtime, None) => Ret (Next (j + 1, set_Mtime unixtime fdata))
      | (_, Some _) => Ret (Return None)
      end
    else if byte_eqb c "i" then
      let fdata := set_IdType FULL_ID_TYPE fdata in
      id <- slice buf (i + 1) (j - i - 1) ;;
      Ret (Next (j + 1, set_Id id fdata))
    else Ret (Next (j + 1, fdata))
  else Ret (Next (i, fdata)).

Definition parseEPLF (buf : string) : result (option FTPListData) :=
  let fdata := newFTPListData buf in
  let buf := Trim buf blanks in
  r <- for_loop (Z.to_nat (len buf - 1)) 1 (eplf_body buf) (1, fdata) ;;
  match r with
  | inl (_, fdata) => Ret (Some fdata)
  | inr early => Ret early
  end.

(** ** parse.go: dates *)

Definition getMtime (year month mday hour minute second : Z) : Z :=
  DateUnix year month mday hour minute second.

Definition MONTHS : list string :=
  ["jan"; "feb"; "mar"; "apr"; "may"; "jun";
   "jul"; "aug"; "sep"; "oct"; "nov"; "dec"].

Fixpoint getMonth_loop (months : list string) (i : Z) (buf : string) : Z :=
  match months with
  | [] => -1
  | m :: months' =>
      if String.eqb (ToLower buf) m then i + 1
      else getMonth_loop months' (i + 1) buf
  end.

(** On three bytes [strings.ToLower] can only produce a month name from
    ASCII letters, so the ASCII [ToLower] gives the same answer. *)
Definition getMonth (buf : string) : Z :=
  if len buf =? 3 then getMonth_loop MONTHS 0 buf else -1.

Section Clock.

(** The package globals: [now] as a Unix time, and [currentYear]. *)
Variable now : Z.
Variable currentYear : Z.

(** The loop of [guessTime]: [n] turns are left, [year] is the candidate. *)
Fixpoint guessTime_loop (n : nat) (year month mday hour minute : Z) : Z :=
  match n with
  | O => 0
  | S n' =>
      let t := getMtime year month mday hour minute 0 in
      if now - t <? 350 * 86400 then t
      else guessTime_loop n' (year + 1) month mday hour minute
  end.

Definition guessTime (month mday hour minute : Z) : Z :=
  let ul := currentYear + 100 in
  guessTime_loop (Z.to_nat (ul - (currentYear - 1)))
    (currentYear - 1) month mday hour minute.

(** ** parse.go: UNIX-style listings *)

(** The local variables of [parseUNIXStyle] that live across the turns of
    its scanning loop. *)
Record unix_state : Type := mkUnix {
  u_state : Z;
  u_i : Z;
  u_size : Z;
  u_month : Z;
  u_mday : Z;
  u_hour : Z;
  u_minute : Z;
  u_year : Z;
  u_fdata : FTPListData
}.

Definition unix_init (fdata : FTPListData) : unix_state :=
  mkUnix 1 0 0 1 0 0 0 0 fdata.

(** [for i = j + 1; (i < buflen) && (buf[i] == ' '); i++ {}]: at most
    [n = buflen - (j + 1)] turns. *)
Fixpoint skip_blanks (n : nat) (buf : string) (i : Z) : Z :=
  match n with
  | O => i
  | S n' =>
      if i <? len buf then
        match at_ buf i with
        | Ret " "%char => skip_blanks n' buf (i + 1)
        | _ => i
        end
      else i
  end.

(** The time-or-year token [buf[i:j]] of state 7: [None] is the [break]
    taken for a token shorter than four bytes. *)
Definition unix_time_or_year (buf : string) (j : Z) (st : unix_state)
    : result (option unix_state) :=
  let i := u_i st in
  let month := u_month st in
  let mday := u_mday st in
  let finish (st : unix_state) : result (option unix_state) :=
    name <- sliceFrom buf (j + 1) ;;
    Ret (Some (mkUnix 8 (u_i st) (u_size st) (u_month st) (u_mday st)
                 (u_hour st) (u_minute st) (u_year st)
                 (set_Name name (u_fdata st)))) in
  colon1 <- (if j - i =? 4 then b <- at_ buf (i + 1) ;; Ret (byte_eqb b ":")
             else Ret false) ;;
  if colon1 then
    h <- at_ buf i ;;
    (* [string(buf[i])]: one byte below 128 gives itself; above, two bytes
       that are not digits, as little a number as the byte itself *)
    let hour := parseInt (String h EmptyString) in
    m <- slice buf (i + 2) (i + 4) ;;
    let minute := parseInt m in
    let fdata := set_MtimeType REMOTE_MINUTE_MTIME_TYPE (u_fdata st) in
    let fdata := set_Mtime (guessTime month mday hour minute) fdata in
    finish (mkUnix (u_state st) i (u_size st) month mday hour minute
              (u_year st) fdata)
  else
    colon2 <- (if j - i =? 5 then b <- at_ buf (i + 2) ;; Ret (byte_eqb b ":")
               else Ret false) ;;
    if colon2 then
      h <- slice buf i (i + 2) ;;
      let hour := parseInt h in
      m <- slice buf (i + 3) (i + 5) ;;
      let minute := parseInt m in
      let fdata := set_MtimeType REMOTE_MINUTE_MTIME_TYPE (u_fdata st) in
      let fdata := set_Mtime (guessTime month mday hour minute) fdata in
      finish (mkUnix (u_state st) i (u_size st) month mday hour minute
                (u_year st) fdata)
    else if j - i >=? 4 then
      y <- slice buf i j ;;
      let year := parseInt y in
      let fdata := set_MtimeType REMOTE_DAY_MTIME_TYPE (u_fdata st) in
      let fdata := set_Mtime (getMtime year month mday 0 0 0) fdata in
      finish (mkUnix (u_state st) i (u_size st) month mday (u_hour st)
                (u_minute st) year fdata)
    else Ret None.

(** The [if]/[else if] chain on [state], run at the end of a token. *)
Definition unix_token (buf : string) (j : Z) (st : unix_state)
    : result (option unix_state) :=
  let i := u_i st in
  let with_state (s : Z) (st : unix_state) :=
    mkUnix s (u_i st) (u_size st) (u_month st) (u_mday st) (u_hour st)
      (u_minute st) (u_year st) (u_fdata st) in
  let with_size (sz : Z) (st : unix_state) :=
    mkUnix (u_state st) (u_i st) sz (u_month st) (u_mday st) (u_hour st)
      (u_minute st) (u_year st) (u_fdata st) in
  let state := u_state st in
  if state =? 1 then Ret (Some (with_state 2 st))
  else if state =? 2 then
    netpresenz <- (if j - i =? 6 then b <- at_ buf i ;; Ret (byte_eqb b "f")
                   else Ret false) ;;
    Ret (Some (with_state (if netpresenz then 4 else 3) st))
  else if state =? 3 then Ret (Some (with_state 4 st))
  else if state =? 4 then
    tok <- slice buf i j ;;
    Ret (Some (with_state 5 (with_size (fst (ParseUint tok 64)) st)))
  else if state =? 5 then
    tok <- slice buf i j ;;
    let month := getMonth tok in
    let st := mkUnix (u_state st) (u_i st) (u_size st) month (u_mday st)
                (u_hour st) (u_minute st) (u_year st) (u_fdata st) in
    if month >=? 0 then Ret (Some (with_state 6 st))
    else Ret (Some (with_size (fst (ParseUint tok 64)) st))
  else if state =? 6 then
    tok <- slice buf i j ;;
    Ret (Some (with_state 7
      (mkUnix (u_state st) (u_i st) (u_size st) (u_month st) (parseInt tok)
         (u_hour st) (u_minute st) (u_year st) (u_fdata st))))
  else if state =? 7 then unix_time_or_year buf j st
  else Ret (Some st).

Definition unix_body (buf : string) (j : Z) (st : unix_state)
    : result (ctl unix_state unit) :=
  bj <- at_ buf j ;;
  ends_token <- (if byte_eqb bj " "
                 then b <- at_ buf (j - 1) ;; Ret (negb (byte_eqb b " "))
                 else Ret false) ;;
  if ends_token then
    r <- unix_token buf j st ;;
    match r with
    | None => Ret (Break st)
    | Some st =>
        let i := skip_blanks (Z.to_nat (len buf - (j + 1))) buf (j + 1) in
        Ret (Next (mkUnix (u_state st) i (u_size st) (u_month st) (u_mday st)
                     (u_hour st) (u_minute st) (u_year st) (u_fdata st)))
    end
  else Ret (Next st).

(** The search for [" -> "] in the name of a symbolic link. *)
Definition link_body (j : Z) (fdata : FTPListData)
    : result (ctl FTPListData unit) :=
  w <- slice (Name fdata) j (j + 4) ;;
  if String.eqb w " -> " then
    let tmp := Name fdata in
    name <- sliceTo tmp j ;;
    dest <- sliceFrom tmp (j + 4) ;;
    Ret (Break (set_LinkDest dest (set_Name name fdata)))
  else Ret (Next fdata).

Definition from_loop {S : Type} (r : S + unit) (dflt : S) : S :=
  match r with
  | inl s => s
  | inr _ => dflt
  end.

Definition parseUNIXStyle (buf : string) : result (option FTPListData) :=
  let fdata := newFTPListData buf in
  let buf := Trim buf blanks in
  let buflen := len buf in
  c <- at_ buf 0 ;;
  let fdata :=
    if byte_eqb c "d" then set_TryCwd true fdata
    else if byte_eqb c "-" then set_TryRetr true fdata
    else if byte_eqb c "l" then set_TryCwd true (set_TryRetr true fdata)
    else fdata in
  r <- for_loop (Z.to_nat (buflen - 1)) 1 (unix_body buf) (unix_init fdata) ;;
  let st := from_loop r (unix_init fdata) in
  let fdata := set_Size (u_size st) (u_fdata st) in
  fdata <- (if byte_eqb c "l" then
              r <- for_loop (Z.to_nat (len (Name fdata) - 3)) 0 link_body fdata ;;
              Ret (from_loop r fdata)
            else Ret fdata) ;;
  b1 <- at_ buf 1 ;;
  let fdata :=
    if byte_eqb b1 " " || byte_eqb b1 "[" then
      if len (Name fdata) >? 3 then set_Name (TrimSpace (Name fdata)) fdata
      else fdata
    else fdata in
  Ret (Some fdata).

(** ** parse.go: the delimiter-seeking helpers *)

Definition indexAfter (s sep : string) (i : Z) : result Z :=
  rest <- sliceFrom s i ;;
  let x := i + Index rest sep in
  Ret (if x <? i then -1 else x).

(** [for go_on(s[j]) { j += 1; if j == len(s) { stop } }]: the result is
    the first [j] at which [go_on] fails, or [None] when the end of [s] is
    reached first.  [n] counts the bytes after [s[j]], so that [j + 1]
    equals [len(s)] exactly when [n] is zero. *)
Fixpoint scan (n : nat) (s : string) (j : Z) (go_on : ascii -> bool)
    : result (option Z) :=
  b <- at_ s j ;;
  if go_on b then
    match n with
    | O => Ret None
    | S n' => scan n' s (j + 1) go_on
    end
  else Ret (Some j).

Definition scan_from (s : string) (j : Z) (go_on : ascii -> bool)
    : result (option Z) :=
  scan (Z.to_nat (len s - j - 1)) s j go_on.

Definition skip (s : string) (i : Z) (c : ascii) : result Z :=
  r <- scan_from s i (byte_eqb c) ;;
  match r with
  | Some i' => Ret i'
  | None => Ret (-1)
  end.

(** [if x = m; x == -1 { return }], the function's result so far being
    [so_far]. *)
Definition or_return {R : Type} (so_far : R) (m : result Z)
    (k : Z -> result R) : result R :=
  x <- m ;; if x =? -1 then Ret so_far else k x.

Notation "x <-? m 'else_return' r ;; k" := (or_return r m (fun x => k))
  (at level 61, m at next level, r at next level, right associativity).

(** ** parse.go: MultiNet and VMS *)

Definition parseMultinet (buf : string) (i : Z) : result (option FTPListData) :=
  let fdata := newFTPListData buf in
  let buf := Trim buf blanks in
  name <- sliceTo buf i ;;
  let fdata := set_Name name fdata in
  let buflen := len buf in
  fdata <- (if i >? 4 then
              ext <- slice buf (i - 4) i ;;
              if String.eqb ext ".DIR" then
                let l := len (Name fdata) in
                name <- slice (Name fdata) 0 (l - 4) ;;
                Ret (set_TryCwd true (set_Name name fdata))
              else Ret fdata
            else Ret fdata) ;;
  let fdata := if negb (TryCwd fdata) then set_TryRetr true fdata else fdata in
  let out := Some fdata in
  (* for p := 0; p < 2; p++ *)
  i <-? indexAfter buf " " i else_return out ;;
  i <-? skip buf i " " else_return out ;;
  i <-? indexAfter buf " " i else_return out ;;
  i <-? skip buf i " " else_return out ;;
  j <-? indexAfter buf "-" i else_return out ;;
  tok <- slice buf i j ;;
  let mday := parseInt tok in
  j <-? skip buf j "-" else_return out ;;
  let i := j in
  j <-? indexAfter buf "-" j else_return out ;;
  tok <- slice buf i j ;;
  let month := getMonth tok in
  if month <? 0 then Ret out else
  j <-? skip buf j "-" else_return out ;;
  let i := j in
  j <-? indexAfter buf " " j else_return out ;;
  tok <- slice buf i j ;;
  let year := parseInt tok in
  j <-? skip buf j " " else_return out ;;
  let i := j in
  j <-? indexAfter buf ":" j else_return out ;;
  tok <- slice buf i j ;;
  let hour := parseInt tok in
  j <-? skip buf j ":" else_return out ;;
  let i := j in
  r <- scan_from buf j (fun b => negb (byte_eqb b ":") && negb (byte_eqb b " ")) ;;
  match r with
  | None => Ret out
  | Some j =>
      tok <- slice buf i j ;;
      let minute := parseInt tok in
      let fdata := set_MtimeType REMOTE_MINUTE_MTIME_TYPE fdata in
      Ret (Some (set_Mtime (getMtime year month mday hour minute 0) fdata))
  end.

(** ** parse.go: MS-DOS *)

(** [if year < 50 { year += 2000 }; if year < 1000 { year += 1900 }] *)
Definition msdosYear (year : Z) : Z :=
  let year := if year <? 50 then year + 2000 else year in
  if year <? 1000 then year + 1900 else year.

(** [if buf[j] == c { j += 1; if j == buflen { return } }]; [None] is the
    [return]. *)
Definition step_over (buf : string) (j : Z) (c : ascii) : result (option Z) :=
  b <- at_ buf j ;;
  if byte_eqb b c then
    let j := j + 1 in
    if j =? len buf then Ret None else Ret (Some j)
  else Ret (Some j).

Definition parseMSDOS (buf : string) : result (option FTPListData) :=
  let fdata := newFTPListData buf in
  let buf := Trim buf blanks in
  let buflen := len buf in
  let out := Some fdata in
  let i := 0 in
  j <-? indexAfter buf "-" 0 else_return out ;;
  tok <- slice buf i j ;;
  let month := parseInt tok in
  j <-? skip buf j "-" else_return out ;;
  let i := j in
  j <-? indexAfter buf "-" j else_return out ;;
  tok <- slice buf i j ;;
  let mday := parseInt tok in
  j <-? skip buf j "-" else_return out ;;
  let i := j in
  j <-? indexAfter buf " " j else_return out ;;
  tok <- slice buf i j ;;
  let year := msdosYear (parseInt tok) in
  j <-? skip buf j " " else_return out ;;
  let i := j in
  j <-? indexAfter buf ":" j else_return out ;;
  tok <- slice buf i j ;;
  let hour := parseInt tok in
  j <-? skip buf j ":" else_return out ;;
  let i := j in
  r <- scan_from buf j (fun b => negb (byte_eqb b "A") && negb (byte_eqb b "P")) ;;
  match r with
  | None => Ret out
  | Some j =>
      tok <- slice buf i j ;;
      let minute := parseInt tok in
      r <- step_over buf j "A" ;;
      match r with
      | None => Ret out
      | Some j =>
          bj <- at_ buf j ;;
          let hour := if byte_eqb bj "P" then Z.rem (hour + 12) 24 else hour in
          r <- step_over buf j "P" ;;
          match r with
          | None => Ret out
          | Some j =>
              r <- step_over buf j "M" ;;
              match r with
              | None => Ret out
              | Some j =>
                  j <-? skip buf j " " else_return out ;;
                  bj <- at_ buf j ;;
                  let finish (fdata : FTPListData) (j : Z) :=
                    j <-? skip buf j " " else_return (Some fdata) ;;
                    name <- sliceFrom buf j ;;
                    let fdata := set_Name name fdata in
                    let fdata := set_MtimeType REMOTE_MINUTE_MTIME_TYPE fdata in
                    Ret (Some (set_Mtime
                                 (getMtime year month mday hour minute 0) fdata)) in
                  if byte_eqb bj "<" then
                    let fdata := set_TryCwd true fdata in
                    j <-? indexAfter buf " " j else_return (Some fdata) ;;
                    finish fdata j
                  else
                    let i := j in
                    j <-? indexAfter buf " " j else_return (Some fdata) ;;
                    tok <- slice buf i j ;;
                    let fdata := set_Size (fst (ParseUint tok 64)) fdata in
                    let fdata := set_TryRetr true fdata in
                    finish fdata j
              end
          end
      end
  end.

(** ** parse.go: the dispatch *)

Definition ParseLine (ftpListLine : string) : result (option FTPListData) :=
  let buf := ftpListLine in
  if len buf <? 2 then Ret None
  else
    c <- at_ buf 0 ;;
    if byte_eqb c "+" then parseEPLF buf
    else if str_mem c "bcdlps-" then parseUNIXStyle buf
    else
      let index := Index buf ";" in
      if index >? 0 then parseMultinet buf index
      else if (byte_val "0" <=? byte_val c) && (byte_val c <=? byte_val "9")
           then parseMSDOS buf
           else Ret None.

End Clock.

(** ** ftp.go: errors and the control connection *)

Inductive error : Type :=
| ProtocolError (msg : string)          (* textproto.ProtocolError *)
| StatusError (code : Z) (msg : string) (* *textproto.Error *)
| ErrorString (msg : string)            (* errors.New *)
| EOF                                   (* io.EOF *)
| TransportError (msg : string).        (* any other failure of a read *)

(** The control connection, as the session sees it: what the successive
    calls of [ReadLine] will deliver, each a line or a failure, and the
    commands written so far.  Reading past the last event is [io.EOF]. *)
Record Conn : Type := mkConn {
  incoming : list (string + error);
  sent : list string
}.

Definition ReadLine (r : Conn) : (string * option error) * Conn :=
  match incoming r with
  | [] => (("", Some EOF), r)
  | inl line :: rest => ((line, None), mkConn rest (sent r))
  | inr e :: rest => (("", Some e), mkConn rest (sent r))
  end.

Definition Cmd (r : Conn) (line : string) : Conn :=
  mkConn (incoming r) (sent r ++ [line]).

(** The results [(code, continued, message, err)] of the status-line
    decoder, and [(code, message, err)] of the reply reader. *)
Definition codeLine : Type := Z * bool * string * option error.
Definition reply : Type := Z * string * option error.

Definition parseCodeLine (line : string) (expectCode : Z) : result codeLine :=
  malformed <- (if len line <? 4 then Ret true
                else b <- at_ line 3 ;;
                     Ret (negb (byte_eqb b " ") && negb (byte_eqb b "-"))) ;;
  if malformed then
    Ret (0, false, "", Some (ProtocolError ("short response: " ++ line)))
  else
    b <- at_ line 3 ;;
    let continued := byte_eqb b "-" in
    digits <- slice line 0 3 ;;
    let '(code, err) := Atoi digits in
    if (match err with Some _ => true | None => false end) || (code <? 100) then
      Ret (code, continued, "",
           Some (ProtocolError ("invalid response code: " ++ line)))
    else
      message <- sliceFrom line 4 ;;
      if (1 <=? expectCode) && (expectCode <? 10)
           && negb (Z.quot code 100 =? expectCode)
         || (10 <=? expectCode) && (expectCode <? 100)
              && negb (Z.quot code 10 =? expectCode)
         || (100 <=? expectCode) && (expectCode <? 1000)
              && negb (code =? expectCode)
      then Ret (code, continued, message, Some (StatusError code message))
      else Ret (code, continued, message, None).

Definition MyreadCodeLine (r : Conn) (expectCode : Z)
    : result (codeLine * Conn) :=
  let '((line, err), r) := ReadLine r in
  match err with
  | Some e => Ret ((0, false, "", Some e), r)
  | None =>
      if HasPrefix line "  " then
        (* [line, _ = r.ReadLine()]: the failure of this read is dropped,
           and the test that follows it sees the [err] of the first read *)
        let '((_, _), r) := ReadLine r in
        let '((line, err), r) := ReadLine r in
        match err with
        | Some e => Ret ((0, false, "", Some e), r)
        | None => cl <- parseCodeLine line expectCode ;; Ret (cl, r)
        end
      else cl <- parseCodeLine line expectCode ;; Ret (cl, r)
  end.

Definition MyReadCodeLine (r : Conn) (expectCode : Z) : result (reply * Conn) :=
  x <- MyreadCodeLine r expectCode ;;
  let '((code, continued, message, err), r) := x in
  if (match err with None => true | Some _ => false end) && continued then
    (* the "unexpected multi-line response" error is not raised *)
    Ret ((code, message, err), r)
  else Ret ((code, message, err), r).

(** ** ftp.go: passive mode *)

(** A Go [int] is 64 bits wide; arithmetic wraps around. *)
Definition wrap64 (z : Z) : Z := (z + 2 ^ 63) mod 2 ^ 64 - 2 ^ 63.

(** [s[i]] on a slice of strings. *)
Definition elem (s : list string) (i : Z) : result string :=
  if (0 <=? i) && (i <? Z.of_nat (List.length s)) then
    match nth_error s (Z.to_nat i) with
    | Some x => Ret x
    | None => Panic IndexOutOfRange
    end
  else Panic IndexOutOfRange.

(** Modelled from the spec: the status constants are declared in a file
    that is not among the sources; the spec gives the passive-mode reply
    as ["227 Entering Passive Mode (...)"]. *)
Definition StatusPassiveMode : Z := 227.

Section Session.

(** The code that [pasv] asks the reader to expect; its declaration is not
    among the sources either, and nothing below depends on its value. *)
Variable StatusExtendedPassiveMode : Z.

Definition pasv (c : Conn) : result ((Z * option error) * Conn) :=
  let c := Cmd c "PASV" in
  x <- MyReadCodeLine c StatusExtendedPassiveMode ;;
  let '((code, line, err), c) := x in
  if (match err with Some _ => true | None => false end)
       && negb (code =? StatusPassiveMode)
  then Ret ((0, err), c)
  else
    let start := Index line "(" in
    let end_ := Index line ")" in
    if (start =? -1) || (end_ =? -1) then
      Ret ((0, Some (ErrorString "Invalid PASV response format")), c)
    else
      body <- slice line (start + 1) end_ ;;
      let s := Split body "," in
      let n := Z.of_nat (List.length s) in
      e1 <- elem s (n - 2) ;;
      let l1 := fst (Atoi e1) in
      e2 <- elem s (n - 1) ;;
      let l2 := fst (Atoi e2) in
      Ret ((wrap64 (l1 * 256 + l2), None), c).

End Session.

(** ** ftp.go: LIST *)

(** The buffered reader over the data connection, as [List] sees it: the
    successive results of [ReadString('\n')] are the complete lines, each
    with its newline, and then a failure, [io.EOF] or another error, that
    comes with the bytes left after the last newline. *)
Record LineReader : Type := mkLineReader {
  full_lines : list string;
  partial : string;
  ending : error
}.

(** The reader over a stream that delivers [data] and then fails with
    [e]. *)
Fixpoint cut_lines (data : string) (cur : string) : list string * string :=
  match data with
  | EmptyString => ([], str_rev cur)
  | String c data' =>
      if byte_eqb c lf then
        let '(ls, p) := cut_lines data' EmptyString in
        (str_rev (String c cur) :: ls, p)
      else cut_lines data' (String c cur)
  end.

Definition reader_of (data : string) (e : error) : LineReader :=
  let '(ls, p) := cut_lines data EmptyString in mkLineReader ls p e.

Section Listing.

Variable now : Z.
Variable currentYear : Z.

(** The reading loop of [List]: a failed read ends it, by [break] on
    [io.EOF] and by [return] otherwise, and either way the entries
    gathered so far are the result, the error staying [nil]. *)
Fixpoint List_loop (lines : list string)
    (entries : list (option FTPListData))
    : result (list (option FTPListData)) :=
  match lines with
  | [] => Ret entries
  | line :: lines' =>
      ftplistdata <- ParseLine now currentYear line ;;
      List_loop lines' (entries ++ [ftplistdata])
  end.

(** [List], given the outcome of [cmdDataConn]: its error, or the reader
    over the data connection it opened. *)
Definition List (dataConn : error + LineReader)
    : result (list (option FTPListData) * option error) :=
  match dataConn with
  | inl err => Ret ([], Some err)
  | inr bio =>
      entries <- List_loop (full_lines bio) [] ;;
      Ret (entries, None)
  end.

End Listing.

(** ** ftp.go: commands and their replies *)

(** [strings.LastIndex]: the position of the last occurrence of [sep], or
    -1.  [found] is the last one seen before offset [k]. *)
Fixpoint last_index_from (s sep : string) (k found : Z) : Z :=
  let found := if String.prefix sep s then k else found in
  match s with
  | EmptyString => found
  | String _ s' => last_index_from s' sep (k + 1) found
  end.

Definition LastIndex (s sep : string) : Z := last_index_from s sep 0 (-1).

Definition dquote : ascii := ascii_of_nat 34.

Section Commands.

(** The transport under the control connection: whether writing a command
    line fails.  Nothing else of it is seen by the session. *)
Variable write_error : Conn -> string -> option error.

(** The codes of status.go that the session names; their declarations are
    not among the sources.  They are the three-digit codes of FTP, so the
    code 0 that a failed read leaves is none of them. *)
Variable StatusLoggedIn : Z.
Variable StatusPathCreated : Z.
Variable StatusUserOK : Z.
Variable StatusRequestFilePending : Z.
Variable StatusRequestedFileActionOK : Z.
Variable StatusExtendedPassiveMode : Z.

(** The loop of [cmd], [for code == StatusLoggedIn && expected ==
    StatusPathCreated { read again }].  [n] bounds the events left on the
    connection: every read takes at least one, and a read on an empty
    connection fails with code 0, which ends the loop. *)
Fixpoint cmd_again (n : nat) (c : Conn) (expected : Z) (r : reply)
    : result (reply * Conn) :=
  let '(code, _, _) := r in
  if (code =? StatusLoggedIn) && (expected =? StatusPathCreated) then
    x <- MyReadCodeLine c expected ;;
    match n with
    | O => Ret x
    | S n' => let '(r', c') := x in cmd_again n' c' expected r'
    end
  else Ret (r, c).

(** [cmd], on the command line already formatted. *)
Definition cmd (c : Conn) (expected : Z) (line : string)
    : result (reply * Conn) :=
  match write_error c line with
  | Some err => Ret ((0, "", Some err), c)
  | None =>
      let c := Cmd c line in
      x <- MyReadCodeLine c expected ;;
      let '(r, c) := x in
      cmd_again (List.length (incoming c)) c expected r
  end.

Definition Login (c : Conn) (user password : string)
    : result (option error * Conn) :=
  x <- cmd c StatusUserOK ("USER " ++ user) ;;
  let '((_, _, err), c) := x in
  match err with
  | Some e => Ret (Some e, c)
  | None =>
      x <- cmd c StatusLoggedIn ("PASS " ++ password) ;;
      let '((code, _, err), c) := x in
      if code =? StatusLoggedIn then Ret (None, c) else Ret (err, c)
  end.

Definition Rename (c : Conn) (from to : string)
    : result (option error * Conn) :=
  x <- cmd c StatusRequestFilePending ("RNFR " ++ from) ;;
  let '((_, _, err), c) := x in
  match err with
  | Some e => Ret (Some e, c)
  | None =>
      x <- cmd c StatusRequestedFileActionOK ("RNTO " ++ to) ;;
      let '((_, _, err), c) := x in
      Ret (err, c)
  end.

Definition CurrentDir (c : Conn) : result ((string * option error) * Conn) :=
  x <- cmd c StatusPathCreated "PWD" ;;
  let '((_, msg, err), c) := x in
  match err with
  | Some e => Ret (("", Some e), c)
  | None =>
      let start := Index msg (String dquote EmptyString) in
      let end_ := LastIndex msg (String dquote EmptyString) in
      if (start =? -1) || (end_ =? -1) then
        Ret (("", Some (ErrorString "Unsuported PWD response format")), c)
      else
        path <- slice msg (start + 1) end_ ;;
        Ret ((path, None), c)
  end.

(** The error of [epsv] is one of the session's, or the [*NumError] of
    [strconv.Atoi]. *)
Definition epsv (c : Conn)
    : result ((Z * option (error + numError)) * Conn) :=
  let c := Cmd c "EPSV" in
  x <- MyReadCodeLine c StatusExtendedPassiveMode ;;
  let '((_, line, err), c) := x in
  match err with
  | Some e => Ret ((0, Some (inl e)), c)
  | None =>
      let start := Index line "|||" in
      let end_ := LastIndex line "|" in
      if (start =? -1) || (end_ =? -1) then
        Ret ((0, Some (inl (ErrorString "Invalid EPSV response format"))), c)
      else
        num <- slice line (start + 3) end_ ;;
        let '(port, err) := Atoi num in
        Ret ((port, option_map inr err), c)
  end.

End Commands.

(** * The notions the properties are stated with *)

(** ** Status lines *)

(** The two errors of the decoder, by their messages. *)
Definition MalformedStatusLine (line : string) : error :=
  ProtocolError ("short response: " ++ line).

Definition InvalidStatusCode (line : string) : error :=
  ProtocolError ("invalid response code: " ++ line).

(** The fourth byte of [line] is there and is neither a space nor a
    hyphen. *)
Definition bad_separator (line : string) : Prop :=
  exists b, String.get 3 line = Some b /\ b <> " "%char /\ b <> "-"%char.

(** The first three bytes of [line] are an integer of at least 100. *)
Definition code_at_least_100 (line : string) : Prop :=
  exists code, Atoi (substring 0 3 line) = (code, None) /\ 100 <= code.

Definition err_of (cl : codeLine) : option error := snd cl.

(** ** Listing lines *)

Definition mtime_of (r : result (option FTPListData)) : option Z :=
  match r with
  | Ret (Some fdata) => Some (Mtime fdata)
  | _ => None
  end.

(** The first EPLF line of the package's test, and a line whose [i] fact
    comes late. *)
Definition eplf_example : string :=
  "+i9872342.32142,m1229473595,/," ++ String tab "pub".

Definition eplf_id_late : string :=
  "+m1229473595,/,i98,r," ++ String tab "pub".

(** What the specification says of the token that follows the day:
    [h:mm] and [hh:mm] are an hour and a minute, any other token of four
    bytes or more is a year, a shorter one is nothing. *)
Inductive stamp : Type :=
| HourMinute (hour minute : Z)
| BareYear (year : Z).

Definition read_stamp (tok : string) : option stamp :=
  match tok with
  | String h (String c (String m1 (String m2 EmptyString))) =>
      if byte_eqb c ":" then
        Some (HourMinute (parseInt (String h EmptyString))
                (parseInt (String m1 (String m2 EmptyString))))
      else Some (BareYear (parseInt tok))
  | String h1 (String h2 (String c (String m1 (String m2 EmptyString)))) =>
      if byte_eqb c ":" then
        Some (HourMinute (parseInt (String h1 (String h2 EmptyString)))
                (parseInt (String m1 (String m2 EmptyString))))
      else Some (BareYear (parseInt tok))
  | _ => if 4 <=? len tok then Some (BareYear (parseInt tok)) else None
  end.

(** The guessed year of the specification.  The candidate years are the
    101 years from the one before the current year; the guess is the UTC
    time of the date in the first candidate year that makes it less than
    350 days old, and 0 when no candidate does. *)
Definition candidate_years (currentYear : Z) : list Z :=
  map (fun k => currentYear - 1 + Z.of_nat k) (seq 0 101).

Definition guessed (now currentYear month mday hour minute : Z) : Z :=
  match find (fun y => now - DateUnix y month mday hour minute 0 <? 350 * 86400)
          (candidate_years currentYear) with
  | Some y => DateUnix y month mday hour minute 0
  | None => 0
  end.

Arguments guessed : simpl never.

(** The scanner after such a token: state 8, the rest of the line as the
    name, and the modification time with its kind: for an hour and a
    minute, the UTC time of the month, day, hour and minute in the
    guessed year; for a year, the UTC time of the start of the day. *)
Definition stamped (now currentYear : Z) (st : unix_state) (name : string)
    (s : stamp) : unix_state :=
  match s with
  | HourMinute hour minute =>
      mkUnix 8 (u_i st) (u_size st) (u_month st) (u_mday st) hour minute
        (u_year st)
        (set_Name name
           (set_Mtime
              (guessed now currentYear (u_month st) (u_mday st) hour minute)
              (set_MtimeType REMOTE_MINUTE_MTIME_TYPE (u_fdata st))))
  | BareYear year =>
      mkUnix 8 (u_i st) (u_size st) (u_month st) (u_mday st) (u_hour st)
        (u_minute st) year
        (set_Name name
           (set_Mtime (DateUnix year (u_month st) (u_mday st) 0 0 0)
              (set_MtimeType REMOTE_DAY_MTIME_TYPE (u_fdata st))))
  end.

Definition readme_line : string :=
  "-rw-r--r--   1 root     other     531 Jan 29 03:26 README".

(** ** Passive mode *)

Definition MalformedPassiveReply : error :=
  ErrorString "Invalid PASV response format".

Definition pasv_example : Conn :=
  mkConn [inl "227 Entering Passive Mode (127,0,0,1,19,136)"] [].

(** A comma list between parentheses, the first of the message: nothing
    before it holds a parenthesis, and no element holds a comma or a
    closing parenthesis. *)
Definition holds_list (msg pre : string) (elems : list string) (post : string)
    : Prop :=
  msg = pre ++ String "(" (String.concat "," elems ++ String ")" post)
  /\ str_mem "(" pre = false
  /\ str_mem ")" pre = false
  /\ Forall (fun x => str_mem "," x = false) elems
  /\ Forall (fun x => str_mem ")" x = false) elems.

(** ** LIST *)

Definition parses (now currentYear : Z) (line : string) : bool :=
  match ParseLine now currentYear line with
  | Ret (Some _) => true
  | _ => false
  end.

(** The claim of the specification, as it is stated: a line that does not
    parse leaves nothing in the collection, which holds the entries of
    the lines that parse and nothing else. *)
Definition unparsable_lines_left_out (now currentYear : Z) (bio : LineReader)
    : Prop :=
  forall entries err,
    List now currentYear (inr bio) = Ret (entries, err) ->
    List.length entries
    = List.length (filter (parses now currentYear) (full_lines bio)).

Definition one_bad_line : LineReader :=
  reader_of ("x " ++ String lf EmptyString) EOF.

Definition three_lines : LineReader :=
  reader_of ("x " ++ String lf ("+/," ++ String tab "pub" ++ String lf "tail")) EOF.

(** ** Outcomes of the sub-parsers *)

(** The claim of the specification on a sub-parser's outcome for the
    VMS and MS-DOS dialects, whose every entry has a name and a
    modification time: an entry, when there is one, is filled. *)
Definition filled_or_absent (r : result (option FTPListData)) : Prop :=
  forall fdata, r = Ret (Some fdata) ->
    Name fdata <> "" /\ MtimeType fdata = REMOTE_MINUTE_MTIME_TYPE.

(** The facts of an EPLF line, as its parser scans them.  The fact that
    starts at [i] ends at [j]: the byte at [j] is the first comma from
    [i] on, and no tab comes before it. *)
Definition ends_fact (buf : string) (i j : Z) : Prop :=
  i <= j
  /\ at_ buf j = Ret ","%char
  /\ forall k, i <= k < j ->
                at_ buf k <> Ret ","%char /\ at_ buf k <> Ret tab.

(** The tag of the fact asks for a number, and its content, the bytes
    between the tag and the comma, is not one. *)
Definition bad_number (buf : string) (i j : Z) : Prop :=
  exists tok,
    slice buf (i + 1) j = Ret tok
    /\ ((at_ buf i = Ret "s"%char /\ snd (ParseUint tok 64) <> None)
        \/ (at_ buf i = Ret "m"%char /\ snd (ParseInt tok 64) <> None)).

(** The fact is read without a failure and without a panic: it is no bad
    number and, under the tag [i], the bounds of the slice that is taken
    for the identifier are in order. *)
Definition reads_fact (buf : string) (i j : Z) : Prop :=
  ~ bad_number buf i j
  /\ (at_ buf i = Ret "i"%char -> i + 1 <= j - i - 1).

(** The scan reaches the start [i] of a fact: the first fact starts at
    offset 1, after the [+], and a fact starts after the comma of a fact
    that was reached and read. *)
Inductive scan_reaches (buf : string) : Z -> Prop :=
| reaches_first : scan_reaches buf 1
| reaches_next (i j : Z) :
    scan_reaches buf i -> ends_fact buf i j -> reads_fact buf i j ->
    scan_reaches buf (j + 1).

Definition eplf_bad_size : string := "+sx," ++ String tab "pub".

(** ** The calendar *)

(** The day that a leap year adds before the months from March on. *)
Definition leapDay (year month : Z) : Z :=
  if isLeap year && (3 <=? month) then 1 else 0.

(** Days from 1970-01-01 to the first of [month] of [year]. *)
Definition monthStart (year month : Z) : Z :=
  daysSinceEpoch year + daysBefore (month - 1) + leapDay year month.

(** ** Replies *)

(** The value of a decimal digit. *)
Definition digit_val (c : ascii) : Z := byte_val c - 48.

(** The expected code, when it is one of 1..999, is the code of the
    reply, its first two digits or its first digit. *)
Definition accepts (expectCode code : Z) : Prop :=
  expectCode < 1 \/ 1000 <= expectCode \/ expectCode = code
  \/ expectCode = code / 10 \/ expectCode = code / 100.

(** The first event of a connection is a line that starts with two
    spaces. *)
Definition indented_first (r : Conn) : bool :=
  match incoming r with
  | inl line :: _ => HasPrefix line "  "
  | _ => false
  end.

(** A closing parenthesis that comes before the first opening one, and a
    group between parentheses that holds no comma. *)
Definition closes_first (msg pre mid post : string) : Prop :=
  msg = pre ++ String ")" (mid ++ String "(" post)
  /\ str_mem "(" pre = false /\ str_mem ")" pre = false
  /\ str_mem "(" mid = false.

Definition holds_one (msg pre e post : string) : Prop :=
  msg = pre ++ String "(" (e ++ String ")" post)
  /\ str_mem "(" pre = false /\ str_mem ")" pre = false
  /\ str_mem "," e = false /\ str_mem ")" e = false.

(** ** Months and numbers *)

(** The name of the month of number [k], from 1. *)
Definition month_name (k : Z) : string := nth (Z.to_nat (k - 1)) MONTHS "".

(** A string of decimal digits, and the number it writes after [n]. *)
Fixpoint all_digits (s : string) : bool :=
  match s with
  | EmptyString => true
  | String c s' => is_digit c && all_digits s'
  end.

Fixpoint decimal_from (s : string) (n : Z) : Z :=
  match s with
  | EmptyString => n
  | String c s' => decimal_from s' (n * 10 + digit_val c)
  end.

Definition decimal (s : string) : Z := decimal_from s 0.

(** A number without its sign, if it has one, and whether the sign is
    a minus. *)
Definition unsigned_part (num : string) : string :=
  match num with
  | EmptyString => EmptyString
  | String c s' => if byte_eqb c "+" || byte_eqb c "-" then s' else num
  end.

Definition negative (num : string) : bool := HasPrefix num "-".

(** The number of 32 signed bits nearest to [v]. *)
Definition int32 (v : Z) : Z := Z.max (- 2 ^ 31) (Z.min v (2 ^ 31 - 1)).

(** ** Sessions *)

(** A connection on which every write succeeds. *)
Definition no_write_error : Conn -> string -> option error := fun _ _ => None.

(** A reply to [PWD]. *)
Definition pwd_reply : string :=
  "257 " ++ String dquote ("/home/ftp" ++ String dquote " is the current directory").

(** ** Listing lines *)

(** A line that [ParseLine] takes for none of the four formats: its first
    byte is no UNIX file type and no digit, and the line either starts
    with a semicolon or holds none.  (A line that starts with a
    semicolon is not taken for a VMS line, whatever follows.) *)
Definition no_dialect (line : string) : Prop :=
  exists c,
    at_ line 0 = Ret c
    /\ str_mem c "bcdlps-" = false
    /\ is_digit c = false
    /\ (c = ";"%char \/ str_mem ";" line = false).

(** The fields of an entry that the scanning loops of the UNIX-style
    parser leave alone. *)
Definition kept (f : FTPListData) : string * bool * bool * ID_TYPE * string :=
  (RawLine f, TryCwd f, TryRetr f, IdType f, Id f).

(** The entry of a call that gave one; an empty entry stands for the
    other outcomes. *)
Definition entry_of (r : result (option FTPListData)) : FTPListData :=
  match r with
  | Ret (Some fdata) => fdata
  | _ => newFTPListData ""
  end.

(** Lines of the package's test. *)
Definition unix_dir_line : string :=
  "dr-xr-xr-x   2 root     other        512 Apr  8  2003 etc".

Definition vms_dir_line : string :=
  "CORE.DIR;1      1 8-NOV-1999 07:02 [SYSTEM] (RWED,RWED,RE,RE)".

Definition msdos_dir_line : string :=
  "04-27-00  09:09PM       <DIR>          licensed".

(** A symbolic link, as [ls -l] lists it. *)
Definition unix_link_line : string :=
  "lrwxrwxrwx   1 root     other          7 Jan 25 00:17 bin -> usr/bin".

(** * Properties *)

(** ** Indexing and slicing within bounds *)

Lemma get_in_range (s : string) (n : nat) :
  (n < String.length s)%nat -> exists c, String.get n s = Some c.
Proof.
  revert n; induction s as [|a s IH]; intros n Hn; simpl in *.
  - lia.
  - destruct n as [|n]; [eauto|]. apply IH; lia.
Qed.

Lemma at_in_range (s : string) (i : Z) :
  0 <= i < len s ->
  exists c, at_ s i = Ret c /\ String.get (Z.to_nat i) s = Some c.
Proof.
  intros Hi. unfold at_.
  replace ((0 <=? i) && (i <? len s)) with true
    by (symmetry; apply andb_true_iff; split; [apply Z.leb_le|apply Z.ltb_lt]; lia).
  destruct (get_in_range s (Z.to_nat i)) as [c Hc]; [unfold len in Hi; lia|].
  rewrite Hc. eauto.
Qed.

Lemma slice_in_range (s : string) (lo hi : Z) :
  0 <= lo <= hi -> hi <= len s ->
  slice s lo hi = Ret (substring (Z.to_nat lo) (Z.to_nat (hi - lo)) s).
Proof.
  intros H1 H2. unfold slice.
  replace ((0 <=? lo) && (lo <=? hi) && (hi <=? len s)) with true; [reflexivity|].
  symmetry; rewrite !andb_true_iff, !Z.leb_le; lia.
Qed.

(** ** The status-line decoder *)

(** C7: the decoder always returns; its error is the malformed-line error
    exactly when the line has fewer than four bytes or its fourth byte is
    neither a space nor a hyphen; and on a line that is not malformed its
    error is the invalid-code error exactly when the first three bytes are
    not an integer of at least 100. *)
Theorem parseCodeLine_failures (line : string) (expectCode : Z) :
  exists cl,
    parseCodeLine line expectCode = Ret cl
    /\ (err_of cl = Some (MalformedStatusLine line)
        <-> len line < 4 \/ bad_separator line)
    /\ (~ (len line < 4 \/ bad_separator line) ->
        (err_of cl = Some (InvalidStatusCode line)
         <-> ~ code_at_least_100 line)).
Proof.
  unfold parseCodeLine, sliceFrom, bad_separator, code_at_least_100.
  destruct (Z.ltb_spec (len line) 4) as [Hshort|Hlong]; simpl.
  - eexists; split; [reflexivity|]. split.
    + split; [intros _; left; lia | reflexivity].
    + intros Hn; exfalso; apply Hn; left; lia.
  - destruct (at_in_range line 3) as (b & Hat & Hget); [lia|].
    change (Z.to_nat 3) with 3%nat in Hget.
    rewrite Hat; simpl.
    destruct (byte_eqb b " ") eqn:Hsp; simpl.
    + (* a space *)
      apply Ascii.eqb_eq in Hsp; subst b.
      rewrite slice_in_range by lia.
      change (Z.to_nat 0) with 0%nat; change (Z.to_nat (3 - 0)) with 3%nat.
      simpl bind.
      destruct (Atoi (substring 0 3 line)) as [code err] eqn:HA.
      rewrite (slice_in_range line 4 (len line)) by lia.
      assert (Hnm : ~ (len line < 4 \/
                (exists b, String.get 3 line = Some b /\ b <> " "%char /\ b <> "-"%char))).
      { intros [H|(b & Hb & Hb1 & _)]; [lia|]. congruence. }
      destruct err as [e|]; simpl.
      * eexists; split; [reflexivity|]. split.
        -- split; [intros H; discriminate H | intros H; contradiction].
        -- intros _. split; [|reflexivity].
           intros _ (c & Hc & _). congruence.
      * destruct (Z.ltb_spec code 100) as [Hlt|Hge]; simpl.
        -- eexists; split; [reflexivity|]. split.
           ++ split; [intros H; discriminate H | intros H; contradiction].
           ++ intros _. split; [|reflexivity].
              intros _ (c & Hc & Hc'). inversion Hc; subst. lia.
        -- match goal with
           | |- context [if ?c then _ else _] => destruct c
           end; (eexists; split; [reflexivity|]; split;
             [ split; [intros H; discriminate H | intros H; contradiction]
             | intros _; split; [intros H; discriminate H|];
               intros H; exfalso; apply H; exists code; split; [reflexivity|lia] ]).
    + destruct (byte_eqb b "-") eqn:Hhy; simpl.
      * apply Ascii.eqb_eq in Hhy; subst b.
        rewrite slice_in_range by lia.
        change (Z.to_nat 0) with 0%nat; change (Z.to_nat (3 - 0)) with 3%nat.
        simpl bind.
        destruct (Atoi (substring 0 3 line)) as [code err] eqn:HA.
        rewrite (slice_in_range line 4 (len line)) by lia.
        assert (Hnm : ~ (len line < 4 \/
                  (exists b, String.get 3 line = Some b /\ b <> " "%char /\ b <> "-"%char))).
        { intros [H|(b & Hb & _ & Hb2)]; [lia|]. congruence. }
        destruct err as [e|]; simpl.
        -- eexists; split; [reflexivity|]. split.
           ++ split; [intros H; discriminate H | intros H; contradiction].
           ++ intros _. split; [|reflexivity].
              intros _ (c & Hc & _). congruence.
        -- destruct (Z.ltb_spec code 100) as [Hlt|Hge]; simpl.
           ++ eexists; split; [reflexivity|]. split.
              ** split; [intros H; discriminate H | intros H; contradiction].
              ** intros _. split; [|reflexivity].
                 intros _ (c & Hc & Hc'). inversion Hc; subst. lia.
           ++ match goal with
              | |- context [if ?c then _ else _] => destruct c
              end; (eexists; split; [reflexivity|]; split;
                [ split; [intros H; discriminate H | intros H; contradiction]
                | intros _; split; [intros H; discriminate H|];
                  intros H; exfalso; apply H; exists code; split; [reflexivity|lia] ]).
      * eexists; split; [reflexivity|]. split.
        -- split; [|reflexivity]. intros _. right. exists b.
           split; [assumption|]. split; intros ->; discriminate.
        -- intros Hn; exfalso; apply Hn. right. exists b.
           split; [assumption|]. split; intros ->; discriminate.
Qed.

(** A line with a separator and a code below 100. *)
Lemma parseCodeLine_failures_witness :
  exists cl,
    parseCodeLine "099 x" 2 = Ret cl
    /\ err_of cl = Some (InvalidStatusCode "099 x").
Proof.
  destruct (parseCodeLine_failures "099 x" 2) as (cl & Hrun & _ & Hinvalid).
  exists cl. split; [exact Hrun|].
  apply Hinvalid.
  - intros [Hshort | (b & Hb & Hspace & _)].
    + vm_compute in Hshort. discriminate Hshort.
    + vm_compute in Hb. inversion Hb; subst b. now apply Hspace.
  - intros (code & Hcode & Hge).
    vm_compute in Hcode. inversion Hcode; subst code. lia.
Defined.

(** ** The reply reader *)

(** C8: when the first line read starts with two spaces, the reader drops
    it, reads two more, and decodes the second of these; and the reply
    reader hands on what the decoder found, whether or not the line is
    marked as continued: a continuation adds no error. *)
Theorem MyreadCodeLine_indented_then_tolerant :
  (forall (r : Conn) (l0 : string) (ev1 : string + error) (l2 : string)
          (rest : list (string + error)) (expectCode : Z),
      incoming r = inl l0 :: ev1 :: inl l2 :: rest ->
      HasPrefix l0 "  " = true ->
      MyreadCodeLine r expectCode
      = (cl <- parseCodeLine l2 expectCode ;; Ret (cl, mkConn rest (sent r))))
  /\ (forall (r r' : Conn) (expectCode code : Z) (continued : bool)
             (message : string) (err : option error),
         MyreadCodeLine r expectCode = Ret ((code, continued, message, err), r') ->
         MyReadCodeLine r expectCode = Ret ((code, message, err), r')).
Proof.
  split.
  - intros r l0 ev1 l2 rest expectCode Hin Hpre.
    unfold MyreadCodeLine, ReadLine. rewrite Hin. rewrite Hpre.
    destruct ev1; reflexivity.
  - intros r r' expectCode code continued message err H.
    unfold MyReadCodeLine. rewrite H. simpl.
    destruct err, continued; reflexivity.
Qed.

(** The banner of the Serv-U server: the continued first line is a
    complete reply, and the indented second line makes the reader decode
    the line after the next. *)
Lemma MyreadCodeLine_indented_then_tolerant_witness :
  MyreadCodeLine
    (mkConn [inl "    Used disk quota 0 Kbytes, available 1000000 Kbytes";
             inl "226 Transfer complete."; inl "200 Command okay."] []) 226
  = (cl <- parseCodeLine "200 Command okay." 226 ;; Ret (cl, mkConn [] []))
  /\ MyReadCodeLine
       (mkConn [inl "226-Maximum disk quota limited to 1000000 Kbytes"] []) 226
     = Ret ((226, "Maximum disk quota limited to 1000000 Kbytes", None),
            mkConn [] []).
Proof.
  split.
  - apply (proj1 MyreadCodeLine_indented_then_tolerant
             (mkConn [inl "    Used disk quota 0 Kbytes, available 1000000 Kbytes";
                      inl "226 Transfer complete."; inl "200 Command okay."] [])
             "    Used disk quota 0 Kbytes, available 1000000 Kbytes"
             (inl "226 Transfer complete.") "200 Command okay." [] 226);
      reflexivity.
  - apply (proj2 MyreadCodeLine_indented_then_tolerant
             (mkConn [inl "226-Maximum disk quota limited to 1000000 Kbytes"] [])
             (mkConn [] []) 226 226 true
             "Maximum disk quota limited to 1000000 Kbytes" None).
    reflexivity.
Defined.

(** ** The sub-parsers on the examples of the package *)

(** C9: the MS-DOS parser adds 2000 to a parsed year below 50 and 1900 to
    one from 50 to 999, so that a two-digit year lands in 1950..2049; a
    line dated 00 is of the year 2000 and a line dated 76 of 1976. *)
Theorem msdosYear_window (y : Z) :
  (-1000 <= y < 50 -> msdosYear y = y + 2000)
  /\ (50 <= y < 1000 -> msdosYear y = y + 1900)
  /\ (0 <= y < 100 -> 1950 <= msdosYear y <= 2049)
  /\ mtime_of (parseMSDOS "04-27-00  09:09PM       <DIR>          licensed")
     = Some (getMtime 2000 4 27 21 9 0)
  /\ mtime_of (parseMSDOS "12-30-76  05:44PM                  589 readme.htm")
     = Some (getMtime 1976 12 30 17 44 0).
Proof.
  unfold msdosYear.
  split; [|split; [|split; [|split]]]; try (vm_compute; reflexivity); intros H.
  - destruct (Z.ltb_spec y 50); [|lia].
    destruct (Z.ltb_spec (y + 2000) 1000); lia.
  - destruct (Z.ltb_spec y 50); [lia|].
    destruct (Z.ltb_spec y 1000); lia.
  - destruct (Z.ltb_spec y 50).
    + destruct (Z.ltb_spec (y + 2000) 1000); lia.
    + destruct (Z.ltb_spec y 1000); lia.
Qed.

Lemma msdosYear_window_witness :
  msdosYear 0 = 0 + 2000 /\ msdosYear 76 = 76 + 1900
  /\ 1950 <= msdosYear 50 <= 2049.
Proof.
  split; [|split].
  - apply (proj1 (msdosYear_window 0)); lia.
  - apply (proj1 (proj2 (msdosYear_window 76))); lia.
  - apply (proj1 (proj2 (proj2 (msdosYear_window 50)))); lia.
Defined.

(** C3, as the code has it: on the package's own EPLF example the
    identifier stored is the fact's content cut two bytes short,
    ["9872342.321"] for the fact ["i9872342.32142"], because the slice
    taken is [buf[i+1:j-i-1]] and not [buf[i+1:j]]; and an [i] fact that
    starts late in the line makes that slice panic. *)
Theorem parseEPLF_id_slice :
  (exists fdata,
      parseEPLF eplf_example = Ret (Some fdata)
      /\ IdType fdata = FULL_ID_TYPE
      /\ Id fdata = "9872342.321"
      /\ Id fdata <> "9872342.32142")
  /\ parseEPLF eplf_id_late = Panic SliceOutOfRange.
Proof.
  split.
  - eexists. split; [vm_compute; reflexivity|].
    repeat split; simpl; discriminate.
  - vm_compute; reflexivity.
Qed.

(** C10, as the code has it: [ParseLine] panics on a line whose first
    byte selects the UNIX-style parser and is followed by blanks only
    (the parser reads [buf[1]] of the trimmed line), also with the
    newline that [List] leaves on it, and on a line whose [;] comes after
    leading blanks (the name is cut at the index found before
    trimming). *)
Theorem ParseLine_panics (now currentYear : Z) :
  ParseLine now currentYear "- " = Panic IndexOutOfRange
  /\ ParseLine now currentYear (String "d" (String lf EmptyString))
     = Panic IndexOutOfRange
  /\ ParseLine now currentYear "  ;" = Panic SliceOutOfRange.
Proof.
  repeat split; vm_compute; reflexivity.
Qed.

(** ** Strings built by concatenation *)

Lemma length_app (a b : string) :
  String.length (a ++ b) = (String.length a + String.length b)%nat.
Proof. induction a as [|c a IH]; simpl; [reflexivity | now rewrite IH]. Qed.

Lemma len_app (a b : string) : len (a ++ b) = len a + len b.
Proof. unfold len. rewrite length_app. lia. Qed.

Lemma len_nonneg (s : string) : 0 <= len s.
Proof. unfold len. lia. Qed.

Lemma len_String (c : ascii) (s : string) : len (String c s) = 1 + len s.
Proof. unfold len. simpl String.length. lia. Qed.

Lemma get_app_r (pre s : string) (k : nat) :
  String.get (String.length pre + k) (pre ++ s) = String.get k s.
Proof. induction pre as [|c pre IH]; simpl; [reflexivity | exact IH]. Qed.

Lemma get_app_l (s t : string) (k : nat) :
  (k < String.length s)%nat -> String.get k (s ++ t) = String.get k s.
Proof.
  revert k; induction s as [|c s IH]; intros k Hk; simpl in *; [lia|].
  destruct k as [|k]; [reflexivity|]. apply IH; lia.
Qed.

Lemma substring_app_r (pre s : string) (a n : nat) :
  substring (String.length pre + a) n (pre ++ s) = substring a n s.
Proof. induction pre as [|c pre IH]; simpl; [reflexivity | exact IH]. Qed.

Lemma substring_app_l (s t : string) (a n : nat) :
  (a + n <= String.length s)%nat -> substring a n (s ++ t) = substring a n s.
Proof.
  revert a n; induction s as [|c s IH]; intros a n H; simpl in *.
  - assert (a = 0%nat) by lia. assert (n = 0%nat) by lia. subst.
    destruct t; reflexivity.
  - destruct a as [|a].
    + destruct n as [|n]; [reflexivity|].
      f_equal. apply (IH 0%nat n). lia.
    + apply IH. lia.
Qed.

Lemma substring_all (s : string) : substring 0 (String.length s) s = s.
Proof. induction s as [|c s IH]; simpl; [reflexivity | now rewrite IH]. Qed.

Lemma at_app_r (pre s : string) (k : Z) :
  0 <= k -> at_ (pre ++ s) (len pre + k) = at_ s k.
Proof.
  intros Hk. unfold at_. rewrite len_app.
  pose proof (len_nonneg pre) as Hp.
  replace (Z.to_nat (len pre + k)) with (String.length pre + Z.to_nat k)%nat
    by (unfold len; lia).
  rewrite get_app_r.
  destruct (Z.ltb_spec k (len s)), (Z.ltb_spec (len pre + k) (len pre + len s));
    try lia;
    destruct (Z.leb_spec 0 k), (Z.leb_spec 0 (len pre + k)); try lia; reflexivity.
Qed.

Lemma at_app_l (s t : string) (k : Z) :
  0 <= k < len s -> at_ (s ++ t) k = at_ s k.
Proof.
  intros Hk. unfold at_. rewrite len_app.
  pose proof (len_nonneg t) as Ht.
  rewrite get_app_l by (unfold len in Hk; lia).
  destruct (Z.ltb_spec k (len s)), (Z.ltb_spec k (len s + len t)); try lia.
  reflexivity.
Qed.

Lemma slice_app_r (pre s : string) (a b : Z) :
  0 <= a -> slice (pre ++ s) (len pre + a) (len pre + b) = slice s a b.
Proof.
  intros Ha. unfold slice. rewrite len_app.
  pose proof (len_nonneg pre) as Hp.
  replace (Z.to_nat (len pre + a)) with (String.length pre + Z.to_nat a)%nat
    by (unfold len; lia).
  replace (len pre + b - (len pre + a)) with (b - a) by lia.
  rewrite substring_app_r.
  destruct (Z.leb_spec 0 a), (Z.leb_spec 0 (len pre + a)); try lia.
  destruct (Z.leb_spec a b), (Z.leb_spec (len pre + a) (len pre + b)); try lia;
    destruct (Z.leb_spec b (len s)), (Z.leb_spec (len pre + b) (len pre + len s));
    try lia; reflexivity.
Qed.

Lemma slice_app_l (s t : string) (a b : Z) :
  b <= len s -> slice (s ++ t) a b = slice s a b.
Proof.
  intros Hb. unfold slice. rewrite len_app.
  pose proof (len_nonneg t) as Ht.
  destruct (Z.leb_spec 0 a); simpl; [|reflexivity].
  destruct (Z.leb_spec a b); simpl; [|reflexivity].
  destruct (Z.leb_spec b (len s)), (Z.leb_spec b (len s + len t)); try lia.
  rewrite substring_app_l by (unfold len in Hb; lia). reflexivity.
Qed.

Lemma slice_all (s : string) : slice s 0 (len s) = Ret s.
Proof.
  rewrite slice_in_range by (pose proof (len_nonneg s); lia).
  change (Z.to_nat 0) with 0%nat.
  replace (Z.to_nat (len s - 0)) with (String.length s) by (unfold len; lia).
  now rewrite substring_all.
Qed.

Lemma app_assoc_str (a b c : string) : (a ++ b) ++ c = a ++ b ++ c.
Proof. induction a as [|x a IH]; simpl; [reflexivity | now rewrite IH]. Qed.

(** ** The time-or-year token of the UNIX-style parser *)

Lemma unix_state_eta (st : unix_state) :
  mkUnix (u_state st) (u_i st) (u_size st) (u_month st) (u_mday st)
    (u_hour st) (u_minute st) (u_year st) (u_fdata st) = st.
Proof. destruct st; reflexivity. Qed.

Lemma token_slices (pre tok rest : string) (a b : Z) :
  0 <= a -> b <= len tok ->
  slice (pre ++ tok ++ String " " rest) (len pre + a) (len pre + b)
  = slice tok a b.
Proof.
  intros Ha Hb. rewrite slice_app_r by assumption. now apply slice_app_l.
Qed.

Lemma token_at (pre tok rest : string) (k : Z) :
  0 <= k < len tok ->
  at_ (pre ++ tok ++ String " " rest) (len pre + k) = at_ tok k.
Proof.
  intros Hk. rewrite at_app_r by lia. now apply at_app_l.
Qed.

Lemma after_token (pre tok rest : string) :
  sliceFrom (pre ++ tok ++ String " " rest) (len pre + len tok + 1)
  = Ret rest.
Proof.
  unfold sliceFrom. rewrite <- app_assoc_str.
  rewrite !len_app, len_String.
  replace (len pre + len tok + (1 + len rest))
    with (len (pre ++ tok) + (1 + len rest)) by (rewrite len_app; lia).
  replace (len pre + len tok + 1) with (len (pre ++ tok) + 1)
    by (rewrite len_app; lia).
  rewrite slice_app_r by lia.
  change (String " " rest) with (String " " EmptyString ++ rest).
  change 1 with (len (String " " EmptyString)) at 1 2.
  replace (len (String " " EmptyString) + len rest)
    with (len (String " " EmptyString) + (0 + len rest)) by lia.
  replace (slice (String " " EmptyString ++ rest) (len (String " " EmptyString))
             (len (String " " EmptyString) + (0 + len rest)))
    with (slice (String " " EmptyString ++ rest)
            (len (String " " EmptyString) + 0)
            (len (String " " EmptyString) + (0 + len rest)))
    by (now rewrite Z.add_0_r).
  rewrite slice_app_r by lia. apply slice_all.
Qed.

(** The loop of [guessTime] finds the first year that the test accepts. *)
Lemma guessTime_loop_find (now month mday hour minute : Z) :
  forall (n : nat) (y0 : Z),
    guessTime_loop now n y0 month mday hour minute
    = match find (fun y => now - DateUnix y month mday hour minute 0
                           <? 350 * 86400)
              (map (fun k => y0 + Z.of_nat k) (seq 0 n)) with
      | Some y => DateUnix y month mday hour minute 0
      | None => 0
      end.
Proof.
  induction n as [|n IH]; intros y0; [reflexivity|].
  cbn [guessTime_loop seq map find]. unfold getMtime.
  replace (y0 + Z.of_nat 0) with y0 by lia.
  destruct (now - DateUnix y0 month mday hour minute 0 <? 350 * 86400);
    [reflexivity|].
  rewrite (IH (y0 + 1)). rewrite <- seq_shift, map_map.
  rewrite (map_ext (fun k => y0 + Z.of_nat (S k))
             (fun k => y0 + 1 + Z.of_nat k)) by (intros k; lia).
  reflexivity.
Qed.

Lemma guessTime_guessed (now currentYear month mday hour minute : Z) :
  guessTime now currentYear month mday hour minute
  = guessed now currentYear month mday hour minute.
Proof.
  unfold guessTime, guessed, candidate_years.
  replace (Z.to_nat (currentYear + 100 - (currentYear - 1))) with 101%nat
    by lia.
  apply guessTime_loop_find.
Qed.

Lemma unix_time_or_year_reads (now currentYear : Z) (pre tok rest : string)
    (st : unix_state) :
  u_i st = len pre ->
  unix_time_or_year now currentYear (pre ++ tok ++ String " " rest)
    (len pre + len tok) st
  = Ret (option_map (stamped now currentYear st rest) (read_stamp tok)).
Proof.
  intros Hi. unfold unix_time_or_year. rewrite Hi.
  replace (len pre + len tok - len pre) with (len tok) by lia.
  rewrite after_token.
  pose proof (token_slices pre tok rest) as Hs.
  pose proof (token_at pre tok rest) as Ha.
  assert (Hs0 : slice (pre ++ tok ++ String " " rest) (len pre) (len pre + len tok)
                = Ret tok).
  { replace (len pre) with (len pre + 0) at 1 by lia.
    rewrite Hs by (pose proof (len_nonneg tok); lia). apply slice_all. }
  assert (Hsl : forall b, b <= len tok ->
                slice (pre ++ tok ++ String " " rest) (len pre) (len pre + b)
                = slice tok 0 b).
  { intros b Hb. replace (len pre) with (len pre + 0) at 1 by lia.
    now apply Hs. }
  assert (Ha0 : 0 < len tok ->
                at_ (pre ++ tok ++ String " " rest) (len pre) = at_ tok 0).
  { intros H. replace (len pre) with (len pre + 0) at 1 by lia. apply Ha. lia. }
  destruct tok as [|c0 [|c1 [|c2 [|c3 [|c4 [|c5 tok]]]]]].
  - reflexivity.
  - reflexivity.
  - reflexivity.
  - reflexivity.
  - (* four bytes *)
    change (len (String c0 (String c1 (String c2 (String c3 EmptyString))))) with 4 in *.
    change (4 =? 4) with true. cbv iota.
    rewrite Ha by lia. rewrite Ha0 by lia.
    rewrite (Hs 2 4) by lia.
    rewrite Hs0.
    change (4 =? 5) with false. change (4 >=? 4) with true.
    unfold read_stamp.
    change (at_ (String c0 (String c1 (String c2 (String c3 EmptyString)))) 1)
      with (Ret (A:=ascii) c1).
    change (at_ (String c0 (String c1 (String c2 (String c3 EmptyString)))) 0)
      with (Ret (A:=ascii) c0).
    change (slice (String c0 (String c1 (String c2 (String c3 EmptyString)))) 2 4)
      with (Ret (String c2 (String c3 EmptyString))).
    simpl bind.
    destruct (byte_eqb c1 ":"); rewrite ?guessTime_guessed; simpl;
      rewrite ?Hi; reflexivity.
  - (* five bytes *)
    change (len (String c0 (String c1 (String c2 (String c3 (String c4 EmptyString))))))
      with 5 in *.
    change (5 =? 4) with false. change (5 =? 5) with true. cbv iota.
    rewrite Ha by lia.
    rewrite (Hsl 2) by lia. rewrite (Hs 3 5) by lia.
    rewrite Hs0.
    change (5 >=? 4) with true.
    unfold read_stamp.
    change (at_ (String c0 (String c1 (String c2 (String c3 (String c4 EmptyString))))) 2)
      with (Ret (A:=ascii) c2).
    change (slice (String c0 (String c1 (String c2 (String c3 (String c4 EmptyString))))) 0 2)
      with (Ret (String c0 (String c1 EmptyString))).
    change (slice (String c0 (String c1 (String c2 (String c3 (String c4 EmptyString))))) 3 5)
      with (Ret (String c3 (String c4 EmptyString))).
    simpl bind.
    destruct (byte_eqb c2 ":"); rewrite ?guessTime_guessed; simpl;
      rewrite ?Hi; reflexivity.
  - (* six bytes or more *)
    set (t := String c0 (String c1 (String c2 (String c3 (String c4 (String c5 tok)))))) in *.
    assert (Hl : len t = 6 + len tok) by (subst t; rewrite !len_String; lia).
    pose proof (len_nonneg tok) as Hn.
    destruct (Z.eqb_spec (len t) 4); [lia|].
    destruct (Z.eqb_spec (len t) 5); [lia|].
    assert (Hge : (len t >=? 4) = true).
    { rewrite Z.geb_leb. apply Z.leb_le. lia. }
    cbv beta iota. unfold bind at 1. unfold bind at 1. rewrite Hge, Hs0.
    assert (Hrs : read_stamp t = Some (BareYear (parseInt t))).
    { unfold read_stamp. subst t.
      destruct (Z.leb_spec 4 (len (String c0 (String c1 (String c2 (String c3 (String c4 (String c5 tok)))))))); [reflexivity|lia]. }
    rewrite Hrs. simpl. rewrite ?Hi. reflexivity.
Qed.

(** ** Searching and splitting strings built by concatenation *)

Lemma str_mem_app (c : ascii) (a b : string) :
  str_mem c (a ++ b) = str_mem c a || str_mem c b.
Proof.
  induction a as [|x a IH]; simpl; [reflexivity|].
  rewrite IH. now rewrite orb_assoc.
Qed.

Lemma prefix_byte (c a : ascii) (s : string) :
  String.prefix (String c EmptyString) (String a s) = byte_eqb c a.
Proof.
  simpl. unfold byte_eqb.
  destruct (ascii_dec c a) as [->|Hne].
  - rewrite Ascii.eqb_refl. now destruct s.
  - symmetry. now apply Ascii.eqb_neq.
Qed.

Lemma index_from_found (c : ascii) (pre rest : string) (k : Z) :
  str_mem c pre = false ->
  index_from (pre ++ String c rest) (String c EmptyString) k = k + len pre.
Proof.
  revert k; induction pre as [|a pre IH]; intros k Hpre.
  - cbn [append index_from]. rewrite prefix_byte. unfold byte_eqb.
    rewrite Ascii.eqb_refl. change (len "") with 0. lia.
  - simpl in Hpre. apply orb_false_iff in Hpre as [Ha Hpre].
    cbn [append index_from]. rewrite prefix_byte, Ha.
    rewrite IH by assumption. rewrite len_String. lia.
Qed.

Lemma index_from_absent (c : ascii) (s : string) (k : Z) :
  str_mem c s = false -> index_from s (String c EmptyString) k = -1.
Proof.
  revert k; induction s as [|a s IH]; intros k Hs.
  - reflexivity.
  - simpl in Hs. apply orb_false_iff in Hs as [Ha Hs].
    cbn [index_from]. rewrite prefix_byte, Ha. now apply IH.
Qed.

Lemma str_rev_String (a : ascii) (s : string) :
  str_rev (String a s) = str_rev s ++ String a EmptyString.
Proof.
  unfold str_rev. simpl.
  generalize (rev (list_ascii_of_string s)) as l.
  induction l as [|x l IH]; simpl; [reflexivity | now rewrite IH].
Qed.

Lemma app_empty_r (s : string) : s ++ "" = s.
Proof. induction s as [|a s IH]; simpl; [reflexivity | now rewrite IH]. Qed.

Lemma split_byte_skips (sep : ascii) (x s cur : string) :
  str_mem sep x = false ->
  exists cur', str_rev cur' = str_rev cur ++ x
               /\ split_byte (x ++ s) sep cur = split_byte s sep cur'.
Proof.
  revert cur; induction x as [|a x IH]; intros cur Hx.
  - exists cur. now rewrite app_empty_r.
  - simpl in Hx. apply orb_false_iff in Hx as [Ha Hx].
    destruct (IH (String a cur) Hx) as (cur' & Hrev & Hsplit).
    exists cur'. split.
    + rewrite Hrev, str_rev_String, app_assoc_str. reflexivity.
    + cbn [append split_byte]. unfold byte_eqb in *.
      rewrite Ascii.eqb_sym, Ha. exact Hsplit.
Qed.

Lemma Split_concat (sep : ascii) (elems : list string) :
  elems <> [] ->
  Forall (fun x => str_mem sep x = false) elems ->
  Split (String.concat (String sep EmptyString) elems) sep = elems.
Proof.
  unfold Split. induction elems as [|x elems IH]; intros Hne Hall; [congruence|].
  inversion Hall as [|? ? Hx Hrest]; subst.
  destruct elems as [|y elems].
  - cbn [String.concat]. rewrite <- (app_empty_r x) at 1.
    destruct (split_byte_skips sep x "" "" Hx) as (cur' & Hrev & ->).
    cbn [split_byte]. rewrite Hrev. reflexivity.
  - change (String.concat (String sep "") (x :: y :: elems))
      with (x ++ String sep (String.concat (String sep "") (y :: elems))).
    destruct (split_byte_skips sep x
                (String sep (String.concat (String sep "") (y :: elems))) "" Hx)
      as (cur' & Hrev & ->).
    cbn [split_byte]. unfold byte_eqb. rewrite Ascii.eqb_refl.
    rewrite Hrev. cbn [str_rev list_ascii_of_string rev string_of_list_ascii append].
    f_equal. apply IH; [discriminate | assumption].
Qed.

Lemma str_mem_concat (c sep : ascii) (elems : list string) :
  byte_eqb c sep = false ->
  Forall (fun x => str_mem c x = false) elems ->
  str_mem c (String.concat (String sep EmptyString) elems) = false.
Proof.
  intros Hc. induction elems as [|x elems IH]; intros Hall; [reflexivity|].
  inversion Hall as [|? ? Hx Hrest]; subst.
  destruct elems as [|y elems]; [exact Hx|].
  change (String.concat (String sep "") (x :: y :: elems))
    with (x ++ String sep (String.concat (String sep "") (y :: elems))).
  rewrite str_mem_app, Hx. cbn [str_mem orb]. rewrite Hc. now apply IH.
Qed.

Lemma elem_last_two (front : list string) (e1 e2 : string) :
  let s := (front ++ [e1; e2])%list in
  let n := Z.of_nat (List.length s) in
  elem s (n - 2) = Ret e1 /\ elem s (n - 1) = Ret e2.
Proof.
  cbv zeta. unfold elem. rewrite List.length_app. cbn [List.length].
  split.
  - replace (Z.to_nat (Z.of_nat (List.length front + 2) - 2)) with (List.length front) by lia.
    rewrite nth_error_app2 by lia. rewrite Nat.sub_diag. cbn.
    destruct (Z.leb_spec 0 (Z.of_nat (List.length front + 2) - 2)); [|lia].
    destruct (Z.ltb_spec (Z.of_nat (List.length front + 2) - 2)
                (Z.of_nat (List.length front + 2))); [reflexivity|lia].
  - replace (Z.to_nat (Z.of_nat (List.length front + 2) - 1))
      with (S (List.length front)) by lia.
    rewrite nth_error_app2 by lia.
    replace (S (List.length front) - List.length front)%nat with 1%nat by lia. cbn.
    destruct (Z.leb_spec 0 (Z.of_nat (List.length front + 2) - 1)); [|lia].
    destruct (Z.ltb_spec (Z.of_nat (List.length front + 2) - 1)
                (Z.of_nat (List.length front + 2))); [reflexivity|lia].
Qed.

Lemma wrap64_small (z : Z) : - 2 ^ 63 <= z < 2 ^ 63 -> wrap64 z = z.
Proof.
  intros H. unfold wrap64. rewrite Z.mod_small; lia.
Qed.

(** ** Passive mode *)

Lemma pasv_after_reply (expect : Z) (c c' : Conn) (code : Z) (msg : string)
    (err : option error) :
  MyReadCodeLine (Cmd c "PASV") expect = Ret ((code, msg, err), c') ->
  err = None \/ code = StatusPassiveMode ->
  pasv expect c
  = (let start := Index msg "(" in
     let end_ := Index msg ")" in
     if (start =? -1) || (end_ =? -1) then
       Ret ((0, Some MalformedPassiveReply), c')
     else
       body <- slice msg (start + 1) end_ ;;
       let s := Split body "," in
       let n := Z.of_nat (List.length s) in
       e1 <- elem s (n - 2) ;;
       e2 <- elem s (n - 1) ;;
       Ret ((wrap64 (fst (Atoi e1) * 256 + fst (Atoi e2)), None), c')).
Proof.
  intros Hread Hok. unfold pasv. rewrite Hread. cbn [bind].
  destruct Hok as [-> | ->]; [reflexivity|].
  rewrite Z.eqb_refl. cbn [negb]. rewrite andb_false_r. reflexivity.
Qed.

(** X23: once the reply to PASV is read and accepted (no error, or code
    227), a message whose first parenthesis opens a comma list of two
    elements or more, closed by the first closing parenthesis, gives the
    port made of the last two elements, the first times 256 plus the
    second (in the 64 bits of an [int]; exactly that number when both
    are below 2^32), and a message without an opening or without a
    closing parenthesis gives the malformed-reply error; the reply
    ["227 Entering Passive Mode (127,0,0,1,19,136)"] gives port 5000. *)
Theorem pasv_port (expect : Z) (c c' : Conn) (code : Z) (msg : string)
    (err : option error) :
  MyReadCodeLine (Cmd c "PASV") expect = Ret ((code, msg, err), c') ->
  err = None \/ code = StatusPassiveMode ->
  (forall (pre post : string) (front : list string) (e1 e2 : string),
      holds_list msg pre (front ++ [e1; e2]) post ->
      let p1 := fst (Atoi e1) in
      let p2 := fst (Atoi e2) in
      pasv expect c = Ret ((wrap64 (p1 * 256 + p2), None), c')
      /\ (0 <= p1 < 2 ^ 32 -> 0 <= p2 < 2 ^ 32 ->
          wrap64 (p1 * 256 + p2) = p1 * 256 + p2))
  /\ (str_mem "(" msg = false \/ str_mem ")" msg = false ->
      pasv expect c = Ret ((0, Some MalformedPassiveReply), c'))
  /\ pasv expect pasv_example = Ret ((5000, None), mkConn [] ["PASV"]).
Proof.
  intros Hread Hok. split; [|split].
  - intros pre post front e1 e2 (Hmsg & Hpo & Hpc & Hcomma & Hclose) p1 p2.
    split.
    + rewrite (pasv_after_reply _ _ _ _ _ _ Hread Hok). cbv zeta.
      set (body := String.concat "," (front ++ [e1; e2])) in *.
      assert (Hbody : str_mem ")" body = false)
        by (apply str_mem_concat; [reflexivity | assumption]).
      assert (Hstart : Index msg "(" = len pre).
      { unfold Index. rewrite Hmsg. rewrite index_from_found by assumption. lia. }
      assert (Hend : Index msg ")" = len pre + 1 + len body).
      { unfold Index. rewrite Hmsg.
        change (pre ++ String "(" (body ++ String ")" post))
          with (pre ++ String "(" EmptyString ++ body ++ String ")" post).
        rewrite <- !app_assoc_str.
        rewrite index_from_found.
        - rewrite !len_app. change (len (String "(" EmptyString)) with 1. lia.
        - rewrite !str_mem_app, Hpc, Hbody. reflexivity. }
      rewrite Hstart, Hend.
      pose proof (len_nonneg pre). pose proof (len_nonneg body).
      destruct (Z.eqb_spec (len pre) (-1)); [lia|].
      destruct (Z.eqb_spec (len pre + 1 + len body) (-1)); [lia|].
      cbn [orb].
      assert (Hslice : slice msg (len pre + 1) (len pre + 1 + len body) = Ret body).
      { rewrite Hmsg.
        change (pre ++ String "(" (body ++ String ")" post))
          with (pre ++ String "(" EmptyString ++ body ++ String ")" post).
        rewrite <- (app_assoc_str pre).
        replace (len pre + 1) with (len (pre ++ String "(" EmptyString) + 0)
          by (rewrite len_app; change (len (String "(" EmptyString)) with 1; lia).
        replace (len (pre ++ String "(" EmptyString) + 0 + len body)
          with (len (pre ++ String "(" EmptyString) + len body) by lia.
        rewrite slice_app_r by lia.
        rewrite slice_app_l by lia. apply slice_all. }
      rewrite Hslice. cbn [bind].
      subst body. rewrite Split_concat;
        [| intros Habs; apply (f_equal (@List.length string)) in Habs;
           rewrite List.length_app in Habs; simpl in Habs; lia
         | assumption].
      destruct (elem_last_two front e1 e2) as [-> ->]. reflexivity.
    + intros H1 H2. apply wrap64_small. lia.
  - intros Hnone. rewrite (pasv_after_reply _ _ _ _ _ _ Hread Hok). cbv zeta.
    destruct Hnone as [H|H].
    + replace (Index msg "(") with (-1)
        by (symmetry; now apply index_from_absent).
      reflexivity.
    + replace (Index msg ")") with (-1)
        by (symmetry; now apply index_from_absent).
      rewrite orb_true_r. reflexivity.
  - unfold pasv, MyReadCodeLine, MyreadCodeLine, pasv_example.
    cbn [Cmd ReadLine incoming sent HasPrefix String.prefix].
    unfold parseCodeLine.
    change (len "227 Entering Passive Mode (127,0,0,1,19,136)" <? 4) with false.
    cbv iota.
    change (at_ "227 Entering Passive Mode (127,0,0,1,19,136)" 3)
      with (Ret (A:=ascii) " "%char).
    cbn [bind byte_eqb Ascii.eqb Bool.eqb negb andb].
    change (slice "227 Entering Passive Mode (127,0,0,1,19,136)" 0 3)
      with (Ret "227").
    cbn [bind]. change (Atoi "227") with (227, @None numError).
    cbv iota beta. change (227 <? 100) with false. cbn [orb].
    change (sliceFrom "227 Entering Passive Mode (127,0,0,1,19,136)" 4)
      with (Ret "Entering Passive Mode (127,0,0,1,19,136)").
    cbn [bind].
    match goal with
    | |- context [if ?b then Ret (_, _, _, Some _) else _] => destruct b
    end; vm_compute; reflexivity.
Qed.

Lemma pasv_port_witness :
  pasv 229 pasv_example = Ret ((wrap64 (19 * 256 + 136), None), mkConn [] ["PASV"])
  /\ wrap64 (19 * 256 + 136) = 19 * 256 + 136
  /\ pasv 229 (mkConn [inl "227 Entering Passive Mode"] [])
     = Ret ((0, Some MalformedPassiveReply), mkConn [] ["PASV"]).
Proof.
  assert (Hread : MyReadCodeLine (Cmd pasv_example "PASV") 229
                  = Ret ((227, "Entering Passive Mode (127,0,0,1,19,136)",
                          Some (StatusError 227 "Entering Passive Mode (127,0,0,1,19,136)")),
                         mkConn [] ["PASV"])) by reflexivity.
  assert (Hread' : MyReadCodeLine (Cmd (mkConn [inl "227 Entering Passive Mode"] []) "PASV") 229
                   = Ret ((227, "Entering Passive Mode",
                           Some (StatusError 227 "Entering Passive Mode")),
                          mkConn [] ["PASV"])) by reflexivity.
  assert (Hlist : holds_list "Entering Passive Mode (127,0,0,1,19,136)"
                    "Entering Passive Mode " (["127"; "0"; "0"; "1"] ++ ["19"; "136"]) "").
  { unfold holds_list. repeat split; try reflexivity;
      repeat constructor. }
  destruct (proj1 (pasv_port 229 pasv_example _ _ _ _ Hread (or_intror eq_refl))
              _ _ _ _ _ Hlist) as [Hport Hexact].
  split; [exact Hport|]. split.
  - apply Hexact; vm_compute; split; congruence.
  - apply (proj1 (proj2 (pasv_port 229 _ _ _ _ _ Hread' (or_intror eq_refl)))).
    left. reflexivity.
Defined.

(** ** LIST *)

(** C2, as stated, fails: a line that does not parse leaves a [nil] slot
    in the collection. *)
Lemma List_keeps_a_slot_for_a_bad_line :
  ParseLine 1793491200 2026 ("x " ++ String lf EmptyString) = Ret None
  /\ List 1793491200 2026 (inr one_bad_line) = Ret ([None], None)
  /\ ~ unparsable_lines_left_out 1793491200 2026 one_bad_line.
Proof.
  split; [reflexivity|]. split; [reflexivity|].
  intros H. specialize (H [None] None eq_refl). discriminate H.
Qed.

Lemma List_loop_slots (now currentYear : Z) (lines : list string) :
  Forall (fun l => exists r, ParseLine now currentYear l = Ret r) lines ->
  forall acc, exists slots,
    List_loop now currentYear lines acc = Ret (acc ++ slots)%list
    /\ Forall2 (fun l r => ParseLine now currentYear l = Ret r) lines slots.
Proof.
  induction 1 as [|l lines [r Hr] _ IH]; intros acc.
  - exists []. split; [now rewrite List.app_nil_r | constructor].
  - destruct (IH (acc ++ [r])%list) as (slots & Hloop & Hall).
    exists (r :: slots). split.
    + cbn [List_loop]. rewrite Hr. cbn [bind]. rewrite Hloop.
      now rewrite <- List.app_assoc.
    + now constructor.
Qed.

(** C2, amended: when the line-level parse returns on every line, the
    listing goes through all of them and succeeds; the collection has one
    slot for each complete line, in order, holding what the parse of that
    line returned: its entry, or [nil] when the line does not parse. *)
Theorem List_one_slot_per_line (now currentYear : Z) (bio : LineReader) :
  Forall (fun l => exists r, ParseLine now currentYear l = Ret r)
    (full_lines bio) ->
  exists entries,
    List now currentYear (inr bio) = Ret (entries, None)
    /\ Forall2 (fun l r => ParseLine now currentYear l = Ret r)
         (full_lines bio) entries.
Proof.
  intros Hall. unfold List.
  destruct (List_loop_slots now currentYear (full_lines bio) Hall [])
    as (slots & Hloop & Hslots).
  exists slots. rewrite Hloop. cbn [bind app]. split; [reflexivity | assumption].
Qed.

Lemma List_one_slot_per_line_witness :
  exists entries,
    List 1793491200 2026 (inr three_lines) = Ret (entries, None)
    /\ Forall2 (fun l r => ParseLine 1793491200 2026 l = Ret r)
         (full_lines three_lines) entries.
Proof.
  apply (List_one_slot_per_line 1793491200 2026 three_lines).
  repeat constructor; eexists; vm_compute; reflexivity.
Defined.

(** ** What the sub-parsers return on malformed lines *)

(** C1, as stated, fails: an MS-DOS line cut after its date, and a VMS
    line cut after its date, both give an entry, the first with nothing
    but the raw line, the second with a name and no time. *)
Lemma truncated_lines_give_entries :
  parseMSDOS "04-27-00" = Ret (Some (newFTPListData "04-27-00"))
  /\ ~ filled_or_absent (parseMSDOS "04-27-00")
  /\ ~ filled_or_absent (parseMultinet "CORE.DIR;1      1 8-NOV-1999" 8).
Proof.
  split; [reflexivity|]. split.
  - intros H. destruct (H _ eq_refl) as [Hname _]. now apply Hname.
  - intros H.
    assert (Hrun : exists f, parseMultinet "CORE.DIR;1      1 8-NOV-1999" 8 = Ret (Some f)
                             /\ MtimeType f = UNKNOWN_MTIME_TYPE)
      by (eexists; split; vm_compute; reflexivity).
    destruct Hrun as (f & Hf & Hk). destruct (H _ Hf) as [_ Hm]. congruence.
Qed.

Ltac returns_entry :=
  cbv zeta beta;
  repeat match goal with
    | |- Ret (Some _) <> Ret None => discriminate
    | |- Panic _ <> Ret _ => discriminate
    | |- or_return _ _ _ <> _ => unfold or_return at 1
    | |- bind ?m _ <> _ => destruct m; cbn [bind]
    | |- match ?x with _ => _ end <> _ => destruct x
    end.

Lemma parseMSDOS_returns_entry (buf : string) : parseMSDOS buf <> Ret None.
Proof. unfold parseMSDOS. returns_entry. Qed.

Lemma parseMultinet_returns_entry (buf : string) (i : Z) :
  parseMultinet buf i <> Ret None.
Proof. unfold parseMultinet. returns_entry. Qed.

Lemma parseUNIXStyle_returns_entry (now currentYear : Z) (buf : string) :
  parseUNIXStyle now currentYear buf <> Ret None.
Proof. unfold parseUNIXStyle. returns_entry. Qed.

Lemma for_loop_return {S R : Type} (body : Z -> S -> result (ctl S R)) (r : R) :
  forall (n : nat) (j : Z) (s : S),
    for_loop n j body s = Ret (inr r) ->
    exists j' s', body j' s' = Ret (Return r).
Proof.
  induction n as [|n IH]; intros j s H; cbn [for_loop] in H; [discriminate|].
  destruct (body j s) as [[s'|s'|r']|p] eqn:Hb.
  - now apply IH in H.
  - discriminate.
  - inversion H; subst. eauto.
  - discriminate.
Qed.

Lemma eplf_body_return (buf : string) (j i : Z) (fdata : FTPListData)
    (r : option FTPListData) :
  eplf_body buf j (i, fdata) = Ret (Return r) ->
  r = None /\ at_ buf j = Ret ","%char /\ bad_number buf i j.
Proof.
  unfold eplf_body, bad_number. intros H.
  destruct (at_ buf j) as [bj|] eqn:Hj; cbn [bind] in H; [|discriminate].
  destruct (byte_eqb bj tab).
  { destruct (sliceFrom buf (j + 1)); cbn [bind] in H; discriminate. }
  destruct (byte_eqb bj ",") eqn:Hcomma; [|discriminate].
  apply Ascii.eqb_eq in Hcomma; subst bj.
  destruct (at_ buf i) as [c|] eqn:Hc; cbn [bind] in H; [|discriminate].
  destruct (byte_eqb c "/"); [discriminate|].
  destruct (byte_eqb c "r"); [discriminate|].
  destruct (byte_eqb c "s") eqn:Hs.
  { apply Ascii.eqb_eq in Hs; subst c.
    destruct (slice buf (i + 1) j) as [tok|] eqn:Htok; cbn [bind] in H; [|discriminate].
    destruct (ParseUint tok 64) as [size [e|]] eqn:Hp; [|discriminate].
    inversion H; subst. split; [reflexivity|]. split; [reflexivity|].
    exists tok. split; [reflexivity|]. left. split; [reflexivity|].
    rewrite Hp. discriminate. }
  destruct (byte_eqb c "m") eqn:Hm.
  { apply Ascii.eqb_eq in Hm; subst c.
    destruct (slice buf (i + 1) j) as [tok|] eqn:Htok; cbn [bind] in H; [|discriminate].
    destruct (ParseInt tok 64) as [t [e|]] eqn:Hp; [|discriminate].
    inversion H; subst. split; [reflexivity|]. split; [reflexivity|].
    exists tok. split; [reflexivity|]. right. split; [reflexivity|].
    rewrite Hp. discriminate. }
  destruct (byte_eqb c "i"); [|discriminate].
  destruct (slice buf (i + 1) (j - i - 1)); cbn [bind] in H; discriminate.
Qed.

Lemma eplf_body_bad_number (buf : string) (j i : Z) (fdata : FTPListData) :
  at_ buf j = Ret ","%char -> bad_number buf i j ->
  eplf_body buf j (i, fdata) = Ret (Return None).
Proof.
  intros Hj (tok & Htok & [[Hi Hbad]|[Hi Hbad]]);
    unfold eplf_body; rewrite Hj; cbn [bind];
    change (byte_eqb "," tab) with false; change (byte_eqb "," ",") with true;
    cbv iota; rewrite Hi; cbn [bind].
  - change (byte_eqb "s" "/") with false. change (byte_eqb "s" "r") with false.
    change (byte_eqb "s" "s") with true. cbv iota.
    rewrite Htok; cbn [bind].
    destruct (ParseUint tok 64) as [size [e|]]; [reflexivity|].
    now contradiction Hbad.
  - change (byte_eqb "m" "/") with false. change (byte_eqb "m" "r") with false.
    change (byte_eqb "m" "s") with false. change (byte_eqb "m" "m") with true.
    cbv iota. rewrite Htok; cbn [bind].
    destruct (ParseInt tok 64) as [t [e|]]; [reflexivity|].
    now contradiction Hbad.
Qed.

(** A turn of the EPLF loop that goes on to the next: at a comma it has
    read the fact and set its start after the comma; at any byte other
    than a comma or a tab it has changed nothing. *)
Lemma eplf_body_next_cases (buf : string) (j i : Z) (fdata : FTPListData)
    (st' : Z * FTPListData) :
  eplf_body buf j (i, fdata) = Ret (Next st') ->
  (at_ buf j = Ret ","%char /\ fst st' = j + 1
   /\ (at_ buf i = Ret "i"%char -> i + 1 <= j - i - 1))
  \/ (st' = (i, fdata)
      /\ at_ buf j <> Ret ","%char /\ at_ buf j <> Ret tab).
Proof.
  unfold eplf_body. intros H.
  destruct (at_ buf j) as [bj|] eqn:Hj; cbn [bind] in H; [|discriminate].
  destruct (byte_eqb bj tab) eqn:Htab.
  { destruct (sliceFrom buf (j + 1)); cbn [bind] in H; discriminate. }
  destruct (byte_eqb bj ",") eqn:Hcomma.
  - apply Ascii.eqb_eq in Hcomma; subst bj. left. split; [reflexivity|].
    destruct (at_ buf i) as [c|] eqn:Hc; cbn [bind] in H; [|discriminate].
    assert (Htag : forall t : ascii,
               byte_eqb c t = true -> t <> "i"%char ->
               Ret c = Ret "i"%char -> i + 1 <= j - i - 1).
    { intros t Ht Hne Heq. apply Ascii.eqb_eq in Ht. congruence. }
    destruct (byte_eqb c "/") eqn:H1.
    { inversion H; subst. split; [reflexivity|].
      apply (Htag "/"%char); [assumption | discriminate]. }
    destruct (byte_eqb c "r") eqn:H2.
    { inversion H; subst. split; [reflexivity|].
      apply (Htag "r"%char); [assumption | discriminate]. }
    destruct (byte_eqb c "s") eqn:H3.
    { destruct (slice buf (i + 1) j); cbn [bind] in H; [|discriminate].
      destruct (ParseUint _ 64) as [size [e|]]; [discriminate|].
      inversion H; subst. split; [reflexivity|].
      apply (Htag "s"%char); [assumption | discriminate]. }
    destruct (byte_eqb c "m") eqn:H4.
    { destruct (slice buf (i + 1) j); cbn [bind] in H; [|discriminate].
      destruct (ParseInt _ 64) as [t [e|]]; [discriminate|].
      inversion H; subst. split; [reflexivity|].
      apply (Htag "m"%char); [assumption | discriminate]. }
    destruct (byte_eqb c "i") eqn:H5.
    { destruct (slice buf (i + 1) (j - i - 1)) eqn:Hid; cbn [bind] in H;
        [|discriminate].
      inversion H; subst. split; [reflexivity|]. intros _.
      unfold slice in Hid.
      destruct (Z.leb_spec 0 (i + 1)); cbn [andb] in Hid; [|discriminate].
      destruct (Z.leb_spec (i + 1) (j - i - 1)); [assumption | discriminate]. }
    inversion H; subst. split; [reflexivity|].
    intros Heq. inversion Heq; subst c. discriminate.
  - right. inversion H; subst. split; [reflexivity|].
    split; intros Heq; inversion Heq; subst bj; discriminate.
Qed.

Lemma eplf_body_skips (buf : string) (j i : Z) (fdata : FTPListData) :
  0 <= j < len buf ->
  at_ buf j <> Ret ","%char -> at_ buf j <> Ret tab ->
  eplf_body buf j (i, fdata) = Ret (Next (i, fdata)).
Proof.
  intros Hj Hcomma Htab.
  destruct (at_in_range buf j Hj) as (b & Hb & _).
  unfold eplf_body. rewrite Hb in *. cbn [bind].
  destruct (byte_eqb b tab) eqn:H1.
  { apply Ascii.eqb_eq in H1. subst b. now contradiction Htab. }
  destruct (byte_eqb b ",") eqn:H2.
  { apply Ascii.eqb_eq in H2. subst b. now contradiction Hcomma. }
  reflexivity.
Qed.

Lemma eplf_body_reads (buf : string) (j i : Z) (fdata : FTPListData) :
  1 <= i <= j -> at_ buf j = Ret ","%char -> reads_fact buf i j ->
  exists fdata', eplf_body buf j (i, fdata) = Ret (Next (j + 1, fdata')).
Proof.
  intros Hi Hj [Hgood Hid].
  assert (Hlen : 0 <= j < len buf).
  { unfold at_ in Hj.
    destruct (Z.leb_spec 0 j); cbn [andb] in Hj; [|discriminate].
    destruct (Z.ltb_spec j (len buf)); [lia | discriminate]. }
  destruct (at_in_range buf i) as (c & Hc & _); [lia|].
  assert (Hij : c <> ","%char -> i + 1 <= j).
  { intros Hne. destruct (Z.eq_dec i j) as [->|]; [congruence | lia]. }
  unfold eplf_body. rewrite Hj. cbn [bind].
  change (byte_eqb "," tab) with false. change (byte_eqb "," ",") with true.
  cbv iota. rewrite Hc. cbn [bind].
  destruct (byte_eqb c "/"); [eauto|].
  destruct (byte_eqb c "r"); [eauto|].
  destruct (byte_eqb c "s") eqn:H3.
  { apply Ascii.eqb_eq in H3; subst c.
    assert (Hlt : i + 1 <= j) by (apply Hij; discriminate).
    rewrite slice_in_range by lia. cbn [bind].
    destruct (ParseUint _ 64) as [size [e|]] eqn:Hp; [|eauto].
    exfalso. apply Hgood. eexists. split.
    - apply slice_in_range; lia.
    - left. split; [assumption|]. rewrite Hp. discriminate. }
  destruct (byte_eqb c "m") eqn:H4.
  { apply Ascii.eqb_eq in H4; subst c.
    assert (Hlt : i + 1 <= j) by (apply Hij; discriminate).
    rewrite slice_in_range by lia. cbn [bind].
    destruct (ParseInt _ 64) as [t [e|]] eqn:Hp; [|eauto].
    exfalso. apply Hgood. eexists. split.
    - apply slice_in_range; lia.
    - right. split; [assumption|]. rewrite Hp. discriminate. }
  destruct (byte_eqb c "i") eqn:H5; [|eauto].
  apply Ascii.eqb_eq in H5; subst c. specialize (Hid Hc).
  rewrite slice_in_range by lia. cbn [bind]. eauto.
Qed.

Lemma for_loop_return_at {S R : Type} (P : Z -> S -> Prop)
    (body : Z -> S -> result (ctl S R)) (r : R) :
  (forall j s s', P j s -> body j s = Ret (Next s') -> P (j + 1) s') ->
  forall (n : nat) (j : Z) (s : S),
    P j s -> for_loop n j body s = Ret (inr r) ->
    exists j' s', P j' s' /\ body j' s' = Ret (Return r).
Proof.
  intros Hnext. induction n as [|n IH]; intros j s Hs H; cbn [for_loop] in H;
    [discriminate|].
  destruct (body j s) as [[s'|s'|r']|p] eqn:Hb; try discriminate.
  - apply (IH (j + 1) s'); [|assumption]. now apply (Hnext j s).
  - inversion H; subst. eauto.
Qed.

Lemma for_loop_skip {S R : Type} (body : Z -> S -> result (ctl S R)) (s : S) :
  forall (m n : nat) (k : Z),
    (forall k', k <= k' < k + Z.of_nat m -> body k' s = Ret (Next s)) ->
    for_loop (m + n) k body s = for_loop n (k + Z.of_nat m) body s.
Proof.
  induction m as [|m IH]; intros n k Hskip.
  - cbn [Nat.add]. now rewrite Z.add_0_r.
  - cbn [Nat.add for_loop]. rewrite Hskip by lia.
    rewrite IH by (intros k' Hk'; apply Hskip; lia).
    f_equal. lia.
Qed.

Lemma scan_reaches_from_1 (buf : string) (i : Z) :
  scan_reaches buf i -> 1 <= i.
Proof.
  induction 1 as [|i j _ IH [Hij _] _]; lia.
Qed.

Lemma ends_fact_within (buf : string) (i j : Z) :
  ends_fact buf i j -> 0 <= j < len buf.
Proof.
  intros (_ & Hj & _). unfold at_ in Hj.
  destruct (Z.leb_spec 0 j); cbn [andb] in Hj; [|discriminate].
  destruct (Z.ltb_spec j (len buf)); [lia | discriminate].
Qed.

(** The loop, from the start of a fact to the comma that ends it. *)
Lemma eplf_loop_to_comma (buf : string) (i j : Z) (fdata : FTPListData) :
  1 <= i -> ends_fact buf i j ->
  for_loop (Z.to_nat (len buf - i)) i (eplf_body buf) (i, fdata)
  = for_loop (Z.to_nat (len buf - j)) j (eplf_body buf) (i, fdata).
Proof.
  intros Hi Hends. pose proof (ends_fact_within buf i j Hends) as Hj.
  destruct Hends as (Hij & _ & Hbefore).
  replace (Z.to_nat (len buf - i))
    with (Z.to_nat (j - i) + Z.to_nat (len buf - j))%nat by lia.
  rewrite for_loop_skip.
  - f_equal. lia.
  - intros k Hk. destruct (Hbefore k) as [Hc Ht]; [lia|].
    apply eplf_body_skips; [lia | assumption | assumption].
Qed.

(** The loop gets to the start of every fact that the scan reaches. *)
Lemma eplf_loop_reaches (buf : string) (fdata0 : FTPListData) (i : Z) :
  scan_reaches buf i ->
  i <= len buf ->
  exists fdata,
    for_loop (Z.to_nat (len buf - 1)) 1 (eplf_body buf) (1, fdata0)
    = for_loop (Z.to_nat (len buf - i)) i (eplf_body buf) (i, fdata).
Proof.
  induction 1 as [|i j Hreach IH Hends Hreads]; intros Hlen; [eauto|].
  pose proof (scan_reaches_from_1 buf i Hreach) as Hi.
  pose proof (ends_fact_within buf i j Hends) as Hj.
  destruct IH as (fdata & ->); [destruct Hends; lia|].
  rewrite (eplf_loop_to_comma buf i j) by assumption.
  destruct Hends as (Hij & Hcomma & _).
  destruct (eplf_body_reads buf j i fdata) as (fdata' & Hbody);
    [lia | assumption | assumption |].
  exists fdata'.
  replace (Z.to_nat (len buf - j)) with (S (Z.to_nat (len buf - (j + 1))))
    by lia.
  cbn [for_loop]. now rewrite Hbody.
Qed.

(** C1, amended: of the sub-parsers only EPLF ever reports a failure.
    The UNIX-style, VMS and MS-DOS parsers, when they return, return an
    entry, whatever the line lacks.  The EPLF parser gives no entry
    exactly when its scan reaches, every fact before it having been read
    and no tab having come up, the comma that ends a fact tagged [s] or
    [m] whose content is not a number. *)
Theorem sub_parser_outcomes (now currentYear : Z) (buf : string) :
  parseUNIXStyle now currentYear buf <> Ret None
  /\ (forall i, parseMultinet buf i <> Ret None)
  /\ parseMSDOS buf <> Ret None
  /\ (parseEPLF buf = Ret None
      <-> exists i j,
            scan_reaches (Trim buf blanks) i
            /\ ends_fact (Trim buf blanks) i j
            /\ bad_number (Trim buf blanks) i j).
Proof.
  split; [apply parseUNIXStyle_returns_entry|].
  split; [intros i; apply parseMultinet_returns_entry|].
  split; [apply parseMSDOS_returns_entry|].
  unfold parseEPLF. cbv zeta. set (line := Trim buf blanks). split.
  - intros H.
    destruct (for_loop (Z.to_nat (len line - 1)) 1 (eplf_body line)
                (1, newFTPListData buf))
      as [[[i fdata]|early]|p] eqn:Hloop; cbn [bind] in H; try discriminate.
    inversion H; subst early.
    apply (for_loop_return_at
             (fun j st =>
                scan_reaches line (fst st) /\ fst st <= j
                /\ forall k, fst st <= k < j ->
                             at_ line k <> Ret ","%char
                             /\ at_ line k <> Ret tab)) in Hloop.
    + destruct Hloop as (j & [i fdata] & (Hreach & Hij & Hbefore) & Hbody).
      cbn [fst] in *.
      apply eplf_body_return in Hbody as (_ & Hcomma & Hbad).
      exists i, j. split; [assumption|]. split; [|assumption].
      split; [assumption|]. split; assumption.
    + intros j [i fdata] st' (Hreach & Hij & Hbefore) Hbody. cbn [fst] in *.
      destruct (eplf_body_next_cases line j i fdata st' Hbody)
        as [(Hcomma & Hst & Hid)|(-> & Hcomma & Htab)].
      * rewrite Hst. split; [|split; [lia | intros k Hk; lia]].
        apply (reaches_next line i j); [assumption| |].
        -- split; [assumption|]. split; assumption.
        -- split; [|assumption]. intros Hbad.
           rewrite (eplf_body_bad_number line j i fdata Hcomma Hbad) in Hbody.
           discriminate.
      * cbn [fst]. split; [assumption|]. split; [lia|].
        intros k Hk. destruct (Z.eq_dec k j) as [->|]; [now split|].
        apply Hbefore. lia.
    + cbn [fst]. split; [constructor|]. split; [lia|]. intros k Hk. lia.
  - intros (i & j & Hreach & Hends & Hbad).
    pose proof (scan_reaches_from_1 line i Hreach) as Hi.
    pose proof (ends_fact_within line i j Hends) as Hj.
    destruct (eplf_loop_reaches line (newFTPListData buf) i Hreach)
      as (fdata & ->); [destruct Hends; lia|].
    rewrite (eplf_loop_to_comma line i j) by assumption.
    destruct Hends as (Hij & Hcomma & _).
    replace (Z.to_nat (len line - j)) with (S (Z.to_nat (len line - (j + 1))))
      by lia.
    cbn [for_loop].
    rewrite (eplf_body_bad_number line j i fdata Hcomma Hbad). reflexivity.
Qed.

Lemma sub_parser_outcomes_witness :
  exists i j,
    scan_reaches (Trim eplf_bad_size blanks) i
    /\ ends_fact (Trim eplf_bad_size blanks) i j
    /\ bad_number (Trim eplf_bad_size blanks) i j.
Proof.
  apply (proj1 (proj2 (proj2 (proj2 (sub_parser_outcomes 0 1970 eplf_bad_size))))).
  reflexivity.
Defined.

(** ** The calendar *)

Lemma leap_count_step (y : Z) :
  (y / 4 - y / 100 + y / 400)
  - ((y - 1) / 4 - (y - 1) / 100 + (y - 1) / 400)
  = if isLeap y then 1 else 0.
Proof.
  unfold isLeap.
  destruct (Z.eqb_spec (y mod 4) 0), (Z.eqb_spec (y mod 100) 0),
    (Z.eqb_spec (y mod 400) 0); cbn [negb andb orb];
    Z.to_euclidean_division_equations; lia.
Qed.

Lemma daysSinceEpoch_step (y : Z) :
  daysSinceEpoch (y + 1)
  = daysSinceEpoch y + 365 + (if isLeap y then 1 else 0).
Proof.
  unfold daysSinceEpoch. pose proof (leap_count_step y) as H.
  replace (y + 1 - 1) with y by lia. lia.
Qed.

Lemma leap_years_apart (y : Z) : isLeap y = true -> isLeap (y + 1) = false.
Proof.
  unfold isLeap. intros H. apply andb_true_iff in H as [H _].
  apply Z.eqb_eq in H.
  destruct (Z.eqb_spec ((y + 1) mod 4) 0); [|reflexivity].
  exfalso. Z.to_euclidean_division_equations. lia.
Qed.

Lemma getMtime_linear (year month mday hour minute : Z) :
  1 <= month <= 12 ->
  getMtime year month mday hour minute 0
  = (monthStart year month + mday - 1) * 86400 + hour * 3600 + minute * 60.
Proof.
  intros Hm. unfold getMtime, DateUnix, norm, monthStart, leapDay.
  rewrite (Z.div_small (month - 1) 12) by lia.
  rewrite (Z.mod_small (month - 1) 12) by lia.
  change (0 / 60) with 0. change (0 mod 60) with 0.
  replace (year + 0) with year by lia.
  replace (month - 1 + 1) with month by lia.
  replace (minute + 0) with minute by lia.
  generalize (daysSinceEpoch year + daysBefore (month - 1)
              + (if isLeap year && (3 <=? month) then 1 else 0)) as d.
  intros d. Z.to_euclidean_division_equations. lia.
Qed.

Lemma month_cases (month : Z) :
  1 <= month <= 12 ->
  month = 1 \/ month = 2 \/ month = 3 \/ month = 4 \/ month = 5 \/ month = 6
  \/ month = 7 \/ month = 8 \/ month = 9 \/ month = 10 \/ month = 11
  \/ month = 12.
Proof. lia. Qed.

Lemma monthStart_step (year month : Z) :
  1 <= month <= 12 ->
  365 <= monthStart (year + 1) month - monthStart year month <= 366.
Proof.
  intros Hm. unfold monthStart, leapDay. rewrite daysSinceEpoch_step.
  pose proof (leap_years_apart year) as Hl.
  destruct (isLeap year); [rewrite Hl by reflexivity|];
    destruct (isLeap (year + 1)); destruct (3 <=? month); cbn [andb]; lia.
Qed.

Lemma monthStart_within_year (year month : Z) :
  1 <= month <= 12 ->
  daysSinceEpoch year <= monthStart year month
  /\ monthStart year month + 31 <= daysSinceEpoch (year + 1).
Proof.
  intros Hm. unfold monthStart, leapDay. rewrite daysSinceEpoch_step.
  generalize (daysSinceEpoch year) as d. intros d.
  destruct (isLeap year);
    destruct (month_cases month Hm)
      as [->|[->|[->|[->|[->|[->|[->|[->|[->|[->|[->| ->]]]]]]]]]]];
    match goal with
    | |- context [daysBefore ?a] =>
        let v := eval vm_compute in (daysBefore a) in
        change (daysBefore a) with v
    end;
    match goal with
    | |- context [3 <=? ?a] =>
        let v := eval vm_compute in (3 <=? a) in
        change (3 <=? a) with v
    end;
    cbn [andb]; lia.
Qed.

Lemma yearStart (year : Z) :
  getMtime year 1 1 0 0 0 = daysSinceEpoch year * 86400.
Proof.
  rewrite getMtime_linear by lia. unfold monthStart, leapDay.
  change (3 <=? 1) with false. rewrite andb_false_r.
  change (daysBefore (1 - 1)) with 0. lia.
Qed.

(** ** The guess of the year *)

Lemma guessTime_loop_first (now month mday hour minute : Z) :
  forall (n : nat) (y0 y : Z),
    y0 <= y ->
    (Z.to_nat (y - y0) < n)%nat ->
    (forall y', y0 <= y' < y ->
                ~ now - getMtime y' month mday hour minute 0 < 350 * 86400) ->
    now - getMtime y month mday hour minute 0 < 350 * 86400 ->
    guessTime_loop now n y0 month mday hour minute
    = getMtime y month mday hour minute 0.
Proof.
  induction n as [|n IH]; intros y0 y Hle Hn Hbefore Hy; [lia|].
  cbn [guessTime_loop].
  destruct (Z.ltb_spec (now - getMtime y0 month mday hour minute 0) (350 * 86400))
    as [Hlt|Hge].
  - destruct (Z.eq_dec y0 y) as [->|Hne]; [reflexivity|].
    exfalso. apply (Hbefore y0); [lia | assumption].
  - assert (y0 <> y) by (intros ->; lia).
    apply IH; [lia | lia | | assumption].
    intros y' Hy'. apply Hbefore. lia.
Qed.

(** C4, amended: for a month, day, hour and minute of the calendar, [now]
    lying in the year [currentYear] (of some time zone, at most 14 hours
    from UTC), the guess is the UTC time of the date in the first year,
    from [currentYear - 1] upwards, that makes it less than 350 days old:
    one of the years [currentYear - 1], [currentYear], [currentYear + 1].
    So the result is less than 350 days old, and it is at most 16 days
    after [now]. *)
Theorem guessTime_first_recent_year
    (now currentYear month mday hour minute : Z) :
  1 <= month <= 12 -> 1 <= mday <= 31 ->
  0 <= hour <= 23 -> 0 <= minute <= 59 ->
  getMtime currentYear 1 1 0 0 0 - 14 * 3600 <= now
    < getMtime (currentYear + 1) 1 1 0 0 0 + 14 * 3600 ->
  exists year,
    currentYear - 1 <= year <= currentYear + 1
    /\ guessTime now currentYear month mday hour minute
       = getMtime year month mday hour minute 0
    /\ now - getMtime year month mday hour minute 0 < 350 * 86400
    /\ (forall y, currentYear - 1 <= y < year ->
                  ~ now - getMtime y month mday hour minute 0 < 350 * 86400)
    /\ getMtime year month mday hour minute 0 <= now + 16 * 86400.
Proof.
  intros Hmonth Hmday Hhour Hminute Hnow.
  rewrite !yearStart in Hnow.
  set (t := fun y => getMtime y month mday hour minute 0).
  assert (Ht : forall y, t y = (monthStart y month + mday - 1) * 86400
                               + hour * 3600 + minute * 60)
    by (intros y; apply getMtime_linear; assumption).
  pose proof (monthStart_step (currentYear - 1) month Hmonth) as Hs0.
  replace (currentYear - 1 + 1) with currentYear in Hs0 by lia.
  pose proof (monthStart_step currentYear month Hmonth) as Hs1.
  pose proof (monthStart_within_year (currentYear - 1) month Hmonth) as Hw0.
  replace (currentYear - 1 + 1) with currentYear in Hw0 by lia.
  pose proof (monthStart_within_year (currentYear + 1) month Hmonth) as Hw2.
  pose proof (Ht (currentYear - 1)) as E0.
  pose proof (Ht currentYear) as E1.
  pose proof (Ht (currentYear + 1)) as E2.
  assert (Hfuel : Z.to_nat (currentYear + 100 - (currentYear - 1)) = 101%nat) by lia.
  unfold guessTime. rewrite Hfuel.
  fold (t (currentYear - 1)) (t currentYear) (t (currentYear + 1)).
  destruct (Z.lt_ge_cases (now - t (currentYear - 1)) (350 * 86400)) as [H0|H0].
  { exists (currentYear - 1). split; [lia|]. split; [|split; [|split]].
    - apply guessTime_loop_first; [lia | lia | intros; lia | exact H0].
    - exact H0.
    - intros y Hy. lia.
    - fold (t (currentYear - 1)). lia. }
  destruct (Z.lt_ge_cases (now - t currentYear) (350 * 86400)) as [H1|H1].
  { exists currentYear. split; [lia|]. split; [|split; [|split]].
    - apply guessTime_loop_first; [lia | lia | | exact H1].
      intros y Hy. assert (y = currentYear - 1) as -> by lia.
      fold (t (currentYear - 1)). lia.
    - exact H1.
    - intros y Hy. assert (y = currentYear - 1) as -> by lia.
      fold (t (currentYear - 1)). lia.
    - fold (t currentYear). lia. }
  exists (currentYear + 1). split; [lia|]. split; [|split; [|split]].
  - apply guessTime_loop_first; [lia | lia | | fold (t (currentYear + 1)); lia].
    intros y Hy.
    assert (y = currentYear - 1 \/ y = currentYear) as [-> | ->] by lia.
    + fold (t (currentYear - 1)). lia.
    + fold (t currentYear). lia.
  - fold (t (currentYear + 1)). lia.
  - intros y Hy.
    assert (y = currentYear - 1 \/ y = currentYear) as [-> | ->] by lia.
    + fold (t (currentYear - 1)). lia.
    + fold (t currentYear). lia.
  - fold (t (currentYear + 1)). lia.
Qed.

(** The date of the package's test, Nov 23 at 11:34, seen on
    2026-11-01. *)
Lemma guessTime_first_recent_year_witness :
  exists year,
    2026 - 1 <= year <= 2026 + 1
    /\ guessTime 1793491200 2026 11 23 11 34 = getMtime year 11 23 11 34 0
    /\ 1793491200 - getMtime year 11 23 11 34 0 < 350 * 86400
    /\ (forall y, 2026 - 1 <= y < year ->
                  ~ 1793491200 - getMtime y 11 23 11 34 0 < 350 * 86400)
    /\ getMtime year 11 23 11 34 0 <= 1793491200 + 16 * 86400.
Proof.
  apply (guessTime_first_recent_year 1793491200 2026 11 23 11 34); try lia.
  vm_compute. split; [discriminate | reflexivity].
Defined.

(** Outside the calendar the scan can fail: for a day as far back as the
    parser's [parseInt] can produce, none of the 101 candidate years is
    recent enough, and the guess is 0. *)
Remark guessTime_out_of_calendar :
  guessTime 1793491200 2026 1 (-2147483648) 0 0 = 0.
Proof. vm_compute. reflexivity. Qed.

(** C4, as stated for every input, fails outside the calendar, and the
    UNIX-style parser hands the numbers of a line to the guess
    unchecked.  Seen on 2026-11-01, the 800th of January, 03:26, is
    resolved in the year before the current one, which is accepted at
    once, to March 11th 2027, more than 130 days after now.  And for a
    day as far back as [parseInt] can give, no candidate year is
    accepted: the guess is 0, which is no candidate's time and is more
    than 350 days old. *)
Lemma guessTime_outside_calendar :
  guessTime 1793491200 2026 1 800 3 26 = DateUnix 2027 3 11 3 26 0
  /\ 1793491200 + 130 * 86400 < guessTime 1793491200 2026 1 800 3 26
  /\ mtime_of (ParseLine 1793491200 2026
                 "-rw-r--r--   1 root     other     531 Jan 800 03:26 README")
     = Some (DateUnix 2027 3 11 3 26 0)
  /\ guessTime 1793491200 2026 1 (-2147483648) 3 26 = 0
  /\ ~ 1793491200 - guessTime 1793491200 2026 1 (-2147483648) 3 26
        < 350 * 86400
  /\ mtime_of (ParseLine 1793491200 2026
                 "-rw-r--r--   1 root     other     531 Jan -2147483648 03:26 README")
     = Some 0.
Proof.
  split; [vm_compute; reflexivity|].
  split; [vm_compute; reflexivity|].
  split; [vm_compute; reflexivity|].
  split; [vm_compute; reflexivity|].
  split; [vm_compute; discriminate|].
  vm_compute; reflexivity.
Qed.

(** ** The time-or-year token and the guessed year *)

Lemma readme_line_parses (now currentYear : Z) :
  ParseLine now currentYear readme_line
  = Ret (Some {| RawLine := readme_line; Name := "README";
                 TryCwd := false; TryRetr := true; Size := 531;
                 MtimeType := REMOTE_MINUTE_MTIME_TYPE;
                 Mtime := guessTime now currentYear 1 29 3 26;
                 IdType := UNKNOWN_ID_TYPE; Id := ""; LinkDest := "" |}).
Proof. cbv -[guessTime]. reflexivity. Qed.

(** January 29th, 03:26, seen from within the current year: the guess is
    the date in the year before while that is less than 350 days old,
    and the date in the current year from then on. *)
Lemma guessTime_readme (now currentYear : Z) :
  DateUnix currentYear 1 1 0 0 0 - 14 * 3600 <= now
    < DateUnix (currentYear + 1) 1 1 0 0 0 + 14 * 3600 ->
  guessTime now currentYear 1 29 3 26
  = DateUnix (if now - DateUnix (currentYear - 1) 1 29 3 26 0 <? 350 * 86400
              then currentYear - 1 else currentYear) 1 29 3 26 0.
Proof.
  intros Hnow.
  change (DateUnix currentYear 1 1 0 0 0)
    with (getMtime currentYear 1 1 0 0 0) in Hnow.
  change (DateUnix (currentYear + 1) 1 1 0 0 0)
    with (getMtime (currentYear + 1) 1 1 0 0 0) in Hnow.
  rewrite !yearStart in Hnow.
  set (t := fun y => getMtime y 1 29 3 26 0).
  change (DateUnix (currentYear - 1) 1 29 3 26 0) with (t (currentYear - 1)).
  assert (Ht : forall y, t y = (daysSinceEpoch y + 28) * 86400 + 12360).
  { intros y. unfold t. rewrite getMtime_linear by lia.
    unfold monthStart, leapDay. change (3 <=? 1) with false.
    rewrite andb_false_r. change (daysBefore (1 - 1)) with 0. lia. }
  pose proof (daysSinceEpoch_step (currentYear - 1)) as Hs0.
  replace (currentYear - 1 + 1) with currentYear in Hs0 by lia.
  pose proof (daysSinceEpoch_step currentYear) as Hs1.
  pose proof (Ht (currentYear - 1)) as E0.
  pose proof (Ht currentYear) as E1.
  unfold guessTime.
  replace (Z.to_nat (currentYear + 100 - (currentYear - 1))) with 101%nat
    by lia.
  destruct (Z.ltb_spec (now - t (currentYear - 1)) (350 * 86400)) as [H0|H0].
  - apply guessTime_loop_first; [lia | lia | intros; lia | exact H0].
  - apply guessTime_loop_first; [lia | lia | |].
    + intros y Hy. assert (y = currentYear - 1) as -> by lia.
      fold (t (currentYear - 1)). lia.
    + fold (t currentYear).
      destruct (isLeap (currentYear - 1)), (isLeap currentYear); lia.
Qed.

(** C5: in state 7 of the UNIX-style scanner, when size, month and day
    are known, the token that ends at a blank is read as the
    specification says: [h:mm] and [hh:mm] give hour and minute, kind
    REMOTE_MINUTE and the time of the date in the guessed year, the
    first of the candidate years that makes it less than 350 days old;
    any other token of four bytes or more gives a year, kind REMOTE_DAY
    and the time of the start of the day; the rest of the line is the
    name.  The line of the README parses to the name README, no CWD hint,
    the RETR hint, size 531 and January 29th, 03:26, of the guessed
    year; seen from within the current year, that is the year before
    while the date in it is less than 350 days old, and the current year
    from then on. *)
Theorem unix_token_time_or_year (now currentYear : Z) (pre tok rest : string)
    (st : unix_state) :
  u_state st = 7 ->
  u_i st = len pre ->
  unix_token now currentYear (pre ++ tok ++ String " " rest)
    (len pre + len tok) st
  = Ret (option_map (stamped now currentYear st rest) (read_stamp tok))
  /\ ParseLine now currentYear readme_line
     = Ret (Some {| RawLine := readme_line; Name := "README";
                    TryCwd := false; TryRetr := true; Size := 531;
                    MtimeType := REMOTE_MINUTE_MTIME_TYPE;
                    Mtime := guessed now currentYear 1 29 3 26;
                    IdType := UNKNOWN_ID_TYPE; Id := ""; LinkDest := "" |})
  /\ (DateUnix currentYear 1 1 0 0 0 - 14 * 3600 <= now
        < DateUnix (currentYear + 1) 1 1 0 0 0 + 14 * 3600 ->
      mtime_of (ParseLine now currentYear readme_line)
      = Some (DateUnix
                (if now - DateUnix (currentYear - 1) 1 29 3 26 0
                    <? 350 * 86400
                 then currentYear - 1 else currentYear) 1 29 3 26 0)).
Proof.
  intros H7 Hi. split; [|split].
  - unfold unix_token. rewrite H7. cbn [Z.eqb Pos.eqb].
    now apply unix_time_or_year_reads.
  - rewrite readme_line_parses. now rewrite guessTime_guessed.
  - intros Hnow. rewrite readme_line_parses. cbn [mtime_of Mtime].
    now rewrite (guessTime_readme now currentYear Hnow).
Qed.

(** The README line of the package's test, seen on 2026-11-01: its time
    is January 29th 2026, 03:26 UTC. *)
Lemma unix_token_time_or_year_witness :
  unix_token 1793491200 2026 ("Jan 29 " ++ "03:26" ++ String " " "README")
    (len "Jan 29 " + len "03:26")
    (mkUnix 7 7 531 1 29 0 0 0 (newFTPListData readme_line))
  = Ret (option_map
           (stamped 1793491200 2026
              (mkUnix 7 7 531 1 29 0 0 0 (newFTPListData readme_line)) "README")
           (read_stamp "03:26"))
  /\ mtime_of (ParseLine 1793491200 2026 readme_line) = Some 1769657160.
Proof.
  destruct (unix_token_time_or_year 1793491200 2026 "Jan 29 " "03:26" "README"
              (mkUnix 7 7 531 1 29 0 0 0 (newFTPListData readme_line))
              eq_refl eq_refl) as (Htoken & _ & Hmtime).
  split; [exact Htoken|].
  apply Hmtime. vm_compute. split; [discriminate | reflexivity].
Defined.

(** * Further properties of the code *)

(** ** Decimal numbers *)

Lemma digit_range (c : ascii) :
  is_digit c = true -> 0 <= digit_val c <= 9.
Proof.
  unfold is_digit, digit_val. intros H.
  apply andb_true_iff in H as [H1 H2].
  apply Z.leb_le in H1, H2. lia.
Qed.

Lemma digit_not_sign (c : ascii) :
  is_digit c = true -> byte_eqb c "+" = false /\ byte_eqb c "-" = false.
Proof.
  intros H. apply digit_range in H. unfold digit_val in H.
  split; apply Ascii.eqb_neq; intros ->.
  - change (byte_val "+") with 43 in H. lia.
  - change (byte_val "-") with 45 in H. lia.
Qed.

Lemma parseUint_digits_step (c : ascii) (s : string) (n maxVal : Z) :
  is_digit c = true -> 0 <= n ->
  n * 10 + digit_val c <= maxVal -> maxVal < 2 ^ 64 ->
  parseUint_digits (String c s) n maxVal
  = parseUint_digits s (n * 10 + digit_val c) maxVal.
Proof.
  intros Hd Hn Hle Hmax. pose proof (digit_range c Hd) as Hr.
  cbn [parseUint_digits]. rewrite Hd. fold (digit_val c).
  change (maxUint64 / 10 + 1) with 1844674407370955162.
  change (2 ^ 64) with 18446744073709551616 in *.
  destruct (Z.geb_spec n 1844674407370955162) as [Hge|_]; [lia|].
  rewrite Z.mod_small by lia.
  destruct (Z.ltb_spec (n * 10 + digit_val c) (n * 10)) as [Hlt|_]; [lia|].
  destruct (Z.gtb_spec (n * 10 + digit_val c) maxVal) as [Hgt|_]; [lia|].
  reflexivity.
Qed.

Lemma Atoi_three_digits (d1 d2 d3 : ascii) :
  is_digit d1 = true -> is_digit d2 = true -> is_digit d3 = true ->
  Atoi (String d1 (String d2 (String d3 EmptyString)))
  = (100 * digit_val d1 + 10 * digit_val d2 + digit_val d3, None).
Proof.
  intros H1 H2 H3.
  pose proof (digit_range d1 H1). pose proof (digit_range d2 H2).
  pose proof (digit_range d3 H3).
  destruct (digit_not_sign d1 H1) as [Hp Hm].
  unfold Atoi, ParseInt. rewrite Hp, Hm. cbn [orb negb andb].
  unfold ParseUint.
  change (2 ^ 64 - 1) with 18446744073709551615.
  rewrite !parseUint_digits_step by (try assumption; lia).
  cbn [parseUint_digits].
  change (2 ^ (64 - 1)) with 9223372036854775808.
  destruct (Z.geb_spec (((0 * 10 + digit_val d1) * 10 + digit_val d2) * 10 + digit_val d3)
              9223372036854775808) as [Hge|_]; [lia|].
  f_equal. lia.
Qed.

(** ** The status-line decoder on well-formed lines *)

Lemma at_head (a : ascii) (s : string) : at_ (String a s) 0 = Ret a.
Proof.
  unfold at_. rewrite len_String. pose proof (len_nonneg s).
  destruct (Z.ltb_spec 0 (1 + len s)); [reflexivity | lia].
Qed.

Lemma at_tail (a : ascii) (s : string) (k : Z) :
  0 < k -> at_ (String a s) k = at_ s (k - 1).
Proof.
  intros Hk. change (String a s) with (String a EmptyString ++ s).
  replace k with (len (String a EmptyString) + (k - 1))
    by (change (len (String a EmptyString)) with 1; lia).
  rewrite at_app_r by lia.
  now replace (len (String a EmptyString) + (k - 1) - 1) with (k - 1)
    by (change (len (String a EmptyString)) with 1; lia).
Qed.

Lemma sliceFrom_app (pre s : string) : sliceFrom (pre ++ s) (len pre) = Ret s.
Proof.
  unfold sliceFrom. rewrite len_app.
  replace (len pre) with (len pre + 0) at 1 by lia.
  rewrite slice_app_r by lia. apply slice_all.
Qed.

Lemma sliceTo_app (pre s : string) : slice (pre ++ s) 0 (len pre) = Ret pre.
Proof. rewrite slice_app_l by lia. apply slice_all. Qed.

(** X1: a line made of three digits, the first not 0, a space or a
    hyphen, and a message decodes to the number the digits write, the
    continuation flag of the hyphen, and the message; its error is [nil]
    exactly when the expected code is outside 1..999 or is the code, its
    first two digits or its first digit, and is the status error with the
    code and the message otherwise. *)
Theorem parseCodeLine_well_formed (d1 d2 d3 sep : ascii) (msg : string)
    (expectCode : Z) :
  is_digit d1 = true -> is_digit d2 = true -> is_digit d3 = true ->
  digit_val d1 <> 0 ->
  sep = " "%char \/ sep = "-"%char ->
  let code := 100 * digit_val d1 + 10 * digit_val d2 + digit_val d3 in
  exists err,
    parseCodeLine (String d1 (String d2 (String d3 (String sep msg)))) expectCode
    = Ret (code, byte_eqb sep "-", msg, err)
    /\ (err = None <-> accepts expectCode code)
    /\ (err <> None -> err = Some (StatusError code msg)).
Proof.
  intros H1 H2 H3 Hnz Hsep code.
  pose proof (digit_range d1 H1). pose proof (digit_range d2 H2).
  pose proof (digit_range d3 H3).
  assert (Hcode : 100 <= code <= 999) by (subst code; lia).
  set (line := String d1 (String d2 (String d3 (String sep msg)))).
  assert (Hlen : len line = 4 + len msg)
    by (subst line; rewrite !len_String; lia).
  pose proof (len_nonneg msg) as Hmsg.
  assert (Hat : at_ line 3 = Ret sep).
  { subst line. rewrite !at_tail by lia. apply at_head. }
  assert (Hdigits : slice line 0 3 = Ret (String d1 (String d2 (String d3 EmptyString)))).
  { apply (sliceTo_app (String d1 (String d2 (String d3 EmptyString)))
             (String sep msg)). }
  assert (Hmessage : sliceFrom line 4 = Ret msg).
  { apply (sliceFrom_app (String d1 (String d2 (String d3 (String sep EmptyString))))
             msg). }
  unfold parseCodeLine.
  destruct (Z.ltb_spec (len line) 4) as [Hlt|_]; [lia|].
  rewrite Hat. cbn [bind].
  assert (Hgood : negb (byte_eqb sep " ") && negb (byte_eqb sep "-") = false)
    by (destruct Hsep as [-> | ->]; reflexivity).
  rewrite Hgood. rewrite Hdigits. cbn [bind].
  rewrite Atoi_three_digits by assumption. fold code.
  destruct (Z.ltb_spec code 100) as [Hlt|_]; [lia|].
  cbn [orb]. rewrite Hmessage. cbn [bind].
  unfold accepts.
  destruct (Z.leb_spec 1 expectCode), (Z.ltb_spec expectCode 10),
    (Z.leb_spec 10 expectCode), (Z.ltb_spec expectCode 100),
    (Z.leb_spec 100 expectCode), (Z.ltb_spec expectCode 1000);
    try lia; cbn [andb orb];
    rewrite ?Z.quot_div_nonneg by lia;
    repeat match goal with
      | |- context [?a =? ?b] => destruct (Z.eqb_spec a b)
      end; cbn [negb andb orb];
    (eexists; split; [reflexivity|]; split;
      [ split; [ intros Herr; try discriminate Herr;
                 Z.to_euclidean_division_equations; lia
               | intros Hacc; try reflexivity; exfalso;
                 Z.to_euclidean_division_equations; lia ]
      | intros Herr; try reflexivity; now contradiction Herr ]).
Qed.

Lemma parseCodeLine_well_formed_witness :
  exists err,
    parseCodeLine "226-Transfer complete." 22
    = Ret (226, true, "Transfer complete.", err)
    /\ (err = None <-> accepts 22 226)
    /\ (err <> None -> err = Some (StatusError 226 "Transfer complete.")).
Proof.
  apply (parseCodeLine_well_formed "2" "2" "6" "-" "Transfer complete." 22);
    try reflexivity.
  - vm_compute. discriminate.
  - right. reflexivity.
Defined.

(** ** What reading a reply takes from the connection *)

Lemma parseCodeLine_returns (line : string) (expectCode : Z) :
  exists cl, parseCodeLine line expectCode = Ret cl.
Proof.
  unfold parseCodeLine, sliceFrom.
  destruct (Z.ltb_spec (len line) 4) as [Hshort|Hlong]; cbn [bind].
  - eauto.
  - destruct (at_in_range line 3) as (b & Hat & _); [lia|].
    rewrite Hat. cbn [bind].
    destruct (negb (byte_eqb b " ") && negb (byte_eqb b "-")); [eauto|].
    rewrite slice_in_range by lia. cbn [bind].
    destruct (Atoi _) as [code err].
    rewrite (slice_in_range line 4 (len line)) by lia. cbn [bind].
    destruct err; cbn [orb]; [eauto|].
    destruct (code <? 100); [eauto|].
    match goal with
    | |- context [if ?b then _ else _] => destruct b
    end; eauto.
Qed.

Lemma Conn_eta (r : Conn) : mkConn (incoming r) (sent r) = r.
Proof. destruct r; reflexivity. Qed.

Lemma MyReadCodeLine_reads (r : Conn) (expectCode : Z) :
  exists rep,
    MyReadCodeLine r expectCode
    = Ret (rep, mkConn (skipn (if indented_first r then 3 else 1) (incoming r))
                  (sent r)).
Proof.
  unfold MyReadCodeLine, MyreadCodeLine, ReadLine, indented_first.
  destruct r as [inc snt]. cbn [incoming sent].
  destruct inc as [|[l0|e0] inc]; cbn [skipn bind].
  - eexists. reflexivity.
  - destruct (HasPrefix l0 "  ").
    + destruct inc as [|ev1 inc]; cbn [incoming sent skipn].
      * eexists. reflexivity.
      * assert (Hdrop : (let '(_, r0) :=
                           match ev1 with
                           | inl line => (line, @None error, mkConn inc snt)
                           | inr e => ("", Some e, mkConn inc snt)
                           end in r0) = mkConn inc snt)
          by (destruct ev1; reflexivity).
        destruct ev1 as [l1|e1]; cbn [incoming sent];
          (destruct inc as [|[l2|e2] inc]; cbn [skipn bind];
           [ eexists; reflexivity
           | destruct (parseCodeLine_returns l2 expectCode)
               as ([[[code k] m] err] & ->);
             cbn [bind]; destruct err, k; eexists; reflexivity
           | eexists; reflexivity ]).
    + destruct (parseCodeLine_returns l0 expectCode)
        as ([[[code k] m] err] & ->).
      cbn [bind]. destruct err, k; eexists; reflexivity.
  - eexists. reflexivity.
Qed.

(** X2: reading a reply never panics and never writes; it takes one event
    from the connection, or three when the first is a line that starts
    with two spaces (all of them, when fewer are left). *)
Theorem MyReadCodeLine_takes (r : Conn) (expectCode : Z) :
  exists rep,
    MyReadCodeLine r expectCode
    = Ret (rep, mkConn (skipn (if indented_first r then 3 else 1) (incoming r))
                  (sent r)).
Proof. apply MyReadCodeLine_reads. Qed.

(** ** What a command writes *)

Lemma skipn_skipn {A : Type} (a b : nat) (l : list A) :
  skipn a (skipn b l) = skipn (b + a) l.
Proof.
  revert l; induction b as [|b IH]; intros l; cbn [Nat.add skipn].
  - reflexivity.
  - destruct l as [|x l]; [now destruct a | apply IH].
Qed.

Lemma cmd_again_keeps_sent (StatusLoggedIn StatusPathCreated : Z) :
  forall (n : nat) (c : Conn) (expected : Z) (r : reply),
  exists rep k,
    cmd_again StatusLoggedIn StatusPathCreated n c expected r
    = Ret (rep, mkConn (skipn k (incoming c)) (sent c)).
Proof.
  induction n as [|n IH]; intros c expected [[code line] err];
    cbn [cmd_again];
    (destruct ((code =? StatusLoggedIn) && (expected =? StatusPathCreated));
     [| exists (code, line, err), 0%nat; cbn [skipn]; now rewrite Conn_eta]);
    destruct (MyReadCodeLine_reads c expected) as (rep & ->); cbn [bind].
  - eauto.
  - destruct (IH (mkConn (skipn (if indented_first c then 3 else 1) (incoming c))
                    (sent c)) expected rep) as (rep' & k & ->).
    cbn [incoming sent]. rewrite skipn_skipn. eauto.
Qed.

Lemma cmd_result
    (write_error : Conn -> string -> option error)
    (StatusLoggedIn StatusPathCreated : Z)
    (c : Conn) (expected : Z) (line : string) :
  match write_error c line with
  | Some err =>
      cmd write_error StatusLoggedIn StatusPathCreated c expected line
      = Ret ((0, "", Some err), c)
  | None =>
      exists rep k,
        cmd write_error StatusLoggedIn StatusPathCreated c expected line
        = Ret (rep, mkConn (skipn k (incoming c)) (sent c ++ [line]))
  end.
Proof.
  unfold cmd. destruct (write_error c line) as [err|]; [reflexivity|].
  destruct (MyReadCodeLine_reads (Cmd c line) expected) as (rep & ->).
  cbn [bind incoming sent Cmd].
  match goal with
  | |- context [cmd_again _ _ ?n ?c0 _ _] =>
      destruct (cmd_again_keeps_sent StatusLoggedIn StatusPathCreated n c0 expected rep)
        as (rep' & k & ->)
  end.
  cbn [incoming sent]. rewrite skipn_skipn. eauto.
Qed.

(** X3: a command never panics; when the write fails nothing is read and
    the connection is as before, with the write's error as the result;
    otherwise the command line, and nothing else, is added to what was
    sent, and what is left to read is the rest of what was there. *)
Theorem cmd_writes_once
    (write_error : Conn -> string -> option error)
    (StatusLoggedIn StatusPathCreated : Z)
    (c : Conn) (expected : Z) (line : string) :
  match write_error c line with
  | Some err =>
      cmd write_error StatusLoggedIn StatusPathCreated c expected line
      = Ret ((0, "", Some err), c)
  | None =>
      exists rep k,
        cmd write_error StatusLoggedIn StatusPathCreated c expected line
        = Ret (rep, mkConn (skipn k (incoming c)) (sent c ++ [line]))
  end.
Proof. apply cmd_result. Qed.

(** ** Commands in two steps *)

Lemma app_two {A : Type} (l : list A) (x y : A) :
  ((l ++ [x]) ++ [y] = l ++ [x; y])%list.
Proof. now rewrite <- List.app_assoc. Qed.

(** X4: [Login] never panics.  It writes the USER line, then the PASS
    line, and nothing else; the PASS line is written only when the reply
    to USER was read without error; and, the logged-in code not being 0,
    it reports success only after both lines were written. *)
Theorem Login_writes
    (write_error : Conn -> string -> option error)
    (StatusLoggedIn StatusPathCreated StatusUserOK : Z)
    (c : Conn) (user password : string) :
  StatusLoggedIn <> 0 ->
  exists res c',
    Login write_error StatusLoggedIn StatusPathCreated StatusUserOK
      c user password = Ret (res, c')
    /\ (sent c' = sent c
        \/ sent c' = (sent c ++ ["USER " ++ user]%string)%list
        \/ sent c' = (sent c ++ ["USER " ++ user; "PASS " ++ password]%string)%list)
    /\ (sent c' = (sent c ++ ["USER " ++ user; "PASS " ++ password]%string)%list ->
        exists code msg c1,
          cmd write_error StatusLoggedIn StatusPathCreated c StatusUserOK
            ("USER " ++ user) = Ret ((code, msg, None), c1))
    /\ (res = None ->
        sent c' = (sent c ++ ["USER " ++ user; "PASS " ++ password]%string)%list).
Proof.
  intros Hcode. unfold Login.
  pose proof (cmd_result write_error StatusLoggedIn StatusPathCreated c
                StatusUserOK ("USER " ++ user)) as Huser.
  assert (Hlen : forall (l : list string) (x y : string),
             (l ++ [x; y])%list <> l /\ (l ++ [x; y])%list <> (l ++ [x])%list).
  { intros l x y. split; intros H; apply (f_equal (@List.length string)) in H;
      rewrite ?List.length_app in H; simpl in H; lia. }
  destruct (write_error c ("USER " ++ user)) as [e|].
  - rewrite Huser. cbn [bind]. exists (Some e), c.
    split; [reflexivity|]. split; [now left|]. split.
    + intros H. symmetry in H. now apply Hlen in H.
    + discriminate.
  - destruct Huser as ([[code msg] err] & k & ->). cbn [bind].
    set (c1 := mkConn (skipn k (incoming c)) (sent c ++ ["USER " ++ user]%string)).
    destruct err as [e|].
    + exists (Some e), c1. split; [reflexivity|]. split; [right; now left|].
      split; [|discriminate].
      intros H. symmetry in H. now apply Hlen in H.
    + pose proof (cmd_result write_error StatusLoggedIn StatusPathCreated c1
                    StatusLoggedIn ("PASS " ++ password)) as Hpass.
      destruct (write_error c1 ("PASS " ++ password)) as [e|].
      * rewrite Hpass. cbn [bind].
        destruct (Z.eqb_spec 0 StatusLoggedIn) as [Heq|_]; [now symmetry in Heq|].
        exists (Some e), c1. split; [reflexivity|]. split; [right; now left|].
        split; [|discriminate].
        intros H. symmetry in H. now apply Hlen in H.
      * destruct Hpass as ([[code2 msg2] err2] & k2 & ->). cbn [bind].
        assert (Hsent : (sent c1 ++ ["PASS " ++ password]%string)%list
                        = (sent c ++ ["USER " ++ user; "PASS " ++ password]%string)%list)
          by apply app_two.
        destruct (code2 =? StatusLoggedIn);
          (eexists; eexists; split; [reflexivity|]; cbn [sent];
           split; [right; right; exact Hsent|];
           split; [intros _; eauto | intros _; exact Hsent]).
Qed.

Lemma Login_writes_witness :
  exists res c',
    Login no_write_error 230 257 331
      (mkConn [inl "530 Not logged in."; inl "230 Welcome."] []) "anonymous" "secret"
    = Ret (res, c')
    /\ (sent c' = []
        \/ sent c' = ["USER anonymous"]
        \/ sent c' = ["USER anonymous"; "PASS secret"])
    /\ (sent c' = ["USER anonymous"; "PASS secret"] ->
        exists code msg c1,
          cmd no_write_error 230 257
            (mkConn [inl "530 Not logged in."; inl "230 Welcome."] []) 331
            "USER anonymous" = Ret ((code, msg, None), c1))
    /\ (res = None -> sent c' = ["USER anonymous"; "PASS secret"]).
Proof.
  apply (Login_writes no_write_error 230 257 331
           (mkConn [inl "530 Not logged in."; inl "230 Welcome."] [])
           "anonymous" "secret").
  discriminate.
Defined.

(** X5: [Rename] never panics.  It writes the RNFR line, then the RNTO
    line, and nothing else; the RNTO line is written only when the reply
    to RNFR was read without error; and it reports success only after
    both lines were written. *)
Theorem Rename_writes
    (write_error : Conn -> string -> option error)
    (StatusLoggedIn StatusPathCreated StatusRequestFilePending
       StatusRequestedFileActionOK : Z)
    (c : Conn) (from to : string) :
  exists res c',
    Rename write_error StatusLoggedIn StatusPathCreated
      StatusRequestFilePending StatusRequestedFileActionOK c from to
    = Ret (res, c')
    /\ (sent c' = sent c
        \/ sent c' = (sent c ++ ["RNFR " ++ from]%string)%list
        \/ sent c' = (sent c ++ ["RNFR " ++ from; "RNTO " ++ to]%string)%list)
    /\ (sent c' = (sent c ++ ["RNFR " ++ from; "RNTO " ++ to]%string)%list ->
        exists code msg c1,
          cmd write_error StatusLoggedIn StatusPathCreated c
            StatusRequestFilePending ("RNFR " ++ from)
          = Ret ((code, msg, None), c1))
    /\ (res = None ->
        sent c' = (sent c ++ ["RNFR " ++ from; "RNTO " ++ to]%string)%list).
Proof.
  unfold Rename.
  pose proof (cmd_result write_error StatusLoggedIn StatusPathCreated c
                StatusRequestFilePending ("RNFR " ++ from)) as Hfrom.
  assert (Hlen : forall (l : list string) (x y : string),
             (l ++ [x; y])%list <> l /\ (l ++ [x; y])%list <> (l ++ [x])%list).
  { intros l x y. split; intros H; apply (f_equal (@List.length string)) in H;
      rewrite ?List.length_app in H; simpl in H; lia. }
  destruct (write_error c ("RNFR " ++ from)) as [e|].
  - rewrite Hfrom. cbn [bind]. exists (Some e), c.
    split; [reflexivity|]. split; [now left|]. split.
    + intros H. symmetry in H. now apply Hlen in H.
    + discriminate.
  - destruct Hfrom as ([[code msg] err] & k & ->). cbn [bind].
    set (c1 := mkConn (skipn k (incoming c)) (sent c ++ ["RNFR " ++ from]%string)).
    destruct err as [e|].
    + exists (Some e), c1. split; [reflexivity|]. split; [right; now left|].
      split; [|discriminate].
      intros H. symmetry in H. now apply Hlen in H.
    + pose proof (cmd_result write_error StatusLoggedIn StatusPathCreated c1
                    StatusRequestedFileActionOK ("RNTO " ++ to)) as Hto.
      destruct (write_error c1 ("RNTO " ++ to)) as [e|].
      * rewrite Hto. cbn [bind].
        exists (Some e), c1. split; [reflexivity|]. split; [right; now left|].
        split; [|discriminate].
        intros H. symmetry in H. now apply Hlen in H.
      * destruct Hto as ([[code2 msg2] err2] & k2 & ->). cbn [bind].
        assert (Hsent : (sent c1 ++ ["RNTO " ++ to]%string)%list
                        = (sent c ++ ["RNFR " ++ from; "RNTO " ++ to]%string)%list)
          by apply app_two.
        eexists; eexists; split; [reflexivity|]; cbn [sent].
        split; [right; right; exact Hsent|].
        split; [intros _; eauto | intros _; exact Hsent].
Qed.

(** ** Replies that are read past *)

Lemma MyReadCodeLine_plain (r : Conn) (l : string)
    (rest : list (string + error)) (expectCode code : Z) (k : bool)
    (m : string) (err : option error) :
  incoming r = inl l :: rest ->
  HasPrefix l "  " = false ->
  parseCodeLine l expectCode = Ret (code, k, m, err) ->
  MyReadCodeLine r expectCode = Ret ((code, m, err), mkConn rest (sent r)).
Proof.
  intros Hin Hpre Hparse.
  unfold MyReadCodeLine, MyreadCodeLine, ReadLine.
  rewrite Hin, Hpre, Hparse. cbn [bind]. now destruct err, k.
Qed.

Lemma cmd_again_past (StatusLoggedIn StatusPathCreated : Z)
    (final : string) (rest : list (string + error)) (snt : list string)
    (code : Z) (k : bool) (m : string) (err : option error) :
  HasPrefix final "  " = false ->
  parseCodeLine final StatusPathCreated = Ret (code, k, m, err) ->
  code <> StatusLoggedIn ->
  forall (skipped : list string),
    Forall (fun l => HasPrefix l "  " = false
                     /\ exists k m err,
                          parseCodeLine l StatusPathCreated
                          = Ret (StatusLoggedIn, k, m, err)) skipped ->
    forall (n : nat) (m0 : string) (e0 : option error),
      (List.length skipped <= n)%nat ->
      cmd_again StatusLoggedIn StatusPathCreated n
        (mkConn (map inl skipped ++ inl final :: rest) snt)
        StatusPathCreated (StatusLoggedIn, m0, e0)
      = Ret ((code, m, err), mkConn rest snt).
Proof.
  intros Hfinal Hparse Hcode.
  induction 1 as [|l skipped (Hl & kl & ml & el & Hpl) _ IH];
    intros n m0 e0 Hn.
  - cbn [map app].
    assert (Hread := MyReadCodeLine_plain (mkConn (inl final :: rest) snt)
                       final rest StatusPathCreated code k m err eq_refl
                       Hfinal Hparse).
    cbn [sent] in Hread.
    destruct n as [|n]; cbn [cmd_again]; rewrite !Z.eqb_refl; cbn [andb];
      rewrite Hread; cbn [bind]; [reflexivity|].
    destruct n; cbn [cmd_again];
      (destruct (Z.eqb_spec code StatusLoggedIn); [contradiction | reflexivity]).
  - cbn [map app].
    assert (Hread := MyReadCodeLine_plain
                       (mkConn (inl l :: map inl skipped ++ inl final :: rest) snt)
                       l _ StatusPathCreated StatusLoggedIn kl ml el eq_refl
                       Hl Hpl).
    cbn [sent] in Hread.
    destruct n as [|n]; [cbn in Hn; lia|].
    cbn [cmd_again]. rewrite !Z.eqb_refl. cbn [andb].
    rewrite Hread. cbn [bind]. apply IH. cbn in Hn. lia.
Qed.

(** X6: when the path-created code is expected, replies that carry the
    logged-in code are read past: the result of the command is the first
    reply with another code, and the replies before it are consumed. *)
Theorem cmd_reads_past_logged_in
    (write_error : Conn -> string -> option error)
    (StatusLoggedIn StatusPathCreated : Z)
    (c : Conn) (line : string) (skipped : list string) (final : string)
    (rest : list (string + error))
    (code : Z) (k : bool) (m : string) (err : option error) :
  write_error c line = None ->
  incoming c = (map inl skipped ++ inl final :: rest)%list ->
  Forall (fun l => HasPrefix l "  " = false
                   /\ exists k m err,
                        parseCodeLine l StatusPathCreated
                        = Ret (StatusLoggedIn, k, m, err)) skipped ->
  HasPrefix final "  " = false ->
  parseCodeLine final StatusPathCreated = Ret (code, k, m, err) ->
  code <> StatusLoggedIn ->
  cmd write_error StatusLoggedIn StatusPathCreated c StatusPathCreated line
  = Ret ((code, m, err), mkConn rest (sent c ++ [line])).
Proof.
  intros Hw Hin Hskipped Hfinal Hparse Hcode.
  unfold cmd. rewrite Hw.
  destruct skipped as [|l skipped].
  - cbn [map app] in Hin.
    rewrite (MyReadCodeLine_plain (Cmd c line) final rest StatusPathCreated
               code k m err Hin Hfinal Hparse).
    cbn [bind Cmd sent incoming].
    destruct (List.length rest); cbn [cmd_again];
      (destruct (Z.eqb_spec code StatusLoggedIn); [contradiction | reflexivity]).
  - inversion Hskipped as [|? ? (Hl & kl & ml & el & Hpl) Hrest]; subst.
    cbn [map app] in Hin.
    rewrite (MyReadCodeLine_plain (Cmd c line) l _ StatusPathCreated
               StatusLoggedIn kl ml el Hin Hl Hpl).
    cbn [bind Cmd sent incoming].
    apply (cmd_again_past StatusLoggedIn StatusPathCreated final rest
             (sent c ++ [line]) code k m err Hfinal Hparse Hcode skipped Hrest).
    rewrite List.length_app, List.length_map. cbn [List.length]. lia.
Qed.

Lemma cmd_reads_past_logged_in_witness :
  cmd no_write_error 230 257
    (mkConn [inl "230 User logged in."; inl "230-Welcome back.";
             inl "257 /home is current."; inl "200 next"] ["PASS x"])
    257 "PWD"
  = Ret ((257, "/home is current.", None),
         mkConn [inl "200 next"] ["PASS x"; "PWD"]).
Proof.
  apply (cmd_reads_past_logged_in no_write_error 230 257
           (mkConn [inl "230 User logged in."; inl "230-Welcome back.";
                    inl "257 /home is current."; inl "200 next"] ["PASS x"])
           "PWD" ["230 User logged in."; "230-Welcome back."]
           "257 /home is current." [inl "200 next"] 257 false
           "/home is current." None);
    try reflexivity.
  - repeat constructor; do 3 eexists; vm_compute; reflexivity.
  - discriminate.
Defined.

(** ** Searching from the end, and for longer separators *)

Lemma last_index_from_absent (c : ascii) (s : string) (k found : Z) :
  str_mem c s = false ->
  last_index_from s (String c EmptyString) k found = found.
Proof.
  revert k found; induction s as [|a s IH]; intros k found Hs.
  - reflexivity.
  - simpl in Hs. apply orb_false_iff in Hs as [Ha Hs].
    cbn [last_index_from]. rewrite prefix_byte, Ha. now apply IH.
Qed.

Lemma last_index_from_found (c : ascii) (a post : string) (k found : Z) :
  str_mem c post = false ->
  last_index_from (a ++ String c post) (String c EmptyString) k found
  = k + len a.
Proof.
  intros Hpost. revert k found; induction a as [|x a IH]; intros k found.
  - cbn [append last_index_from]. rewrite prefix_byte. unfold byte_eqb.
    rewrite Ascii.eqb_refl. rewrite last_index_from_absent by assumption.
    change (len "") with 0. lia.
  - cbn [append last_index_from]. rewrite IH, len_String. lia.
Qed.

Lemma prefix_app (s t : string) : String.prefix s (s ++ t) = true.
Proof.
  induction s as [|a s IH]; [now destruct t|].
  simpl. destruct (ascii_dec a a); [exact IH | contradiction].
Qed.

Lemma prefix_first (c a : ascii) (sep s : string) :
  byte_eqb c a = false -> String.prefix (String c sep) (String a s) = false.
Proof.
  intros H. simpl. destruct (ascii_dec c a) as [->|]; [|reflexivity].
  unfold byte_eqb in H. now rewrite Ascii.eqb_refl in H.
Qed.

Lemma index_from_found_sep (c : ascii) (sep pre rest : string) (k : Z) :
  str_mem c pre = false ->
  index_from (pre ++ String c sep ++ rest) (String c sep) k = k + len pre.
Proof.
  revert k; induction pre as [|a pre IH]; intros k Hpre.
  - cbn [append index_from].
    change (String c (sep ++ rest)) with (String c sep ++ rest).
    rewrite prefix_app. change (len "") with 0. lia.
  - simpl in Hpre. apply orb_false_iff in Hpre as [Ha Hpre].
    change ((String a pre ++ String c sep ++ rest))
      with (String a (pre ++ String c sep ++ rest)).
    cbn [index_from]. rewrite prefix_first by assumption.
    rewrite IH by assumption. rewrite len_String. lia.
Qed.

Lemma index_from_absent_sep (c : ascii) (sep s : string) (k : Z) :
  str_mem c s = false -> index_from s (String c sep) k = -1.
Proof.
  revert k; induction s as [|a s IH]; intros k Hs.
  - reflexivity.
  - simpl in Hs. apply orb_false_iff in Hs as [Ha Hs].
    cbn [index_from]. rewrite prefix_first by assumption. now apply IH.
Qed.

(** ** The working directory *)

(** X7: once the reply to PWD is read without error, the directory is the
    text between the first and the last double quote of the message,
    quotes inside it included; a message without a quote gives the error
    of the unsupported format; and a message with one quote only makes
    [CurrentDir] panic, on the slice from after the quote to the quote. *)
Theorem CurrentDir_between_quotes
    (write_error : Conn -> string -> option error)
    (StatusLoggedIn StatusPathCreated : Z)
    (c c' : Conn) (code : Z) (msg : string) :
  cmd write_error StatusLoggedIn StatusPathCreated c StatusPathCreated "PWD"
  = Ret ((code, msg, None), c') ->
  (forall pre path post,
      msg = pre ++ String dquote (path ++ String dquote post) ->
      str_mem dquote pre = false -> str_mem dquote post = false ->
      CurrentDir write_error StatusLoggedIn StatusPathCreated c
      = Ret ((path, None), c'))
  /\ (str_mem dquote msg = false ->
      CurrentDir write_error StatusLoggedIn StatusPathCreated c
      = Ret (("", Some (ErrorString "Unsuported PWD response format")), c'))
  /\ (forall pre post,
         msg = pre ++ String dquote post ->
         str_mem dquote pre = false -> str_mem dquote post = false ->
         CurrentDir write_error StatusLoggedIn StatusPathCreated c
         = Panic SliceOutOfRange).
Proof.
  intros Hcmd. unfold CurrentDir. rewrite Hcmd. cbn [bind].
  split; [|split].
  - intros pre path post Hmsg Hpre Hpost.
    assert (Hstart : Index msg (String dquote "") = len pre).
    { unfold Index. rewrite Hmsg, index_from_found by assumption. lia. }
    assert (Hend : LastIndex msg (String dquote "") = len pre + 1 + len path).
    { unfold LastIndex. rewrite Hmsg.
      change (pre ++ String dquote (path ++ String dquote post))
        with (pre ++ String dquote EmptyString ++ path ++ String dquote post).
      rewrite <- !app_assoc_str.
      rewrite last_index_from_found by assumption.
      rewrite !len_app. change (len (String dquote "")) with 1. lia. }
    rewrite Hstart, Hend.
    pose proof (len_nonneg pre). pose proof (len_nonneg path).
    destruct (Z.eqb_spec (len pre) (-1)); [lia|].
    destruct (Z.eqb_spec (len pre + 1 + len path) (-1)); [lia|].
    cbn [orb].
    assert (Hslice : slice msg (len pre + 1) (len pre + 1 + len path) = Ret path).
    { rewrite Hmsg.
      change (pre ++ String dquote (path ++ String dquote post))
        with (pre ++ String dquote EmptyString ++ path ++ String dquote post).
      rewrite <- (app_assoc_str pre).
      replace (len pre + 1) with (len (pre ++ String dquote EmptyString) + 0)
        by (rewrite len_app; change (len (String dquote EmptyString)) with 1; lia).
      replace (len (pre ++ String dquote EmptyString) + 0 + len path)
        with (len (pre ++ String dquote EmptyString) + len path) by lia.
      rewrite slice_app_r by lia.
      rewrite slice_app_l by lia. apply slice_all. }
    rewrite Hslice. reflexivity.
  - intros Hnone.
    replace (Index msg (String dquote "")) with (-1)
      by (symmetry; now apply index_from_absent).
    reflexivity.
  - intros pre post Hmsg Hpre Hpost.
    assert (Hstart : Index msg (String dquote "") = len pre).
    { unfold Index. rewrite Hmsg, index_from_found by assumption. lia. }
    assert (Hend : LastIndex msg (String dquote "") = len pre).
    { unfold LastIndex. rewrite Hmsg.
      rewrite last_index_from_found by assumption. lia. }
    rewrite Hstart, Hend. pose proof (len_nonneg pre).
    destruct (Z.eqb_spec (len pre) (-1)); [lia|]. cbn [orb].
    unfold slice.
    destruct (Z.leb_spec 0 (len pre + 1)); [|lia].
    destruct (Z.leb_spec (len pre + 1) (len pre)); [lia|]. reflexivity.
Qed.

Lemma CurrentDir_between_quotes_witness :
  CurrentDir no_write_error 230 257 (mkConn [inl pwd_reply] [])
  = Ret (("/home/ftp", None), mkConn [] ["PWD"]).
Proof.
  apply (proj1 (CurrentDir_between_quotes no_write_error 230 257
                  (mkConn [inl pwd_reply] []) (mkConn [] ["PWD"]) 257
                  (String dquote ("/home/ftp" ++ String dquote " is the current directory"))
                  eq_refl)
           "" "/home/ftp" " is the current directory");
    reflexivity.
Defined.

(** ** Extended passive mode *)

(** X8: once the reply to EPSV is read without error, a message of the
    form [pre|||num|post], with no other vertical bar, gives what
    [strconv.Atoi] makes of [num], value and error; a message without a
    vertical bar gives the error of the invalid format; and a message
    whose only bars are one [|||] makes [epsv] panic, on the slice from
    after the three bars to the third. *)
Theorem epsv_between_bars (StatusExtendedPassiveMode : Z)
    (c c' : Conn) (code : Z) (msg : string) :
  MyReadCodeLine (Cmd c "EPSV") StatusExtendedPassiveMode
  = Ret ((code, msg, None), c') ->
  (forall pre num post,
      msg = pre ++ "|||" ++ num ++ String "|" post ->
      str_mem "|" pre = false -> str_mem "|" num = false ->
      str_mem "|" post = false ->
      epsv StatusExtendedPassiveMode c
      = Ret ((fst (Atoi num), option_map inr (snd (Atoi num))), c'))
  /\ (str_mem "|" msg = false ->
      epsv StatusExtendedPassiveMode c
      = Ret ((0, Some (inl (ErrorString "Invalid EPSV response format"))), c'))
  /\ (forall pre post,
         msg = pre ++ "|||" ++ post ->
         str_mem "|" pre = false -> str_mem "|" post = false ->
         epsv StatusExtendedPassiveMode c = Panic SliceOutOfRange).
Proof.
  intros Hread. unfold epsv. rewrite Hread. cbn [bind].
  split; [|split].
  - intros pre num post Hmsg Hpre Hnum Hpost.
    assert (Hstart : Index msg "|||" = len pre).
    { unfold Index. rewrite Hmsg.
      rewrite (index_from_found_sep "|" "||" pre (num ++ String "|" post) 0 Hpre).
      lia. }
    assert (Hend : LastIndex msg "|" = len pre + 3 + len num).
    { unfold LastIndex. rewrite Hmsg.
      rewrite <- !app_assoc_str.
      rewrite last_index_from_found by assumption.
      rewrite !len_app. change (len "|||") with 3. lia. }
    rewrite Hstart, Hend.
    pose proof (len_nonneg pre). pose proof (len_nonneg num).
    destruct (Z.eqb_spec (len pre) (-1)); [lia|].
    destruct (Z.eqb_spec (len pre + 3 + len num) (-1)); [lia|].
    cbn [orb].
    assert (Hslice : slice msg (len pre + 3) (len pre + 3 + len num) = Ret num).
    { rewrite Hmsg. rewrite <- (app_assoc_str pre).
      replace (len pre + 3) with (len (pre ++ "|||") + 0)
        by (rewrite len_app; change (len "|||") with 3; lia).
      replace (len (pre ++ "|||") + 0 + len num)
        with (len (pre ++ "|||") + len num) by lia.
      rewrite slice_app_r by lia.
      rewrite slice_app_l by lia. apply slice_all. }
    rewrite Hslice. cbn [bind]. now destruct (Atoi num).
  - intros Hnone.
    replace (Index msg "|||") with (-1)
      by (symmetry; now apply index_from_absent_sep).
    reflexivity.
  - intros pre post Hmsg Hpre Hpost.
    assert (Hstart : Index msg "|||" = len pre).
    { unfold Index. rewrite Hmsg.
      rewrite (index_from_found_sep "|" "||" pre post 0 Hpre). lia. }
    assert (Hend : LastIndex msg "|" = len pre + 2).
    { unfold LastIndex. rewrite Hmsg.
      change (pre ++ "|||" ++ post) with (pre ++ "||" ++ String "|" post).
      rewrite <- !app_assoc_str.
      rewrite last_index_from_found by assumption.
      rewrite !len_app. change (len "||") with 2. lia. }
    rewrite Hstart, Hend. pose proof (len_nonneg pre).
    destruct (Z.eqb_spec (len pre) (-1)); [lia|].
    destruct (Z.eqb_spec (len pre + 2) (-1)); [lia|]. cbn [orb].
    unfold slice.
    destruct (Z.leb_spec 0 (len pre + 3)); [|lia].
    destruct (Z.leb_spec (len pre + 3) (len pre + 2)); [lia|]. reflexivity.
Qed.

Lemma epsv_between_bars_witness :
  epsv 229 (mkConn [inl "229 Entering Extended Passive Mode (|||6446|)"] [])
  = Ret ((6446, None), mkConn [] ["EPSV"])
  /\ epsv 229 (mkConn [inl "229 Entering Extended Passive Mode (|||)"] [])
     = Panic SliceOutOfRange.
Proof.
  split.
  - apply (proj1 (epsv_between_bars 229
                    (mkConn [inl "229 Entering Extended Passive Mode (|||6446|)"] [])
                    (mkConn [] ["EPSV"]) 229
                    "Entering Extended Passive Mode (|||6446|)" eq_refl)
             "Entering Extended Passive Mode (" "6446" ")");
      reflexivity.
  - apply (proj2 (proj2 (epsv_between_bars 229
                    (mkConn [inl "229 Entering Extended Passive Mode (|||)"] [])
                    (mkConn [] ["EPSV"]) 229
                    "Entering Extended Passive Mode (|||)" eq_refl))
             "Entering Extended Passive Mode (" ")");
      reflexivity.
Defined.

(** ** Passive mode on replies of another shape *)

(** X9: once the reply to PASV is read and accepted, a message whose
    first group between parentheses holds no comma makes [pasv] panic, on
    the element before the last of a list of one; and a message whose
    first closing parenthesis comes before its first opening one makes it
    panic on the slice between the two. *)
Theorem pasv_panics (expect : Z) (c c' : Conn) (code : Z) (msg : string)
    (err : option error) :
  MyReadCodeLine (Cmd c "PASV") expect = Ret ((code, msg, err), c') ->
  err = None \/ code = StatusPassiveMode ->
  (forall pre e post,
      holds_one msg pre e post -> pasv expect c = Panic IndexOutOfRange)
  /\ (forall pre mid post,
         closes_first msg pre mid post -> pasv expect c = Panic SliceOutOfRange).
Proof.
  intros Hread Hok. split.
  - intros pre e post (Hmsg & Hpo & Hpc & Hcomma & Hclose).
    rewrite (pasv_after_reply _ _ _ _ _ _ Hread Hok). cbv zeta.
    assert (Hstart : Index msg "(" = len pre).
    { unfold Index. rewrite Hmsg, index_from_found by assumption. lia. }
    assert (Hend : Index msg ")" = len pre + 1 + len e).
    { unfold Index. rewrite Hmsg.
      change (pre ++ String "(" (e ++ String ")" post))
        with (pre ++ String "(" EmptyString ++ e ++ String ")" post).
      rewrite <- !app_assoc_str.
      rewrite index_from_found.
      - rewrite !len_app. change (len (String "(" EmptyString)) with 1. lia.
      - rewrite !str_mem_app, Hpc, Hclose. reflexivity. }
    rewrite Hstart, Hend.
    pose proof (len_nonneg pre). pose proof (len_nonneg e).
    destruct (Z.eqb_spec (len pre) (-1)); [lia|].
    destruct (Z.eqb_spec (len pre + 1 + len e) (-1)); [lia|].
    cbn [orb].
    assert (Hslice : slice msg (len pre + 1) (len pre + 1 + len e) = Ret e).
    { rewrite Hmsg.
      change (pre ++ String "(" (e ++ String ")" post))
        with (pre ++ String "(" EmptyString ++ e ++ String ")" post).
      rewrite <- (app_assoc_str pre).
      replace (len pre + 1) with (len (pre ++ String "(" EmptyString) + 0)
        by (rewrite len_app; change (len (String "(" EmptyString)) with 1; lia).
      replace (len (pre ++ String "(" EmptyString) + 0 + len e)
        with (len (pre ++ String "(" EmptyString) + len e) by lia.
      rewrite slice_app_r by lia.
      rewrite slice_app_l by lia. apply slice_all. }
    rewrite Hslice. cbn [bind].
    assert (Hsplit : Split e "," = [e]).
    { apply (Split_concat "," [e]); [discriminate | now constructor]. }
    rewrite Hsplit. reflexivity.
  - intros pre mid post (Hmsg & Hpo & Hpc & Hmid).
    rewrite (pasv_after_reply _ _ _ _ _ _ Hread Hok). cbv zeta.
    assert (Hend : Index msg ")" = len pre).
    { unfold Index. rewrite Hmsg, index_from_found by assumption. lia. }
    assert (Hstart : Index msg "(" = len pre + 1 + len mid).
    { unfold Index. rewrite Hmsg.
      change (pre ++ String ")" (mid ++ String "(" post))
        with (pre ++ String ")" EmptyString ++ mid ++ String "(" post).
      rewrite <- !app_assoc_str.
      rewrite index_from_found.
      - rewrite !len_app. change (len (String ")" EmptyString)) with 1. lia.
      - rewrite !str_mem_app, Hpo, Hmid. reflexivity. }
    rewrite Hstart, Hend.
    pose proof (len_nonneg pre). pose proof (len_nonneg mid).
    destruct (Z.eqb_spec (len pre + 1 + len mid) (-1)); [lia|].
    destruct (Z.eqb_spec (len pre) (-1)); [lia|].
    cbn [orb]. unfold slice.
    destruct (Z.leb_spec 0 (len pre + 1 + len mid + 1)); [|lia].
    destruct (Z.leb_spec (len pre + 1 + len mid + 1) (len pre)); [lia|].
    reflexivity.
Qed.

Lemma pasv_panics_witness :
  pasv 229 (mkConn [inl "227 Entering Passive Mode (5000)"] [])
  = Panic IndexOutOfRange
  /\ pasv 229 (mkConn [inl "227 ok :) (127,0,0,1,19,136)"] [])
     = Panic SliceOutOfRange.
Proof.
  split.
  - apply (proj1 (pasv_panics 229
                    (mkConn [inl "227 Entering Passive Mode (5000)"] [])
                    (mkConn [] ["PASV"]) 227 "Entering Passive Mode (5000)"
                    (Some (StatusError 227 "Entering Passive Mode (5000)"))
                    eq_refl (or_intror eq_refl))
             "Entering Passive Mode " "5000" "").
    repeat split.
  - apply (proj2 (pasv_panics 229
                    (mkConn [inl "227 ok :) (127,0,0,1,19,136)"] [])
                    (mkConn [] ["PASV"]) 227 "ok :) (127,0,0,1,19,136)"
                    (Some (StatusError 227 "ok :) (127,0,0,1,19,136)"))
                    eq_refl (or_intror eq_refl))
             "ok :" " " "127,0,0,1,19,136)").
    repeat split.
Defined.

(** ** Passive mode and the first parentheses of the reply *)

Lemma parseCodeLine_227 (msg : string) (expectCode : Z) :
  exists err,
    parseCodeLine ("227 " ++ msg) expectCode = Ret (227, false, msg, err).
Proof.
  unfold parseCodeLine. cbn [append].
  pose proof (len_nonneg msg) as Hmsg.
  rewrite !len_String.
  destruct (Z.ltb_spec (1 + (1 + (1 + (1 + len msg)))) 4); [lia|].
  assert (Hat : at_ (String "2" (String "2" (String "7" (String " " msg)))) 3
                = Ret " "%char).
  { rewrite !at_tail by lia. apply at_head. }
  rewrite Hat. cbn [bind].
  change (byte_eqb " " " ") with true. change (byte_eqb " " "-") with false.
  cbn [negb andb].
  change (String "2" (String "2" (String "7" (String " " msg))))
    with ("227" ++ String " " msg) at 1.
  change 3 with (len "227"). rewrite sliceTo_app. cbn [bind].
  change (Atoi "227") with (227, @None numError). cbv iota beta.
  change (227 <? 100) with false. cbn [orb].
  change (String "2" (String "2" (String "7" (String " " msg))))
    with ("227 " ++ msg).
  change 4 with (len "227 "). rewrite sliceFrom_app. cbn [bind].
  match goal with
  | |- context [if ?b then _ else _] => destruct b
  end; eauto.
Qed.

(** [pasv] on a reply of code 227, which it accepts whatever code it
    asked for. *)
Lemma pasv_on_227 (expect : Z) (msg : string) :
  pasv expect (mkConn [inl ("227 " ++ msg)] [])
  = (let start := Index msg "(" in
     let end_ := Index msg ")" in
     if (start =? -1) || (end_ =? -1) then
       Ret ((0, Some MalformedPassiveReply), mkConn [] ["PASV"])
     else
       body <- slice msg (start + 1) end_ ;;
       let s := Split body "," in
       let n := Z.of_nat (List.length s) in
       e1 <- elem s (n - 2) ;;
       e2 <- elem s (n - 1) ;;
       Ret ((wrap64 (fst (Atoi e1) * 256 + fst (Atoi e2)), None),
            mkConn [] ["PASV"])).
Proof.
  destruct (parseCodeLine_227 msg expect) as (err & Hparse).
  apply (pasv_after_reply expect _ _ 227 msg err); [|now right].
  exact (MyReadCodeLine_plain (Cmd (mkConn [inl ("227 " ++ msg)] []) "PASV")
           ("227 " ++ msg) [] expect 227 false msg err
           eq_refl eq_refl Hparse).
Qed.

(** C6, as the code has it: [pasv] takes the first opening and the first
    closing parenthesis of the reply, each found on its own, and checks
    only that both are there.  A reply that holds the comma list between
    parentheses after an earlier closing parenthesis makes it panic on
    the slice from the one to the other, and a reply that holds the list
    after an earlier pair of parentheses makes it panic on the elements
    of that first pair, where the claim has the port of the list.  The
    reply of the specification gives port 5000. *)
Theorem pasv_first_parentheses (expect : Z) :
  pasv expect
    (mkConn [inl "227 =) Entering Passive Mode (127,0,0,1,19,136)"] [])
  = Panic SliceOutOfRange
  /\ pasv expect
       (mkConn [inl "227 Entering Passive Mode (ok) (127,0,0,1,19,136)"] [])
     = Panic IndexOutOfRange
  /\ pasv expect pasv_example = Ret ((5000, None), mkConn [] ["PASV"]).
Proof.
  split; [|split].
  - etransitivity;
      [exact (pasv_on_227 expect "=) Entering Passive Mode (127,0,0,1,19,136)")|].
    vm_compute. reflexivity.
  - etransitivity;
      [exact (pasv_on_227 expect
                "Entering Passive Mode (ok) (127,0,0,1,19,136)")|].
    vm_compute. reflexivity.
  - etransitivity;
      [exact (pasv_on_227 expect "Entering Passive Mode (127,0,0,1,19,136)")|].
    vm_compute. reflexivity.
Qed.

(** ** LIST and the end of the data *)

Lemma cut_lines_tail (t cur : string) :
  str_mem lf t = false -> fst (cut_lines t cur) = [].
Proof.
  revert cur; induction t as [|a t IH]; intros cur Ht; [reflexivity|].
  cbn [str_mem] in Ht. apply orb_false_iff in Ht as [Ha Ht].
  cbn [cut_lines]. unfold byte_eqb in *. rewrite Ascii.eqb_sym, Ha.
  now apply IH.
Qed.

Lemma cut_lines_drop (d t cur : string) :
  str_mem lf t = false ->
  fst (cut_lines (d ++ String lf t) cur)
  = fst (cut_lines (d ++ String lf EmptyString) cur).
Proof.
  intros Ht. revert cur; induction d as [|a d IH]; intros cur.
  - cbn [append cut_lines]. unfold byte_eqb. rewrite Ascii.eqb_refl.
    pose proof (cut_lines_tail t EmptyString Ht) as Hnil.
    destruct (cut_lines t EmptyString) as [ls p]. cbn [fst] in *. now subst ls.
  - cbn [append cut_lines]. destruct (byte_eqb a lf).
    + specialize (IH EmptyString).
      destruct (cut_lines (d ++ String lf t) EmptyString) as [ls p].
      destruct (cut_lines (d ++ String lf EmptyString) EmptyString) as [ls' p'].
      cbn [fst] in *. now subst ls'.
    + apply IH.
Qed.

Lemma full_lines_reader_of (data : string) (e : error) :
  full_lines (reader_of data e) = fst (cut_lines data EmptyString).
Proof. unfold reader_of. now destruct (cut_lines data EmptyString). Qed.

(** X10: what comes after the last newline of the data never reaches the
    parser, and the failure that ends the reading is never reported:
    [List] gives the same result on the data cut after its last newline,
    whatever the failure, and the empty collection without an error on
    data that holds no newline. *)
Theorem List_ignores_unfinished_line (now currentYear : Z)
    (data tail : string) (e e' : error) :
  str_mem lf tail = false ->
  List now currentYear (inr (reader_of (data ++ String lf tail) e))
  = List now currentYear (inr (reader_of (data ++ String lf EmptyString) e'))
  /\ List now currentYear (inr (reader_of tail e)) = Ret ([], None).
Proof.
  intros Ht. unfold List. rewrite !full_lines_reader_of. split.
  - now rewrite cut_lines_drop.
  - now rewrite cut_lines_tail.
Qed.

Lemma List_ignores_unfinished_line_witness :
  List 1793491200 2026
    (inr (reader_of ("+/," ++ String tab "pub" ++ String lf "+r," ++ String tab "lost")
            EOF))
  = List 1793491200 2026
      (inr (reader_of ("+/," ++ String tab "pub" ++ String lf EmptyString)
              (TransportError "reset")))
  /\ List 1793491200 2026 (inr (reader_of ("+r," ++ String tab "lost") EOF))
     = Ret ([], None).
Proof.
  apply (List_ignores_unfinished_line 1793491200 2026
           ("+/," ++ String tab "pub") ("+r," ++ String tab "lost")
           EOF (TransportError "reset")).
  reflexivity.
Defined.

(** ** The guess of the year, on any numbers *)

Lemma guessTime_loop_any (now month mday hour minute : Z) :
  forall (n : nat) (y0 : Z),
    (exists y,
        y0 <= y < y0 + Z.of_nat n
        /\ guessTime_loop now n y0 month mday hour minute
           = getMtime y month mday hour minute 0
        /\ now - getMtime y month mday hour minute 0 < 350 * 86400
        /\ forall y', y0 <= y' < y ->
                      350 * 86400 <= now - getMtime y' month mday hour minute 0)
    \/ (guessTime_loop now n y0 month mday hour minute = 0
        /\ forall y, y0 <= y < y0 + Z.of_nat n ->
                     350 * 86400 <= now - getMtime y month mday hour minute 0).
Proof.
  induction n as [|n IH]; intros y0.
  - right. split; [reflexivity | intros y Hy; lia].
  - cbn [guessTime_loop].
    destruct (Z.ltb_spec (now - getMtime y0 month mday hour minute 0) (350 * 86400))
      as [Hlt|Hge].
    + left. exists y0. split; [lia|]. split; [reflexivity|].
      split; [assumption | intros y Hy; lia].
    + destruct (IH (y0 + 1)) as [(y & Hy & Hres & Hage & Hold) | (Hres & Hold)].
      * left. exists y. split; [lia|]. split; [assumption|]. split; [assumption|].
        intros y' Hy'. destruct (Z.eq_dec y' y0) as [->|]; [assumption|].
        apply Hold. lia.
      * right. split; [assumption|].
        intros y Hy. destruct (Z.eq_dec y y0) as [->|]; [assumption|].
        apply Hold. lia.
Qed.

(** X11: on any month, day, hour and minute, and any clock, the guess is
    either the time of the date in the first of the 101 years from
    [currentYear - 1] to [currentYear + 99] that makes it less than 350
    days old, or 0 when none of these years does. *)
Theorem guessTime_first_or_zero (now currentYear month mday hour minute : Z) :
  (exists year,
      currentYear - 1 <= year < currentYear + 100
      /\ guessTime now currentYear month mday hour minute
         = getMtime year month mday hour minute 0
      /\ now - getMtime year month mday hour minute 0 < 350 * 86400
      /\ forall y, currentYear - 1 <= y < year ->
                   350 * 86400 <= now - getMtime y month mday hour minute 0)
  \/ (guessTime now currentYear month mday hour minute = 0
      /\ forall y, currentYear - 1 <= y < currentYear + 100 ->
                   350 * 86400 <= now - getMtime y month mday hour minute 0).
Proof.
  unfold guessTime.
  replace (Z.to_nat (currentYear + 100 - (currentYear - 1))) with 101%nat by lia.
  destruct (guessTime_loop_any now month mday hour minute 101 (currentYear - 1))
    as [(y & Hy & H) | (Hres & Hold)].
  - left. exists y. split; [lia | exact H].
  - right. split; [assumption|]. intros y Hy. apply Hold. lia.
Qed.

(** ** Months and numbers *)

(** X12: [getMonth] gives -1 or a number from 1 to 12, and it gives the
    number [k] of a month exactly for the three-byte strings that are,
    whatever the case of their letters, the name of that month. *)
Theorem getMonth_names (buf : string) :
  (getMonth buf = -1 \/ 1 <= getMonth buf <= 12)
  /\ forall k, 1 <= k <= 12 ->
       (getMonth buf = k <-> len buf = 3 /\ ToLower buf = month_name k).
Proof.
  unfold getMonth.
  destruct (Z.eqb_spec (len buf) 3) as [Hlen|Hlen].
  - unfold MONTHS, getMonth_loop.
    repeat match goal with
      | |- context [String.eqb ?a ?b] => destruct (String.eqb_spec a b) as [Heq|?]
      end;
      (split;
       [ first [left; reflexivity | right; lia]
       | intros k Hk;
         destruct (month_cases k Hk)
           as [->|[->|[->|[->|[->|[->|[->|[->|[->|[->|[->| ->]]]]]]]]]]];
         match goal with
         | |- context [month_name ?k] =>
             let v := eval vm_compute in (month_name k) in
             change (month_name k) with v
         end;
         (split;
          [ intros H; split; [assumption|];
            first [exact Heq | exfalso; lia]
          | intros [_ H]; first [lia | exfalso; congruence] ]) ]).
  - split; [now left|].
    intros k Hk. split; [lia | intros [H _]; contradiction].
Qed.

Lemma getMonth_names_witness :
  getMonth "NoV" = 11 <-> len "NoV" = 3 /\ ToLower "NoV" = month_name 11.
Proof.
  apply (proj2 (getMonth_names "NoV") 11). lia.
Defined.

Lemma parseUint_digits_bounds (s : string) :
  forall n maxVal,
    0 <= n <= maxVal ->
    0 <= fst (parseUint_digits s n maxVal) <= maxVal.
Proof.
  induction s as [|c s IH]; intros n maxVal Hn; cbn [parseUint_digits].
  - exact Hn.
  - destruct (is_digit c); [|cbn [fst]; lia].
    destruct (n >=? maxUint64 / 10 + 1); [cbn [fst]; lia|].
    cbv zeta.
    destruct (Z.ltb_spec ((n * 10 + (byte_val c - 48)) mod 2 ^ 64) (n * 10));
      cbn [orb]; [cbn [fst]; lia|].
    destruct (Z.gtb_spec ((n * 10 + (byte_val c - 48)) mod 2 ^ 64) maxVal);
      [cbn [fst]; lia|].
    apply IH. split; [|lia].
    apply Z.mod_pos_bound. reflexivity.
Qed.

Lemma parseInt_fits (num : string) :
  - 2 ^ 31 <= parseInt num <= 2 ^ 31 - 1.
Proof.
  unfold parseInt, ParseInt.
  destruct num as [|c s]; [cbn; lia|].
  set (digits := if byte_eqb c "+" || byte_eqb c "-" then s else String c s).
  assert (Hun : 0 <= fst (ParseUint digits 32) <= 2 ^ 32 - 1).
  { unfold ParseUint. destruct digits; [cbn; lia|].
    apply parseUint_digits_bounds. lia. }
  destruct (ParseUint digits 32) as [un [[|]|]]; cbn [fst] in *;
    try (cbn; lia);
    change (2 ^ (32 - 1)) with 2147483648; change (2 ^ 31) with 2147483648;
    destruct (byte_eqb c "-"); cbn [negb andb];
    repeat match goal with
      | |- context [?a >=? ?b] => destruct (Z.geb_spec a b)
      | |- context [?a >? ?b] => destruct (Z.gtb_spec a b)
      end; cbn [fst]; lia.
Qed.

Lemma decimal_from_ge (d : string) :
  forall n, all_digits d = true -> 0 <= n -> n <= decimal_from d n.
Proof.
  induction d as [|c d IH]; intros n Hd Hn; cbn [decimal_from]; [lia|].
  cbn [all_digits] in Hd. apply andb_true_iff in Hd as [Hc Hd].
  pose proof (digit_range c Hc).
  specialize (IH (n * 10 + digit_val c) Hd). lia.
Qed.

(** The digit loop over a run of digits, at 32 bits: it goes on with the
    number read so far, or has stopped at the first digit that took the
    number past the largest value. *)
Lemma parseUint_digits_run (d tail : string) :
  forall n,
    all_digits d = true -> 0 <= n <= 2 ^ 32 - 1 ->
    parseUint_digits (d ++ tail) n (2 ^ 32 - 1)
    = if decimal_from d n <=? 2 ^ 32 - 1
      then parseUint_digits tail (decimal_from d n) (2 ^ 32 - 1)
      else (2 ^ 32 - 1, Some ErrRange).
Proof.
  change (2 ^ 32 - 1) with 4294967295.
  induction d as [|c d IH]; intros n Hd Hn; cbn [append decimal_from].
  - destruct (Z.leb_spec n 4294967295); [reflexivity | lia].
  - cbn [all_digits] in Hd. apply andb_true_iff in Hd as [Hc Hd].
    pose proof (digit_range c Hc) as Hr.
    destruct (Z.leb_spec (n * 10 + digit_val c) 4294967295) as [Hle|Hgt].
    + rewrite parseUint_digits_step by (try assumption; lia).
      apply IH; [assumption | lia].
    + pose proof (decimal_from_ge d (n * 10 + digit_val c) Hd ltac:(lia)).
      destruct (Z.leb_spec (decimal_from d (n * 10 + digit_val c)) 4294967295);
        [lia|].
      cbn [parseUint_digits]. rewrite Hc. fold (digit_val c).
      change (maxUint64 / 10 + 1) with 1844674407370955162.
      change (2 ^ 64) with 18446744073709551616.
      destruct (Z.geb_spec n 1844674407370955162); [reflexivity|].
      rewrite Z.mod_small by lia.
      destruct (Z.gtb_spec (n * 10 + digit_val c) 4294967295); [|lia].
      now rewrite orb_true_r.
Qed.

(** [ParseInt] at 32 bits, from what [ParseUint] gives for the digits. *)
Lemma ParseInt_of_unsigned (num : string) :
  num <> "" ->
  parseInt num
  = match ParseUint (unsigned_part num) 32 with
    | (_, Some ErrSyntax) => 0
    | (un, _) => int32 (if negative num then - un else un)
    end.
Proof.
  destruct num as [|c s]; [congruence|]. intros _.
  assert (Hun : 0 <= fst (ParseUint (unsigned_part (String c s)) 32)
                <= 2 ^ 32 - 1).
  { unfold ParseUint. destruct (unsigned_part (String c s)); [cbn; lia|].
    apply parseUint_digits_bounds. lia. }
  assert (Hneg : negative (String c s) = byte_eqb c "-").
  { unfold negative, HasPrefix. rewrite prefix_byte.
    unfold byte_eqb. apply Ascii.eqb_sym. }
  rewrite Hneg. unfold parseInt, ParseInt.
  fold (unsigned_part (String c s)).
  destruct (ParseUint (unsigned_part (String c s)) 32) as [un [[|]|]];
    cbn [fst] in *; [reflexivity| |];
    unfold int32;
    change (2 ^ (32 - 1)) with 2147483648; change (2 ^ 31) with 2147483648;
    change (2 ^ 32 - 1) with 4294967295 in Hun;
    destruct (byte_eqb c "-"); cbn [negb andb];
    repeat match goal with
      | |- context [?a >=? ?b] => destruct (Z.geb_spec a b)
      | |- context [?a >? ?b] => destruct (Z.gtb_spec a b)
      end; cbn [fst]; lia.
Qed.

(** X13: [parseInt] reads an optional sign and then decimal digits, and
    drops the error of [strconv.ParseInt].  Its result always fits in 32
    signed bits.  For digits and nothing else it is the number they
    write, with its sign, cut to the nearest number of 32 bits.  For no
    digit at all it is 0.  For digits followed by a byte that is not one
    it is 0, unless the digits already write a number above 2^32 - 1:
    the range error is then found before the stray byte, and the result
    is the bound on the side of the sign. *)
Theorem parseInt_value (num : string) :
  - 2 ^ 31 <= parseInt num <= 2 ^ 31 - 1
  /\ (unsigned_part num <> "" -> all_digits (unsigned_part num) = true ->
      parseInt num
      = int32 (if negative num then - decimal (unsigned_part num)
               else decimal (unsigned_part num)))
  /\ (unsigned_part num = "" -> parseInt num = 0)
  /\ (forall d c rest,
         unsigned_part num = d ++ String c rest ->
         all_digits d = true -> is_digit c = false ->
         parseInt num
         = if decimal d <=? 2 ^ 32 - 1 then 0
           else if negative num then - 2 ^ 31 else 2 ^ 31 - 1).
Proof.
  split; [apply parseInt_fits|].
  assert (Hmax : forall un : Z,
             2 ^ 32 - 1 < un ->
             int32 (if negative num then - (2 ^ 32 - 1) else 2 ^ 32 - 1)
             = int32 (if negative num then - un else un)).
  { intros un Hun. unfold int32.
    change (2 ^ 31) with 2147483648. change (2 ^ 32 - 1) with 4294967295 in *.
    destruct (negative num); lia. }
  split; [|split].
  - intros Hne Hd.
    assert (Hnum : num <> "") by (intros ->; now apply Hne).
    rewrite (ParseInt_of_unsigned num Hnum).
    unfold ParseUint, decimal.
    destruct (unsigned_part num) as [|c0 d0] eqn:Hu; [congruence|].
    rewrite <- (app_empty_r (String c0 d0)) at 1.
    rewrite parseUint_digits_run by (try assumption; lia).
    cbn [parseUint_digits].
    destruct (Z.leb_spec (decimal_from (String c0 d0) 0) (2 ^ 32 - 1));
      [reflexivity|].
    now apply Hmax.
  - intros Hu. destruct num as [|c s]; [reflexivity|].
    rewrite ParseInt_of_unsigned by discriminate. now rewrite Hu.
  - intros d c rest Hu Hd Hc.
    assert (Hnum : num <> "") by (intros ->; now destruct d).
    rewrite (ParseInt_of_unsigned num Hnum), Hu.
    unfold ParseUint, decimal.
    replace (match d ++ String c rest with
             | "" => (0, Some ErrSyntax)
             | String _ _ =>
                 parseUint_digits (d ++ String c rest) 0 (2 ^ 32 - 1)
             end)
      with (parseUint_digits (d ++ String c rest) 0 (2 ^ 32 - 1))
      by now destruct d.
    rewrite parseUint_digits_run by (try assumption; lia).
    destruct (Z.leb_spec (decimal_from d 0) (2 ^ 32 - 1)) as [Hle|Hgt].
    + cbn [parseUint_digits]. now rewrite Hc.
    + unfold int32. change (2 ^ 31) with 2147483648.
      change (2 ^ 32 - 1) with 4294967295.
      destruct (negative num); lia.
Qed.

Lemma parseInt_value_witness :
  parseInt "-2147483649"
  = int32 (if negative "-2147483649"
           then - decimal (unsigned_part "-2147483649")
           else decimal (unsigned_part "-2147483649")).
Proof.
  apply (proj1 (proj2 (parseInt_value "-2147483649")));
    [discriminate | reflexivity].
Defined.

(** ** The delimiter-seeking helpers *)

Lemma split_at (s : string) :
  forall i, 0 <= i <= len s -> exists a b, s = a ++ b /\ len a = i.
Proof.
  induction s as [|c s IH]; intros i Hi.
  - exists "", "". change (len "") with 0 in *. split; [reflexivity | lia].
  - rewrite len_String in Hi.
    destruct (Z.eq_dec i 0) as [->|Hne].
    + exists "", (String c s). split; reflexivity.
    + destruct (IH (i - 1)) as (a & b & -> & Ha); [lia|].
      exists (String c a), b. split; [reflexivity|]. rewrite len_String. lia.
Qed.

Lemma at_not_mem (c : ascii) (s : string) :
  str_mem c s = false -> forall k, at_ s k <> Ret c.
Proof.
  induction s as [|a s IH]; intros Hs k.
  - unfold at_. change (len "") with 0.
    destruct (0 <=? k), (k <? 0); discriminate.
  - cbn [str_mem] in Hs. apply orb_false_iff in Hs as [Ha Hs].
    destruct (Z.lt_trichotomy k 0) as [Hk|[->|Hk]].
    + unfold at_. destruct (Z.leb_spec 0 k); [lia | discriminate].
    + rewrite at_head. intros H. inversion H; subst a.
      unfold byte_eqb in Ha. now rewrite Ascii.eqb_refl in Ha.
    + rewrite at_tail by assumption. now apply IH.
Qed.

Lemma mem_split (c : ascii) (s : string) :
  str_mem c s = true ->
  exists pre rest, s = pre ++ String c rest /\ str_mem c pre = false.
Proof.
  induction s as [|a s IH]; intros Hs; [discriminate|].
  cbn [str_mem] in Hs.
  destruct (byte_eqb c a) eqn:Ha.
  - apply Ascii.eqb_eq in Ha; subst a. exists "", s. split; reflexivity.
  - destruct (IH Hs) as (pre & rest & -> & Hpre).
    exists (String a pre), rest. split; [reflexivity|].
    cbn [str_mem]. now rewrite Ha.
Qed.

(** X14: from an offset within the string, [indexAfter] with a one-byte
    separator gives the position of the first such byte at or after the
    offset, or -1 when there is none; from any other offset it
    panics. *)
Theorem indexAfter_first (s : string) (c : ascii) (i : Z) :
  (0 <= i <= len s ->
   exists x,
     indexAfter s (String c EmptyString) i = Ret x
     /\ ((x = -1 /\ forall k, i <= k -> at_ s k <> Ret c)
         \/ (i <= x < len s /\ at_ s x = Ret c
             /\ forall k, i <= k < x -> at_ s k <> Ret c)))
  /\ (~ 0 <= i <= len s ->
      indexAfter s (String c EmptyString) i = Panic SliceOutOfRange).
Proof.
  split.
  - intros Hi. destruct (split_at s i Hi) as (a & b & -> & Ha). subst i.
    unfold indexAfter. rewrite sliceFrom_app. cbn [bind]. unfold Index.
    destruct (str_mem c b) eqn:Hb.
    + destruct (mem_split c b Hb) as (pre & rest & -> & Hpre).
      rewrite index_from_found by assumption.
      pose proof (len_nonneg pre). pose proof (len_nonneg rest).
      destruct (Z.ltb_spec (len a + (0 + len pre)) (len a)); [lia|].
      eexists. split; [reflexivity|]. right.
      rewrite !len_app, len_String. split; [lia|]. split.
      * rewrite at_app_r by lia.
        replace (0 + len pre) with (len pre + 0) by lia.
        rewrite at_app_r by lia. apply at_head.
      * intros k Hk.
        replace k with (len a + (k - len a)) by lia.
        rewrite at_app_r by lia. rewrite at_app_l by lia.
        now apply at_not_mem.
    + rewrite index_from_absent by assumption.
      destruct (Z.ltb_spec (len a + -1) (len a)); [|lia].
      eexists. split; [reflexivity|]. left. split; [reflexivity|].
      intros k Hk. replace k with (len a + (k - len a)) by lia.
      rewrite at_app_r by lia. now apply at_not_mem.
  - intros Hi. unfold indexAfter, sliceFrom, slice.
    pose proof (len_nonneg s).
    destruct (Z.leb_spec 0 i); cbn [andb]; [|reflexivity].
    destruct (Z.leb_spec i (len s)); [lia | reflexivity].
Qed.

Lemma indexAfter_first_witness :
  exists x,
    indexAfter "30-DEC-1996" "-" 3 = Ret x
    /\ ((x = -1 /\ forall k, 3 <= k -> at_ "30-DEC-1996" k <> Ret "-"%char)
        \/ (3 <= x < len "30-DEC-1996" /\ at_ "30-DEC-1996" x = Ret "-"%char
            /\ forall k, 3 <= k < x -> at_ "30-DEC-1996" k <> Ret "-"%char)).
Proof.
  apply (proj1 (indexAfter_first "30-DEC-1996" "-" 3)).
  vm_compute. split; discriminate.
Defined.

Lemma scan_finds (s : string) (go_on : ascii -> bool) :
  forall (n : nat) (j : Z),
    0 <= j -> Z.of_nat n = len s - j - 1 ->
    exists r,
      scan n s j go_on = Ret r
      /\ match r with
         | Some x =>
             j <= x < len s
             /\ (forall k, j <= k < x ->
                           exists b, at_ s k = Ret b /\ go_on b = true)
             /\ exists b, at_ s x = Ret b /\ go_on b = false
         | None =>
             forall k, j <= k < len s ->
                       exists b, at_ s k = Ret b /\ go_on b = true
         end.
Proof.
  induction n as [|n IH]; intros j Hj Hn;
    destruct (at_in_range s j) as (b & Hb & _); try lia;
    cbn [scan]; rewrite Hb; cbn [bind];
    destruct (go_on b) eqn:Hgo.
  - exists None. split; [reflexivity|].
    intros k Hk. assert (k = j) as -> by lia. eauto.
  - exists (Some j). split; [reflexivity|]. split; [lia|].
    split; [intros k Hk; lia | eauto].
  - destruct (IH (j + 1)) as (r & Hr & Hspec); [lia | lia |].
    exists r. split; [assumption|].
    destruct r as [x|].
    + destruct Hspec as (Hx & Hbefore & Hat). split; [lia|].
      split; [|assumption].
      intros k Hk. destruct (Z.eq_dec k j) as [->|]; [eauto|].
      apply Hbefore. lia.
    + intros k Hk. destruct (Z.eq_dec k j) as [->|]; [eauto|].
      apply Hspec. lia.
  - exists (Some j). split; [reflexivity|]. split; [lia|].
    split; [intros k Hk; lia | eauto].
Qed.

Lemma skip_within (s : string) (i : Z) (c : ascii) :
  0 <= i < len s ->
  exists x,
    skip s i c = Ret x
    /\ ((x = -1 /\ forall k, i <= k < len s -> at_ s k = Ret c)
        \/ (i <= x < len s
            /\ (forall k, i <= k < x -> at_ s k = Ret c)
            /\ exists b, at_ s x = Ret b /\ b <> c)).
Proof.
  intros Hi. unfold skip, scan_from.
  destruct (scan_finds s (byte_eqb c) (Z.to_nat (len s - i - 1)) i)
    as (r & -> & Hspec); [lia | lia |].
  cbn [bind].
  assert (Heq : forall b, byte_eqb c b = true -> b = c)
    by (intros b H; symmetry; now apply Ascii.eqb_eq).
  destruct r as [x|].
  - destruct Hspec as (Hx & Hbefore & b & Hb & Hgo).
    exists x. split; [reflexivity|]. right. split; [assumption|]. split.
    + intros k Hk. destruct (Hbefore k Hk) as (b' & Hb' & Hgo').
      now rewrite (Heq b' Hgo') in Hb'.
    + exists b. split; [assumption|]. intros ->.
      unfold byte_eqb in Hgo. now rewrite Ascii.eqb_refl in Hgo.
  - exists (-1). split; [reflexivity|]. left. split; [reflexivity|].
    intros k Hk. destruct (Hspec k Hk) as (b' & Hb' & Hgo').
    now rewrite (Heq b' Hgo') in Hb'.
Qed.

Lemma skip_outside (s : string) (i : Z) (c : ascii) :
  ~ 0 <= i < len s -> skip s i c = Panic IndexOutOfRange.
Proof.
  intros Hi. unfold skip, scan_from.
  assert (Hat : at_ s i = Panic IndexOutOfRange).
  { unfold at_. destruct (Z.leb_spec 0 i); cbn [andb]; [|reflexivity].
    destruct (Z.ltb_spec i (len s)); [lia | reflexivity]. }
  destruct (Z.to_nat (len s - i - 1)); cbn [scan]; rewrite Hat; reflexivity.
Qed.

(** X15: from an offset within the string, [skip] gives the position of
    the first byte, at or after the offset, that is not the given one,
    all the bytes in between being that one, or -1 when the string ends
    in a run of that byte; from any other offset it panics. *)
Theorem skip_run (s : string) (i : Z) (c : ascii) :
  (0 <= i < len s ->
   exists x,
     skip s i c = Ret x
     /\ ((x = -1 /\ forall k, i <= k < len s -> at_ s k = Ret c)
         \/ (i <= x < len s
             /\ (forall k, i <= k < x -> at_ s k = Ret c)
             /\ exists b, at_ s x = Ret b /\ b <> c)))
  /\ (~ 0 <= i < len s -> skip s i c = Panic IndexOutOfRange).
Proof.
  split; [apply skip_within | apply skip_outside].
Qed.

Lemma skip_run_witness :
  exists x,
    skip "1996   17:44" 4 " " = Ret x
    /\ ((x = -1 /\ forall k, 4 <= k < len "1996   17:44" ->
                             at_ "1996   17:44" k = Ret " "%char)
        \/ (4 <= x < len "1996   17:44"
            /\ (forall k, 4 <= k < x -> at_ "1996   17:44" k = Ret " "%char)
            /\ exists b, at_ "1996   17:44" x = Ret b /\ b <> " "%char)).
Proof.
  apply (proj1 (skip_run "1996   17:44" 4 " ")).
  vm_compute. split; [discriminate | reflexivity].
Defined.

(** ** The dispatch and the entries *)

Lemma Index_not_after_first (sep c : ascii) (line : string) :
  at_ line 0 = Ret c ->
  (Index line (String sep EmptyString) <= 0
   <-> c = sep \/ str_mem sep line = false).
Proof.
  intros Hc. unfold Index.
  destruct (str_mem sep line) eqn:Hmem.
  - destruct (mem_split sep line Hmem) as (pre & rest & -> & Hpre).
    rewrite index_from_found by assumption.
    destruct pre as [|a pre].
    + cbn [append] in Hc. rewrite at_head in Hc. inversion Hc; subst c.
      change (len "") with 0. split; [auto | lia].
    + cbn [append] in Hc. rewrite at_head in Hc. inversion Hc; subst c.
      rewrite len_String. pose proof (len_nonneg pre).
      cbn [str_mem] in Hpre. apply orb_false_iff in Hpre as [Ha _].
      split; [lia|]. intros [Heq|Heq]; [subst a|discriminate].
      unfold byte_eqb in Ha. now rewrite Ascii.eqb_refl in Ha.
  - rewrite index_from_absent by assumption. split; [auto | lia].
Qed.

(** X16: a line that does not start with [+] gives no entry exactly when
    it is shorter than two bytes or of none of the formats: its first
    byte is none of [bcdlps-] and no digit, and the line starts with a
    semicolon or holds none. *)
Theorem ParseLine_no_entry (now currentYear : Z) (line : string) :
  HasPrefix line "+" = false ->
  (ParseLine now currentYear line = Ret None
   <-> len line < 2 \/ no_dialect line).
Proof.
  intros Hplus. unfold ParseLine, no_dialect. cbv zeta.
  destruct (Z.ltb_spec (len line) 2) as [Hlen|Hlen].
  { split; [now left | reflexivity]. }
  destruct (at_in_range line 0) as (c & Hc & _); [lia|].
  rewrite Hc. cbn [bind].
  assert (Hcp : byte_eqb c "+" = false).
  { destruct line as [|a l]; [discriminate|].
    rewrite at_head in Hc. inversion Hc; subst a.
    unfold HasPrefix in Hplus. rewrite prefix_byte in Hplus.
    unfold byte_eqb in *. now rewrite Ascii.eqb_sym. }
  rewrite Hcp.
  change (byte_val "0") with 48. change (byte_val "9") with 57.
  fold (is_digit c).
  pose proof (Index_not_after_first ";" c line Hc) as Hsemi.
  destruct (str_mem c "bcdlps-") eqn:Hunix.
  { split.
    - intros H. now apply parseUNIXStyle_returns_entry in H.
    - intros [H|(c' & Hc' & H & _)]; [lia|]. congruence. }
  destruct (Z.gtb_spec (Index line ";") 0) as [Hgt|Hle].
  { split.
    - intros H. now apply parseMultinet_returns_entry in H.
    - intros [H|(c' & Hc' & _ & _ & H)]; [lia|].
      assert (c' = c) by congruence. subst c'.
      apply Hsemi in H. lia. }
  destruct (is_digit c) eqn:Hdigit.
  { split.
    - intros H. now apply parseMSDOS_returns_entry in H.
    - intros [H|(c' & Hc' & _ & H & _)]; [lia|]. congruence. }
  split; [|reflexivity].
  intros _. right. exists c.
  split; [reflexivity|]. split; [assumption|]. split; [assumption|].
  now apply Hsemi.
Qed.

Lemma ParseLine_no_entry_witness :
  ParseLine 0 1970 ";a;b" = Ret None
  <-> len ";a;b" < 2 \/ no_dialect ";a;b".
Proof. apply (ParseLine_no_entry 0 1970 ";a;b"). reflexivity. Defined.

Lemma for_loop_invariant {S R : Type} (P : S -> Prop)
    (body : Z -> S -> result (ctl S R)) :
  (forall j s s',
      P s -> body j s = Ret (Next s') \/ body j s = Ret (Break s') -> P s') ->
  forall (n : nat) (j : Z) (s s' : S),
    P s -> for_loop n j body s = Ret (inl s') -> P s'.
Proof.
  intros Hbody. induction n as [|n IH]; intros j s s' Hs H; cbn [for_loop] in H.
  - now inversion H; subst.
  - destruct (body j s) as [[s1|s1|r]|p] eqn:Hb; try discriminate.
    + apply (IH (j + 1) s1 s'); [|assumption]. apply (Hbody j s); auto.
    + inversion H; subst. apply (Hbody j s); auto.
Qed.

(** Every way through a body that returns. *)
Ltac ways H :=
  cbv zeta beta in H;
  repeat match type of H with
    | Panic _ = Ret _ => discriminate H
    | Panic _ = Ret _ \/ Panic _ = Ret _ => destruct H as [H|H]; discriminate H
    | or_return _ _ _ = _ => unfold or_return at 1 in H
    | bind ?m _ = _ => destruct m eqn:?; cbn [bind] in H
    | match ?x with _ => _ end = _ => destruct x eqn:?
    end.

Lemma eplf_body_keeps_raw (buf : string) (j : Z) (st st' : Z * FTPListData) :
  eplf_body buf j st = Ret (Next st') \/ eplf_body buf j st = Ret (Break st') ->
  RawLine (snd st') = RawLine (snd st).
Proof.
  destruct st as [i f]. unfold eplf_body.
  intros [H|H]; ways H; inversion H; subst; reflexivity.
Qed.

Lemma unix_time_or_year_keeps (now currentYear : Z) (buf : string) (j : Z)
    (st st' : unix_state) :
  unix_time_or_year now currentYear buf j st = Ret (Some st') ->
  kept (u_fdata st') = kept (u_fdata st).
Proof.
  unfold unix_time_or_year. intros H.
  ways H; inversion H; subst; reflexivity.
Qed.

Lemma unix_token_keeps (now currentYear : Z) (buf : string) (j : Z)
    (st st' : unix_state) :
  unix_token now currentYear buf j st = Ret (Some st') ->
  kept (u_fdata st') = kept (u_fdata st).
Proof.
  unfold unix_token. intros H. cbv zeta in H.
  repeat match type of H with
    | (if ?b then _ else _) = _ => destruct b
    end;
    try (now apply unix_time_or_year_keeps in H);
    ways H; inversion H; subst; reflexivity.
Qed.

Lemma unix_body_keeps (now currentYear : Z) (buf : string) (j : Z)
    (st st' : unix_state) :
  unix_body now currentYear buf j st = Ret (Next st')
  \/ unix_body now currentYear buf j st = Ret (Break st') ->
  kept (u_fdata st') = kept (u_fdata st).
Proof.
  unfold unix_body. intros H.
  destruct (at_ buf j) as [bj|]; cbn [bind] in H;
    [|destruct H; discriminate].
  destruct (if byte_eqb bj " "
            then b <- at_ buf (j - 1);; Ret (negb (byte_eqb b " "))
            else Ret false) as [[|]|]; cbn [bind] in H;
    try (destruct H as [H|H]; inversion H; subst; reflexivity).
  destruct (unix_token now currentYear buf j st) as [[st1|]|] eqn:Htok;
    cbn [bind] in H;
    try (destruct H as [H|H]; inversion H; subst; reflexivity).
  apply unix_token_keeps in Htok.
  destruct H as [H|H]; inversion H; subst; exact Htok.
Qed.

Lemma link_body_keeps (j : Z) (f f' : FTPListData) :
  link_body j f = Ret (Next f') \/ link_body j f = Ret (Break f') ->
  kept f' = kept f /\ Size f' = Size f.
Proof.
  unfold link_body. intros [H|H]; ways H; inversion H; subst; split; reflexivity.
Qed.

Lemma unix_loop_keeps (now currentYear : Z) (buf : string) (n : nat)
    (f : FTPListData) (r : unix_state + unit) :
  for_loop n 1 (unix_body now currentYear buf) (unix_init f) = Ret r ->
  kept (u_fdata (from_loop r (unix_init f))) = kept f.
Proof.
  intros H. destruct r as [st|[]]; [|reflexivity]. cbn [from_loop].
  apply (for_loop_invariant (fun st => kept (u_fdata st) = kept f)) in H;
    [assumption| |reflexivity].
  intros j s s' Hs Hb. apply unix_body_keeps in Hb. congruence.
Qed.

Lemma link_loop_keeps (n : nat) (f : FTPListData) (r : FTPListData + unit) :
  for_loop n 0 link_body f = Ret r ->
  kept (from_loop r f) = kept f.
Proof.
  intros H. destruct r as [f'|[]]; [|reflexivity]. cbn [from_loop].
  apply (for_loop_invariant (fun g => kept g = kept f)) in H;
    [assumption| |reflexivity].
  intros j s s' Hs Hb. apply link_body_keeps in Hb as [Hb _]. congruence.
Qed.

Lemma parseUNIXStyle_keeps (now currentYear : Z) (buf : string)
    (f : FTPListData) :
  parseUNIXStyle now currentYear buf = Ret (Some f) ->
  exists c,
    at_ (Trim buf blanks) 0 = Ret c
    /\ kept f
       = (buf, byte_eqb c "d" || byte_eqb c "l",
          byte_eqb c "-" || byte_eqb c "l", UNKNOWN_ID_TYPE, "").
Proof.
  unfold parseUNIXStyle. cbv zeta. intros H.
  destruct (at_ (Trim buf blanks) 0) as [c|]; cbn [bind] in H; [|discriminate].
  exists c. split; [reflexivity|].
  set (f0 := if byte_eqb c "d" then set_TryCwd true (newFTPListData buf)
             else if byte_eqb c "-" then set_TryRetr true (newFTPListData buf)
             else if byte_eqb c "l"
                  then set_TryCwd true (set_TryRetr true (newFTPListData buf))
                  else newFTPListData buf) in *.
  assert (H0 : kept f0
               = (buf, byte_eqb c "d" || byte_eqb c "l",
                  byte_eqb c "-" || byte_eqb c "l", UNKNOWN_ID_TYPE, "")).
  { subst f0. destruct c as [[] [] [] [] [] [] [] []]; reflexivity. }
  destruct (for_loop _ 1 (unix_body now currentYear (Trim buf blanks))
              (unix_init f0)) as [r|] eqn:Hloop; cbn [bind] in H;
    [|discriminate].
  apply unix_loop_keeps in Hloop.
  set (f1 := set_Size (u_size (from_loop r (unix_init f0)))
               (u_fdata (from_loop r (unix_init f0)))) in *.
  assert (H1 : kept f1 = kept f0) by exact Hloop.
  clearbody f1. clear Hloop.
  assert (H2 : forall f2,
             (if byte_eqb c "l"
              then r0 <- for_loop (Z.to_nat (len (Name f1) - 3)) 0 link_body f1;;
                   Ret (from_loop r0 f1)
              else Ret f1) = Ret f2 -> kept f2 = kept f1).
  { intros f2 H2. destruct (byte_eqb c "l").
    - destruct (for_loop _ 0 link_body f1) as [r0|] eqn:Hlink;
        cbn [bind] in H2; [|discriminate].
      inversion H2; subst. now apply link_loop_keeps in Hlink.
    - now inversion H2. }
  match type of H with
  | bind ?m _ = _ => destruct m as [f2|] eqn:Hm; cbn [bind] in H
  end; [|discriminate].
  specialize (H2 f2 eq_refl).
  destruct (at_ (Trim buf blanks) 1) as [b1|]; cbn [bind] in H; [|discriminate].
  inversion H; subst f.
  rewrite <- H0, <- H1, <- H2.
  destruct (byte_eqb b1 " " || byte_eqb b1 "[");
    [destruct (len (Name f2) >? 3)|]; reflexivity.
Qed.

Lemma skip_lands (s : string) (i : Z) (c : ascii) (x : Z) :
  skip s i c = Ret x -> x <> -1 ->
  0 <= x < len s /\ exists b, at_ s x = Ret b /\ b <> c.
Proof.
  intros H Hx.
  destruct (Z.le_gt_cases 0 i) as [H0|H0];
    [destruct (Z.lt_ge_cases i (len s)) as [H1|H1]|];
    try (rewrite skip_outside in H by lia; discriminate).
  destruct (skip_within s i c) as (x' & Hs & Hcases); [lia|].
  rewrite Hs in H. inversion H; subst x'.
  destruct Hcases as [[Hm _]|(Hr & _ & Hb)]; [contradiction|].
  split; [lia | exact Hb].
Qed.

Lemma sliceFrom_suffix (s : string) (x : Z) (rest : string) :
  sliceFrom s x = Ret rest -> exists pre, s = pre ++ rest /\ len pre = x.
Proof.
  intros H.
  assert (Hx : 0 <= x <= len s).
  { unfold sliceFrom, slice in H.
    destruct (Z.leb_spec 0 x); cbn [andb] in H; [|discriminate].
    destruct (Z.leb_spec x (len s)); cbn [andb] in H; [lia | discriminate]. }
  destruct (split_at s x Hx) as (a & b & -> & Ha). subst x.
  rewrite sliceFrom_app in H. inversion H; subst. eauto.
Qed.

Lemma sliceTo_prefix (s : string) (x : Z) (pre : string) :
  sliceTo s x = Ret pre -> exists rest, s = pre ++ rest /\ len pre = x.
Proof.
  intros H.
  assert (Hx : 0 <= x <= len s).
  { unfold sliceTo, slice in H.
    destruct (Z.leb_spec 0 x); cbn [andb] in H; [|discriminate].
    destruct (Z.leb_spec x (len s)); cbn [andb] in H; [lia | discriminate]. }
  destruct (split_at s x Hx) as (a & b & -> & Ha). subst x.
  unfold sliceTo in H. rewrite sliceTo_app in H. inversion H; subst. eauto.
Qed.

(** The name of a VMS directory: [stem] is what comes before [.DIR]. *)
Lemma multinet_suffix (buf name : string) (i : Z) (f0 f1 : FTPListData) :
  sliceTo buf i = Ret name ->
  Name f0 = name ->
  (if i >? 4
   then ext <- slice buf (i - 4) i ;;
        if String.eqb ext ".DIR"
        then name <- slice (Name f0) 0 (len (Name f0) - 4) ;;
             Ret (set_TryCwd true (set_Name name f0))
        else Ret f0
   else Ret f0) = Ret f1 ->
  (exists stem,
      4 < i /\ name = stem ++ ".DIR"
      /\ f1 = set_TryCwd true (set_Name stem f0))
  \/ (f1 = f0 /\ ~ (4 < i /\ exists stem, name = stem ++ ".DIR")).
Proof.
  intros Hname Hf0 H.
  apply sliceTo_prefix in Hname as (rest & -> & Hi).
  destruct (Z.gtb_spec i 4) as [Hgt|Hle];
    [|inversion H; subst; right; split; [reflexivity | lia]].
  destruct (split_at name (i - 4)) as (stem & ext & -> & Hstem); [lia|].
  rewrite len_app in Hi.
  assert (Hext : slice ((stem ++ ext) ++ rest) (i - 4) i = Ret ext).
  { rewrite slice_app_l by (rewrite len_app; lia).
    replace (i - 4) with (len stem + 0) by lia.
    replace i with (len stem + len ext) by lia.
    rewrite slice_app_r by lia. apply slice_all. }
  rewrite Hext in H. cbn [bind] in H.
  destruct (String.eqb_spec ext ".DIR") as [Heq|Hne].
  - subst ext. left. exists stem. split; [assumption|]. split; [reflexivity|].
    rewrite Hf0 in H. rewrite len_app in H.
    change (len ".DIR") with 4 in H.
    replace (len stem + 4 - 4) with (len stem) in H by lia.
    rewrite sliceTo_app in H. cbn [bind] in H. now inversion H.
  - right. split; [now inversion H|].
    intros (_ & stem' & Heq). apply Hne.
    assert (Hl : len stem' = len stem).
    { apply (f_equal len) in Heq. rewrite !len_app in Heq.
      change (len ".DIR") with 4 in Heq. lia. }
    assert (Hs : sliceFrom (stem ++ ext) (len stem) = Ret ext)
      by apply sliceFrom_app.
    rewrite Heq, <- Hl, sliceFrom_app in Hs. now inversion Hs.
Qed.

Lemma parseMultinet_entry (buf : string) (i : Z) (f : FTPListData) :
  parseMultinet buf i = Ret (Some f) ->
  exists name,
    sliceTo (Trim buf blanks) i = Ret name
    /\ name = Name f ++ (if TryCwd f then ".DIR" else "")
    /\ (TryCwd f = true <-> 4 < i /\ exists stem, name = stem ++ ".DIR")
    /\ TryRetr f = negb (TryCwd f)
    /\ Size f = 0
    /\ RawLine f = buf.
Proof.
  unfold parseMultinet. cbv zeta. intros H.
  destruct (sliceTo (Trim buf blanks) i) as [name|] eqn:Hn; cbn [bind] in H;
    [|discriminate].
  exists name. split; [reflexivity|].
  match type of H with
  | bind ?m _ = _ => destruct m as [f1|] eqn:Hf1; cbn [bind] in H
  end; [|discriminate].
  apply (multinet_suffix _ name) in Hf1; [|assumption|reflexivity].
  set (f2 := if negb (TryCwd f1) then set_TryRetr true f1 else f1) in H.
  assert (Hf2 : name = Name f2 ++ (if TryCwd f2 then ".DIR" else "")
                /\ (TryCwd f2 = true
                    <-> 4 < i /\ exists stem, name = stem ++ ".DIR")
                /\ TryRetr f2 = negb (TryCwd f2)
                /\ Size f2 = 0
                /\ RawLine f2 = buf).
  { subst f2. destruct Hf1 as [(stem & Hi & -> & ->)|[-> Hnot]]; cbn.
    - repeat split; eauto.
    - rewrite app_empty_r. repeat split; try discriminate; tauto. }
  clearbody f2. clear Hf1 Hn.
  assert (Hf : Name f = Name f2 /\ TryCwd f = TryCwd f2
               /\ TryRetr f = TryRetr f2 /\ Size f = Size f2
               /\ RawLine f = RawLine f2).
  { clear Hf2. ways H; inversion H; subst; repeat split. }
  destruct Hf as (-> & -> & -> & -> & ->). exact Hf2.
Qed.

Lemma parseMSDOS_entry (buf : string) (f : FTPListData) :
  parseMSDOS buf = Ret (Some f) ->
  RawLine f = buf
  /\ ((MtimeType f = REMOTE_MINUTE_MTIME_TYPE
       /\ TryRetr f = negb (TryCwd f)
       /\ (TryCwd f = true -> Size f = 0)
       /\ exists pre b rest,
            Trim buf blanks = pre ++ Name f
            /\ Name f = String b rest /\ b <> " "%char)
      \/ (MtimeType f = UNKNOWN_MTIME_TYPE
          /\ Mtime f = zeroTime
          /\ Name f = ""
          /\ (TryCwd f = false \/ TryRetr f = false)
          /\ (TryCwd f = true -> Size f = 0))).
Proof.
  unfold parseMSDOS, step_over. intros H.
  ways H; inversion H; subst; clear H; (split; [reflexivity|]);
    try (right; cbn; repeat split; auto; discriminate);
    left; cbn; (split; [reflexivity|]); (split; [reflexivity|]);
    (split; [try reflexivity; discriminate|]);
    match goal with
    | Hs : skip _ _ " " = Ret ?x, Hx : (?x =? -1) = false,
      Hn : sliceFrom _ ?x = Ret ?n |- _ =>
        apply Z.eqb_neq in Hx;
        destruct (skip_lands _ _ _ _ Hs Hx) as (Hr & b & Hb & Hne);
        apply sliceFrom_suffix in Hn as (pre & Hpre & Hlen);
        exists pre, b; rewrite Hpre in Hb;
        replace x with (len pre + 0) in Hb by lia;
        rewrite at_app_r in Hb by lia;
        destruct n as [|b' rest];
        [unfold at_ in Hb; discriminate|];
        rewrite at_head in Hb; inversion Hb; subst b';
        exists rest; auto
    end.
Qed.

(** X17: an entry that [ParseLine] gives holds the line as it was
    handed over, before any trimming. *)
Theorem ParseLine_keeps_raw_line (now currentYear : Z) (line : string)
    (fdata : FTPListData) :
  ParseLine now currentYear line = Ret (Some fdata) ->
  RawLine fdata = line.
Proof.
  unfold ParseLine. cbv zeta. intros H.
  destruct (len line <? 2); [discriminate|].
  destruct (at_ line 0) as [c|]; cbn [bind] in H; [|discriminate].
  destruct (byte_eqb c "+").
  { unfold parseEPLF in H. cbv zeta in H.
    destruct (for_loop _ 1 (eplf_body (Trim line blanks))
                (1, newFTPListData line)) as [[[i f]|early]|] eqn:Hloop;
      cbn [bind] in H; try discriminate.
    - inversion H; subst f.
      apply (for_loop_invariant (fun st => RawLine (snd st) = line)) in Hloop;
        [assumption| |reflexivity].
      intros j s s' Hs Hb. apply eplf_body_keeps_raw in Hb. congruence.
    - inversion H; subst early.
      apply for_loop_return in Hloop as (j & [i f] & Hbody).
      apply eplf_body_return in Hbody as [Hnone _]. discriminate. }
  destruct (str_mem c "bcdlps-").
  { apply parseUNIXStyle_keeps in H as (c' & _ & H).
    unfold kept in H. now inversion H. }
  destruct (Index line ";" >? 0).
  { apply parseMultinet_entry in H as (name & H). tauto. }
  destruct (_ && _); [|discriminate].
  now apply parseMSDOS_entry in H.
Qed.

Lemma ParseLine_keeps_raw_line_witness :
  RawLine (set_Name "pub" (set_TryCwd true (newFTPListData ("+/," ++ String tab "pub  "))))
  = "+/," ++ String tab "pub  ".
Proof.
  apply (ParseLine_keeps_raw_line 0 1970). vm_compute. reflexivity.
Defined.

(** X18: in an entry of the UNIX-style parser, what to try is read off
    the first byte of the trimmed line: a directory for [d], a file for
    [-], both for [l], neither for any other byte; and no identifier is
    ever set. *)
Theorem parseUNIXStyle_hints (now currentYear : Z) (buf : string)
    (fdata : FTPListData) :
  parseUNIXStyle now currentYear buf = Ret (Some fdata) ->
  exists c,
    at_ (Trim buf blanks) 0 = Ret c
    /\ TryCwd fdata = (byte_eqb c "d" || byte_eqb c "l")
    /\ TryRetr fdata = (byte_eqb c "-" || byte_eqb c "l")
    /\ IdType fdata = UNKNOWN_ID_TYPE
    /\ Id fdata = "".
Proof.
  intros H. apply parseUNIXStyle_keeps in H as (c & Hc & H).
  exists c. unfold kept in H. injection H as HR HC HT HI HD.
  repeat (split; [assumption|]). assumption.
Qed.

Lemma parseUNIXStyle_hints_witness :
  exists c,
    at_ (Trim unix_dir_line blanks) 0 = Ret c
    /\ TryCwd (entry_of (parseUNIXStyle 0 1970 unix_dir_line))
       = (byte_eqb c "d" || byte_eqb c "l")
    /\ TryRetr (entry_of (parseUNIXStyle 0 1970 unix_dir_line))
       = (byte_eqb c "-" || byte_eqb c "l")
    /\ IdType (entry_of (parseUNIXStyle 0 1970 unix_dir_line)) = UNKNOWN_ID_TYPE
    /\ Id (entry_of (parseUNIXStyle 0 1970 unix_dir_line)) = "".
Proof.
  apply (parseUNIXStyle_hints 0 1970 unix_dir_line). vm_compute. reflexivity.
Defined.

(** X19: in an entry of the VMS parser the name is the text before the
    semicolon, less a final [.DIR] when there is one and at least one
    byte comes before it; that is the case exactly for the entries to
    change into, the others being the ones to retrieve; and no size is
    ever read. *)
Theorem parseMultinet_name (buf : string) (i : Z) (fdata : FTPListData) :
  parseMultinet buf i = Ret (Some fdata) ->
  exists name,
    sliceTo (Trim buf blanks) i = Ret name
    /\ name = Name fdata ++ (if TryCwd fdata then ".DIR" else "")
    /\ (TryCwd fdata = true <-> 4 < i /\ exists stem, name = stem ++ ".DIR")
    /\ TryRetr fdata = negb (TryCwd fdata)
    /\ Size fdata = 0.
Proof.
  intros H. apply parseMultinet_entry in H as (name & H).
  exists name. tauto.
Qed.

Lemma parseMultinet_name_witness :
  exists name,
    sliceTo (Trim vms_dir_line blanks) 8 = Ret name
    /\ name = Name (entry_of (parseMultinet vms_dir_line 8))
              ++ (if TryCwd (entry_of (parseMultinet vms_dir_line 8))
                  then ".DIR" else "")
    /\ (TryCwd (entry_of (parseMultinet vms_dir_line 8)) = true
        <-> 4 < 8 /\ exists stem, name = stem ++ ".DIR")
    /\ TryRetr (entry_of (parseMultinet vms_dir_line 8))
       = negb (TryCwd (entry_of (parseMultinet vms_dir_line 8)))
    /\ Size (entry_of (parseMultinet vms_dir_line 8)) = 0.
Proof.
  apply (parseMultinet_name vms_dir_line 8). vm_compute. reflexivity.
Defined.

(** X20: an entry of the MS-DOS parser is of one of two kinds.  Either
    the whole line was read: the time is exact to the minute, the entry
    is to change into or to retrieve and not both, a directory has size
    0, and the name is the end of the trimmed line, from a byte that is
    not a space.  Or the line ended early: the entry has no name and no
    time, whatever was read before. *)
Theorem parseMSDOS_complete_or_blank (buf : string) (fdata : FTPListData) :
  parseMSDOS buf = Ret (Some fdata) ->
  (MtimeType fdata = REMOTE_MINUTE_MTIME_TYPE
   /\ TryRetr fdata = negb (TryCwd fdata)
   /\ (TryCwd fdata = true -> Size fdata = 0)
   /\ exists pre b rest,
        Trim buf blanks = pre ++ Name fdata
        /\ Name fdata = String b rest /\ b <> " "%char)
  \/ (MtimeType fdata = UNKNOWN_MTIME_TYPE
      /\ Mtime fdata = zeroTime
      /\ Name fdata = ""
      /\ (TryCwd fdata = false \/ TryRetr fdata = false)
      /\ (TryCwd fdata = true -> Size fdata = 0)).
Proof.
  intros H. now apply parseMSDOS_entry in H.
Qed.

Lemma parseMSDOS_complete_or_blank_witness :
  (MtimeType (entry_of (parseMSDOS msdos_dir_line)) = REMOTE_MINUTE_MTIME_TYPE
   /\ TryRetr (entry_of (parseMSDOS msdos_dir_line))
      = negb (TryCwd (entry_of (parseMSDOS msdos_dir_line)))
   /\ (TryCwd (entry_of (parseMSDOS msdos_dir_line)) = true ->
       Size (entry_of (parseMSDOS msdos_dir_line)) = 0)
   /\ exists pre b rest,
        Trim msdos_dir_line blanks
        = pre ++ Name (entry_of (parseMSDOS msdos_dir_line))
        /\ Name (entry_of (parseMSDOS msdos_dir_line)) = String b rest
        /\ b <> " "%char)
  \/ (MtimeType (entry_of (parseMSDOS msdos_dir_line)) = UNKNOWN_MTIME_TYPE
      /\ Mtime (entry_of (parseMSDOS msdos_dir_line)) = zeroTime
      /\ Name (entry_of (parseMSDOS msdos_dir_line)) = ""
      /\ (TryCwd (entry_of (parseMSDOS msdos_dir_line)) = false
          \/ TryRetr (entry_of (parseMSDOS msdos_dir_line)) = false)
      /\ (TryCwd (entry_of (parseMSDOS msdos_dir_line)) = true ->
          Size (entry_of (parseMSDOS msdos_dir_line)) = 0)).
Proof.
  apply (parseMSDOS_complete_or_blank msdos_dir_line). vm_compute. reflexivity.
Defined.

(** ** The name of a UNIX-style entry *)

Lemma for_loop_break {S R : Type} (P : S -> Prop)
    (body : Z -> S -> result (ctl S R)) :
  (forall j s s1, P s -> body j s = Ret (Next s1) -> P s1) ->
  forall (n : nat) (j : Z) (s s' : S),
    P s -> for_loop n j body s = Ret (inl s') ->
    P s' \/ exists j0 s0, P s0 /\ body j0 s0 = Ret (Break s').
Proof.
  intros Hnext. induction n as [|n IH]; intros j s s' Hs H; cbn [for_loop] in H.
  - inversion H; subst. now left.
  - destruct (body j s) as [[s1|s1|r]|p] eqn:Hb; try discriminate.
    + apply (IH (j + 1) s1 s'); [|assumption]. now apply (Hnext j s).
    + inversion H; subst. right. eauto.
Qed.

Lemma link_body_next (j : Z) (f f' : FTPListData) :
  link_body j f = Ret (Next f') -> f' = f.
Proof. unfold link_body. intros H. ways H; now inversion H. Qed.

Lemma link_body_break (j : Z) (f f' : FTPListData) :
  link_body j f = Ret (Break f') ->
  Name f = Name f' ++ " -> " ++ LinkDest f'.
Proof.
  unfold link_body. intros H.
  destruct (slice (Name f) j (j + 4)) as [w|] eqn:Hw; cbn [bind] in H;
    [|discriminate].
  destruct (String.eqb_spec w " -> ") as [->|]; [|discriminate].
  destruct (sliceTo (Name f) j) as [name|] eqn:Hname; cbn [bind] in H;
    [|discriminate].
  destruct (sliceFrom (Name f) (j + 4)) as [dest|] eqn:Hdest; cbn [bind] in H;
    [|discriminate].
  inversion H; subst f'. cbn [Name LinkDest set_LinkDest set_Name].
  apply sliceTo_prefix in Hname as (rest & Hsplit & Hlen).
  rewrite Hsplit in *. subst j. f_equal.
  replace (len name) with (len name + 0) in Hw at 1 by lia.
  rewrite slice_app_r in Hw by lia.
  apply sliceTo_prefix in Hw as (rest' & -> & _).
  unfold sliceFrom in Hdest. rewrite len_app in Hdest.
  rewrite slice_app_r in Hdest by lia.
  change 4 with (len " -> ") in Hdest. fold (sliceFrom (" -> " ++ rest') (len " -> ")) in Hdest.
  rewrite sliceFrom_app in Hdest. now inversion Hdest.
Qed.

Lemma unix_time_or_year_names (now currentYear : Z) (buf : string) (j : Z)
    (st st' : unix_state) :
  unix_time_or_year now currentYear buf j st = Ret (Some st') ->
  LinkDest (u_fdata st') = LinkDest (u_fdata st)
  /\ exists pre, buf = pre ++ Name (u_fdata st').
Proof.
  unfold unix_time_or_year. intros H.
  ways H; inversion H; subst; clear H; (split; [reflexivity|]);
    match goal with
    | Hn : sliceFrom buf _ = Ret ?n |- _ =>
        apply sliceFrom_suffix in Hn as (pre & Hpre & _); exists pre; exact Hpre
    end.
Qed.

Lemma unix_token_names (now currentYear : Z) (buf : string) (j : Z)
    (st st' : unix_state) :
  unix_token now currentYear buf j st = Ret (Some st') ->
  LinkDest (u_fdata st') = LinkDest (u_fdata st)
  /\ (Name (u_fdata st') = Name (u_fdata st)
      \/ exists pre, buf = pre ++ Name (u_fdata st')).
Proof.
  unfold unix_token. intros H. cbv zeta in H.
  repeat match type of H with
    | (if ?b then _ else _) = _ => destruct b
    end;
    try (apply unix_time_or_year_names in H as [Hl Hn]; now auto);
    ways H; inversion H; subst; split; auto.
Qed.

Lemma unix_body_names (now currentYear : Z) (buf : string) (j : Z)
    (st st' : unix_state) :
  unix_body now currentYear buf j st = Ret (Next st')
  \/ unix_body now currentYear buf j st = Ret (Break st') ->
  LinkDest (u_fdata st') = LinkDest (u_fdata st)
  /\ (Name (u_fdata st') = Name (u_fdata st)
      \/ exists pre, buf = pre ++ Name (u_fdata st')).
Proof.
  unfold unix_body. intros H.
  destruct (at_ buf j) as [bj|]; cbn [bind] in H;
    [|destruct H; discriminate].
  destruct (if byte_eqb bj " "
            then b <- at_ buf (j - 1);; Ret (negb (byte_eqb b " "))
            else Ret false) as [[|]|]; cbn [bind] in H;
    try (destruct H as [H|H]; inversion H; subst; now auto).
  destruct (unix_token now currentYear buf j st) as [[st1|]|] eqn:Htok;
    cbn [bind] in H;
    try (destruct H as [H|H]; inversion H; subst; now auto).
  apply unix_token_names in Htok.
  destruct H as [H|H]; inversion H; subst; exact Htok.
Qed.

Lemma unix_loop_names (now currentYear : Z) (buf : string) (n : nat)
    (f : FTPListData) (r : unix_state + unit) :
  Name f = "" -> LinkDest f = "" ->
  for_loop n 1 (unix_body now currentYear buf) (unix_init f) = Ret r ->
  LinkDest (u_fdata (from_loop r (unix_init f))) = ""
  /\ exists pre, buf = pre ++ Name (u_fdata (from_loop r (unix_init f))).
Proof.
  intros Hn Hl H.
  assert (H0 : LinkDest (u_fdata (unix_init f)) = ""
               /\ exists pre, buf = pre ++ Name (u_fdata (unix_init f))).
  { split; [exact Hl|]. exists buf. cbn. rewrite Hn. now rewrite app_empty_r. }
  destruct r as [st|[]]; [|exact H0]. cbn [from_loop].
  apply (for_loop_invariant
           (fun st => LinkDest (u_fdata st) = ""
                      /\ exists pre, buf = pre ++ Name (u_fdata st))) in H;
    [assumption| |exact H0].
  intros j s s' [Hsl Hsn] Hb.
  apply unix_body_names in Hb as [Hbl [Hbn|Hbn]].
  - split; [congruence|]. now rewrite Hbn.
  - split; [congruence | assumption].
Qed.

Lemma link_loop_names (n : nat) (f : FTPListData) (r : FTPListData + unit) :
  for_loop n 0 link_body f = Ret r ->
  from_loop r f = f
  \/ Name f = Name (from_loop r f) ++ " -> " ++ LinkDest (from_loop r f).
Proof.
  intros H. destruct r as [f'|[]]; [|now left]. cbn [from_loop].
  apply (for_loop_break (fun g => g = f)) in H.
  - destruct H as [H|(j0 & s0 & -> & H)]; [now left|].
    right. now apply link_body_break in H.
  - intros j s s1 -> Hb. now apply link_body_next in Hb.
  - reflexivity.
Qed.

(** X21: the name of an entry of the UNIX-style parser ends the trimmed
    line; on a link line whose name holds [ -> ], the name, the arrow
    and the link destination end it, and otherwise no destination is
    set.  The name is given as it stands, or, when the second byte of
    the line is a space or a bracket and the name is longer than three
    bytes, without the spaces around it. *)
Theorem parseUNIXStyle_name_ends_line (now currentYear : Z) (buf : string)
    (fdata : FTPListData) :
  parseUNIXStyle now currentYear buf = Ret (Some fdata) ->
  exists pre n b1,
    at_ (Trim buf blanks) 1 = Ret b1
    /\ Name fdata
       = (if (byte_eqb b1 " " || byte_eqb b1 "[") && (len n >? 3)
          then TrimSpace n else n)
    /\ ((Trim buf blanks = pre ++ n /\ LinkDest fdata = "")
        \/ (Trim buf blanks = pre ++ n ++ " -> " ++ LinkDest fdata
            /\ at_ (Trim buf blanks) 0 = Ret "l"%char)).
Proof.
  unfold parseUNIXStyle. cbv zeta. intros H.
  destruct (at_ (Trim buf blanks) 0) as [c|] eqn:Hc; cbn [bind] in H;
    [|discriminate].
  set (f0 := if byte_eqb c "d" then set_TryCwd true (newFTPListData buf)
             else if byte_eqb c "-" then set_TryRetr true (newFTPListData buf)
             else if byte_eqb c "l"
                  then set_TryCwd true (set_TryRetr true (newFTPListData buf))
                  else newFTPListData buf) in *.
  assert (H0 : Name f0 = "" /\ LinkDest f0 = "").
  { subst f0.
    destruct (byte_eqb c "d"), (byte_eqb c "-"), (byte_eqb c "l");
      split; reflexivity. }
  destruct H0 as [H0n H0l].
  destruct (for_loop _ 1 (unix_body now currentYear (Trim buf blanks))
              (unix_init f0)) as [r|] eqn:Hloop; cbn [bind] in H;
    [|discriminate].
  apply unix_loop_names in Hloop as [Hl (pre & Hpre)]; [|assumption|assumption].
  set (f1 := set_Size (u_size (from_loop r (unix_init f0)))
               (u_fdata (from_loop r (unix_init f0)))) in *.
  change (Name (u_fdata (from_loop r (unix_init f0)))) with (Name f1) in Hpre.
  change (LinkDest (u_fdata (from_loop r (unix_init f0)))) with (LinkDest f1)
    in Hl.
  clearbody f1. clearbody f0.
  assert (H2 : forall f2,
             (if byte_eqb c "l"
              then r0 <- for_loop (Z.to_nat (len (Name f1) - 3)) 0 link_body f1;;
                   Ret (from_loop r0 f1)
              else Ret f1) = Ret f2 ->
             f2 = f1
             \/ (c = "l"%char
                 /\ Name f1 = Name f2 ++ " -> " ++ LinkDest f2)).
  { intros f2 H2. destruct (byte_eqb c "l") eqn:Hcl.
    - destruct (for_loop _ 0 link_body f1) as [r0|] eqn:Hlink;
        cbn [bind] in H2; [|discriminate].
      inversion H2; subst f2.
      apply link_loop_names in Hlink as [Hlink|Hlink]; [now left|].
      right. split; [|assumption]. symmetry. now apply Ascii.eqb_eq.
    - left. now inversion H2. }
  match type of H with
  | bind ?m _ = _ => destruct m as [f2|] eqn:Hm; cbn [bind] in H
  end; [|discriminate].
  specialize (H2 f2 eq_refl).
  destruct (at_ (Trim buf blanks) 1) as [b1|]; cbn [bind] in H; [|discriminate].
  inversion H; subst fdata. clear H.
  exists pre, (Name f2), b1. split; [reflexivity|]. split.
  - destruct (byte_eqb b1 " " || byte_eqb b1 "["); cbn [andb];
      [destruct (len (Name f2) >? 3)|]; reflexivity.
  - assert (Hld : LinkDest
                    (if byte_eqb b1 " " || byte_eqb b1 "["
                     then if len (Name f2) >? 3
                          then set_Name (TrimSpace (Name f2)) f2 else f2
                     else f2) = LinkDest f2).
    { destruct (byte_eqb b1 " " || byte_eqb b1 "[");
        [destruct (len (Name f2) >? 3)|]; reflexivity. }
    rewrite Hld.
    destruct H2 as [->|[-> Hsplit]].
    + left. split; assumption.
    + right. split; [|reflexivity]. now rewrite Hpre, Hsplit.
Qed.

Lemma parseUNIXStyle_name_ends_line_witness :
  exists pre n b1,
    at_ (Trim unix_link_line blanks) 1 = Ret b1
    /\ Name (entry_of (parseUNIXStyle 0 1970 unix_link_line))
       = (if (byte_eqb b1 " " || byte_eqb b1 "[") && (len n >? 3)
          then TrimSpace n else n)
    /\ ((Trim unix_link_line blanks = pre ++ n
         /\ LinkDest (entry_of (parseUNIXStyle 0 1970 unix_link_line)) = "")
        \/ (Trim unix_link_line blanks
            = pre ++ n ++ " -> "
              ++ LinkDest (entry_of (parseUNIXStyle 0 1970 unix_link_line))
            /\ at_ (Trim unix_link_line blanks) 0 = Ret "l"%char)).
Proof.
  apply (parseUNIXStyle_name_ends_line 0 1970 unix_link_line).
  vm_compute. reflexivity.
Defined.

(** ** The name of an EPLF entry *)

Lemma for_loop_first_break {S R : Type} (Q : Z -> Prop) (P : S -> Prop)
    (body : Z -> S -> result (ctl S R)) :
  (forall j s s1, P s -> body j s = Ret (Next s1) -> P s1 /\ Q j) ->
  forall (n : nat) (j : Z) (s s' : S),
    P s -> for_loop n j body s = Ret (inl s') ->
    (P s' /\ forall k, j <= k < j + Z.of_nat n -> Q k)
    \/ exists j0 s0,
         j <= j0 < j + Z.of_nat n /\ P s0
         /\ (forall k, j <= k < j0 -> Q k)
         /\ body j0 s0 = Ret (Break s').
Proof.
  intros Hnext. induction n as [|n IH]; intros j s s' Hs H; cbn [for_loop] in H.
  - inversion H; subst. left. split; [assumption|]. intros k Hk. lia.
  - destruct (body j s) as [[s1|s1|r]|p] eqn:Hb; try discriminate.
    + destruct (Hnext j s s1 Hs Hb) as [Hs1 Hq].
      destruct (IH (j + 1) s1 s' Hs1 H)
        as [[Hs' Hall]|(j0 & s0 & Hj0 & Hs0 & Hbefore & Hbreak)].
      * left. split; [assumption|]. intros k Hk.
        destruct (Z.eq_dec k j) as [->|]; [assumption|]. apply Hall. lia.
      * right. exists j0, s0. split; [lia|]. split; [assumption|].
        split; [|assumption]. intros k Hk.
        destruct (Z.eq_dec k j) as [->|]; [assumption|]. apply Hbefore. lia.
    + inversion H; subst. right. exists j, s.
      split; [lia|]. split; [assumption|]. split; [|assumption].
      intros k Hk. lia.
Qed.

Lemma eplf_body_next (buf : string) (j : Z) (st st' : Z * FTPListData) :
  eplf_body buf j st = Ret (Next st') ->
  Name (snd st') = Name (snd st) /\ at_ buf j <> Ret tab.
Proof.
  destruct st as [i f]. unfold eplf_body. intros H.
  destruct (at_ buf j) as [bj|]; cbn [bind] in H; [|discriminate].
  destruct (byte_eqb bj tab) eqn:Htab.
  { destruct (sliceFrom buf (j + 1)); cbn [bind] in H; discriminate. }
  split.
  - ways H; inversion H; subst; reflexivity.
  - intros Heq. inversion Heq; subst bj.
    unfold byte_eqb in Htab. now rewrite Ascii.eqb_refl in Htab.
Qed.

Lemma eplf_body_break (buf : string) (j : Z) (st st' : Z * FTPListData) :
  eplf_body buf j st = Ret (Break st') ->
  exists pre, buf = pre ++ String tab (Name (snd st')) /\ len pre = j.
Proof.
  destruct st as [i f]. unfold eplf_body. intros H.
  destruct (at_ buf j) as [bj|] eqn:Hj; cbn [bind] in H; [|discriminate].
  destruct (byte_eqb bj tab) eqn:Htab; [|ways H; discriminate].
  apply Ascii.eqb_eq in Htab; subst bj.
  destruct (sliceFrom buf (j + 1)) as [name|] eqn:Hname; cbn [bind] in H;
    [|discriminate].
  inversion H; subst st'. cbn [snd Name set_Name].
  apply sliceFrom_suffix in Hname as (pre' & -> & Hlen).
  assert (Hj0 : 0 <= j).
  { unfold at_ in Hj. destruct (Z.leb_spec 0 j); [assumption | discriminate]. }
  destruct (split_at pre' j) as (pre & x & -> & Hpre); [lia|].
  exists pre. split; [|assumption].
  rewrite len_app in Hlen.
  rewrite app_assoc_str in Hj |- *.
  replace j with (len pre + 0) in Hj by lia.
  rewrite at_app_r in Hj by lia.
  destruct x as [|b [|b' x]];
    [change (len "") with 0 in Hlen; lia| |
     rewrite !len_String in Hlen; pose proof (len_nonneg x); lia].
  cbn [append] in Hj |- *. rewrite at_head in Hj. now inversion Hj.
Qed.

(** X22: in an entry of the EPLF parser the name is all that follows the
    first horizontal tab found after the first byte of the trimmed line,
    further tabs included; when there is no such tab the entry has no
    name. *)
Theorem parseEPLF_name_after_tab (buf : string) (fdata : FTPListData) :
  parseEPLF buf = Ret (Some fdata) ->
  (Name fdata = ""
   /\ forall k, 1 <= k < len (Trim buf blanks) ->
                at_ (Trim buf blanks) k <> Ret tab)
  \/ exists pre,
       Trim buf blanks = pre ++ String tab (Name fdata)
       /\ 1 <= len pre
       /\ forall k, 1 <= k < len pre -> at_ (Trim buf blanks) k <> Ret tab.
Proof.
  unfold parseEPLF. cbv zeta. intros H.
  destruct (for_loop _ 1 (eplf_body (Trim buf blanks)) (1, newFTPListData buf))
    as [[[i f]|early]|] eqn:Hloop; cbn [bind] in H; try discriminate.
  - inversion H; subst f. clear H.
    apply (for_loop_first_break
             (fun k => at_ (Trim buf blanks) k <> Ret tab)
             (fun st => Name (snd st) = "")) in Hloop.
    + destruct Hloop as [[Hname Hall]|(j0 & s0 & Hj0 & _ & Hbefore & Hbreak)].
      * left. split; [exact Hname|]. intros k Hk. apply Hall. lia.
      * right. apply eplf_body_break in Hbreak as (pre & Hpre & Hlen).
        exists pre. cbn [snd] in Hpre. split; [assumption|].
        split; [lia|]. intros k Hk. apply Hbefore. lia.
    + intros j s s1 Hs Hb. apply eplf_body_next in Hb as [Hn Hq].
      split; [congruence | assumption].
    + reflexivity.
  - inversion H; subst early.
    apply for_loop_return in Hloop as (j & [i f] & Hbody).
    apply eplf_body_return in Hbody as [Hnone _]. discriminate.
Qed.

Lemma parseEPLF_name_after_tab_witness :
  (Name (entry_of (parseEPLF eplf_example)) = ""
   /\ forall k, 1 <= k < len (Trim eplf_example blanks) ->
                at_ (Trim eplf_example blanks) k <> Ret tab)
  \/ exists pre,
       Trim eplf_example blanks
       = pre ++ String tab (Name (entry_of (parseEPLF eplf_example)))
       /\ 1 <= len pre
       /\ forall k, 1 <= k < len pre ->
                    at_ (Trim eplf_example blanks) k <> Ret tab.
Proof.
  apply (parseEPLF_name_after_tab eplf_example). vm_compute. reflexivity.
Defined.
